(** * Offline synchronisation layer of the to-do application

    A shallow embedding of [client/src/services/storageService.js]
    (classes [StorageService] and [SyncService]), of
    [client/src/services/apiService.js] ([ApiService.request]), of
    [client/src/services/taskService.js] and of the task context of
    [client/src/pages/Tasks.jsx] ([taskReducer] and the mutation functions
    of [TaskProvider]), followed by the properties of the specification
    that concern them and by further properties of the code.

    Conventions of the embedding:
    - a JavaScript exception is a value of [js_error]; code that may throw
      returns a [result];
    - [Date.now()] / [new Date()] and [Math.random()] are inputs of the
      functions that call them ([now] is the clock reading in
      milliseconds, [rnd] the decimal rendering of the random draw);
    - [JSON.stringify] followed by [JSON.parse] is the identity on the
      values kept in [localStorage];
    - an IndexedDB object store is a list of records sorted by primary key,
      which is the order in which [getAll()] returns them. *)

From Stdlib Require Import String Ascii ZArith List DecimalString Lia Sorted OrderedTypeEx.
From stdpp Require Import gmap strings list fin_maps.

(** ** JavaScript values and exceptions *)

Record js_error := JsError { err_name : string; err_message : string }.

Inductive result (A : Type) : Type :=
| Ok (a : A)
| Throw (e : js_error).
Arguments Ok {A} a.
Arguments Throw {A} e.

Definition is_ok {A} (r : result A) : bool :=
  match r with Ok _ => true | Throw _ => false end.

(** The value of a call to an [async] function is a promise; [await] gives
    its value.  A promise is not an array: calling an array method on it
    throws a [TypeError]. *)
Inductive awaitable (A : Type) : Type :=
| Promise (a : A)
| Plain (a : A).
Arguments Promise {A} a.
Arguments Plain {A} a.

Definition await {A} (p : awaitable A) : A :=
  match p with Promise a | Plain a => a end.

Definition not_a_function (what : string) : js_error :=
  JsError "TypeError" (what +:+ " is not a function").

(** [array.push(x)] *)
Definition js_push {A} (what : string) (q : awaitable (list A)) (x : A)
  : result (list A) :=
  match q with
  | Plain l => Ok (l ++ [x])
  | Promise _ => Throw (not_a_function (what +:+ ".push"))
  end.

(** [array.filter(f)] *)
Definition js_filter {A} (what : string) (q : awaitable (list A)) (f : A -> bool)
  : result (list A) :=
  match q with
  | Plain l => Ok (List.filter f l)
  | Promise _ => Throw (not_a_function (what +:+ ".filter"))
  end.

(** Rendering of an integer in a template literal. *)
Definition string_of_Z (z : Z) : string := NilZero.string_of_int (Z.to_int z).

(** Rendering of a possibly null string in a template literal. *)
Definition interpolate (u : option string) : string :=
  match u with Some s => s | None => "null" end.

(** Truthiness of a possibly null string. *)
Definition truthy (u : option string) : bool :=
  match u with Some s => negb (String.eqb s "") | None => false end.

(** [s.startsWith(p)] *)
Definition startsWith (s p : string) : bool := String.prefix p s.

(** [s.includes(p)] *)
Definition includes (s p : string) : bool :=
  match String.index 0 p s with Some _ => true | None => false end.

(** ** Data model *)

(** The value of a user-editable property of a task (title, description,
    completed, priority, category, frequency, dueDate, tags). *)
Inductive jsval : Type :=
| VStr (s : string)
| VBool (b : bool)
| VNum (z : Z)
| VTags (l : list string).

(** A mutation payload ([taskData], [updates]): a partial object.  It
    holds user-editable properties, and may also name a bookkeeping
    property of a task ([_id], [userId], [createdAt], [isOffline]), to
    which it then gives a value of the type of that property. *)
Abbreviation payload := (gmap string jsval).

(** A task record.  The identity and bookkeeping properties are fields;
    the other properties are kept as an object, so that the spread
    [{...task, ...updates}] is the union in which [updates] wins.
    Reading a bookkeeping property of a task reads the field: an entry of
    [fields] under such a name is shadowed by it. *)
Record task := Task {
  _id : string;
  userId : option string;
  createdAt : Z;
  updatedAt : Z;
  isOffline : bool;
  fields : payload
}.

(** [{...task, ...updates, updatedAt: now}]: every property that
    [updates] names is taken from [updates], the bookkeeping properties
    included; [updatedAt], which is written last, is [now]. *)
Definition spread_update (t : task) (updates : payload) (now : Z) : task :=
  {| _id := match updates !! "_id" with Some (VStr i) => i | _ => _id t end;
     userId := match updates !! "userId" with Some (VStr u) => Some u | _ => userId t end;
     createdAt := match updates !! "createdAt" with
                  | Some (VNum z) => z
                  | _ => createdAt t
                  end;
     updatedAt := now;
     isOffline := match updates !! "isOffline" with
                  | Some (VBool b) => b
                  | _ => isOffline t
                  end;
     fields := updates ∪ fields t |}.

(** The argument of [addToSyncQueue]: [{type, taskId, data}]. *)
Record operation := Operation {
  op_type : string;
  op_taskId : string;
  op_data : option payload
}.

(** A queued operation: [{...operation, timestamp, id}]. *)
Record syncItem := SyncItem {
  op : operation;
  timestamp : Z;
  id : string
}.

(** The actions sent to the application state sink. *)
Inductive action : Type :=
| UPDATE_TASK (payload : task)
| SYNC_OFFLINE_TASKS (payload : list task).

(** ** IndexedDB object stores *)

Module ObjectStore.
Section store.
Context {V : Type}.

(** Records in ascending order of their primary key. *)
Definition t : Type := list (string * V).

Fixpoint get (k : string) (s : t) : option V :=
  match s with
  | [] => None
  | (k', v) :: r => if String.eqb k k' then Some v else get k r
  end.

(** [store.put(value)]: insert, or replace the record with that key. *)
Fixpoint put (k : string) (v : V) (s : t) : t :=
  match s with
  | [] => [(k, v)]
  | (k', v') :: r =>
      match String.compare k k' with
      | Eq => (k, v) :: r
      | Lt => (k, v) :: (k', v') :: r
      | Gt => (k', v') :: put k v r
      end
  end.

(** [store.add(value)]: as [put], but a record with that key must not
    exist. *)
Definition add (k : string) (v : V) (s : t) : result t :=
  match get k s with
  | Some _ => Throw (JsError "ConstraintError" "Key already exists in the object store.")
  | None => Ok (put k v s)
  end.

(** [store.delete(key)]: no error when the key is absent. *)
Definition remove (k : string) (s : t) : t :=
  List.filter (fun kv => negb (String.eqb k (fst kv))) s.

(** [store.getAll()]: every record, in key order. *)
Definition getAll (s : t) : list V := List.map snd s.

Definition keys (s : t) : list string := List.map fst s.
End store.
Arguments t : clear implicits.
End ObjectStore.

(** ** StorageService *)

Module StorageService.

(** The state of the service and of the two media it writes to.
    [tasks_store] and [sync_store] are the IndexedDB stores [tasks]
    (key path [_id]) and [sync_queue] (key path [id]);
    [ls_tasks] maps [u] to the parsed item [tasks_u] of localStorage and
    [ls_queue] is the parsed item [sync_queue]. *)
Record t := Storage {
  useLocalStorage : bool;
  tasks_store : ObjectStore.t task;
  sync_store : ObjectStore.t syncItem;
  ls_tasks : gmap string (list task);
  ls_queue : option (list syncItem)
}.

Definition set_tasks_store (f : ObjectStore.t task -> ObjectStore.t task) (s : t) : t :=
  {| useLocalStorage := useLocalStorage s; tasks_store := f (tasks_store s);
     sync_store := sync_store s; ls_tasks := ls_tasks s; ls_queue := ls_queue s |}.

Definition set_sync_store (q : ObjectStore.t syncItem) (s : t) : t :=
  {| useLocalStorage := useLocalStorage s; tasks_store := tasks_store s;
     sync_store := q; ls_tasks := ls_tasks s; ls_queue := ls_queue s |}.

(** [localStorage.setItem(`tasks_${userId}`, JSON.stringify(tasks))] *)
Definition setItem_tasks (u : string) (l : list task) (s : t) : t :=
  {| useLocalStorage := useLocalStorage s; tasks_store := tasks_store s;
     sync_store := sync_store s; ls_tasks := <[u := l]> (ls_tasks s);
     ls_queue := ls_queue s |}.

(** [localStorage.setItem('sync_queue', JSON.stringify(queue))] *)
Definition setItem_queue (q : list syncItem) (s : t) : t :=
  {| useLocalStorage := useLocalStorage s; tasks_store := tasks_store s;
     sync_store := sync_store s; ls_tasks := ls_tasks s; ls_queue := Some q |}.

Definition getTasks (u : string) (s : t) : list task :=
  if useLocalStorage s then
    match ls_tasks s !! u with
    | Some tasks => tasks
    | None => []
    end
  else
    List.filter (fun x => bool_decide (userId x = Some u))
                (ObjectStore.getAll (tasks_store s)).

Definition saveTask (task : task) (s : t) : t :=
  if useLocalStorage s then
    let tasks := getTasks (interpolate (userId task)) s in
    let tasks' :=
      match list_find (fun x => _id x = _id task) tasks with
      | Some (existingIndex, _) => <[existingIndex := task]> tasks
      | None => tasks ++ [task]
      end in
    setItem_tasks (interpolate (userId task)) tasks' s
  else
    set_tasks_store (ObjectStore.put (_id task) task) s.

Definition deleteTask (taskId : string) (u : option string) (s : t) : t :=
  if useLocalStorage s then
    let tasks := getTasks (interpolate u) s in
    let filteredTasks := List.filter (fun x => negb (String.eqb (_id x) taskId)) tasks in
    setItem_tasks (interpolate u) filteredTasks s
  else
    set_tasks_store (ObjectStore.remove taskId) s.

(** [getSyncQueue] is [async]: its value is a promise. *)
Definition getSyncQueue (s : t) : awaitable (list syncItem) :=
  if useLocalStorage s then
    Promise (match ls_queue s with Some queue => queue | None => [] end)
  else
    Promise (ObjectStore.getAll (sync_store s)).

Definition make_syncItem (operation : operation) (now : Z) (rnd : string) : syncItem :=
  {| op := operation;
     timestamp := now;
     id := op_type operation +:+ "_" +:+
           (if String.eqb (op_taskId operation) "" then string_of_Z now
            else op_taskId operation) +:+ "_" +:+ rnd |}.

Definition addToSyncQueue (operation : operation) (now : Z) (rnd : string) (s : t)
  : result unit * t :=
  let syncItem := make_syncItem operation now rnd in
  if useLocalStorage s then
    (* const queue = this.getSyncQueue(): the call is not awaited *)
    let queue := getSyncQueue s in
    match js_push "queue" queue syncItem with
    | Ok queue' => (Ok tt, setItem_queue queue' s)
    | Throw e => (Throw e, s)
    end
  else
    match ObjectStore.add (id syncItem) syncItem (sync_store s) with
    | Ok q => (Ok tt, set_sync_store q s)
    | Throw e => (Throw e, s)
    end.

Definition removeFromSyncQueue (i : string) (s : t) : result unit * t :=
  if useLocalStorage s then
    (* const queue = this.getSyncQueue(): the call is not awaited *)
    let queue := getSyncQueue s in
    match js_filter "queue" queue (fun item => negb (String.eqb (id item) i)) with
    | Ok filteredQueue => (Ok tt, setItem_queue filteredQueue s)
    | Throw e => (Throw e, s)
    end
  else
    (Ok tt, set_sync_store (ObjectStore.remove i (sync_store s)) s).

(** [localStorage.removeItem(`tasks_${userId}`)] *)
Definition removeItem_tasks (u : string) (s : t) : t :=
  {| useLocalStorage := useLocalStorage s; tasks_store := tasks_store s;
     sync_store := sync_store s; ls_tasks := delete u (ls_tasks s);
     ls_queue := ls_queue s |}.

(** [localStorage.removeItem('sync_queue')] *)
Definition removeItem_queue (s : t) : t :=
  {| useLocalStorage := useLocalStorage s; tasks_store := tasks_store s;
     sync_store := sync_store s; ls_tasks := ls_tasks s; ls_queue := None |}.

Definition saveTasks (tasks : list task) (u : option string) (s : t) : t :=
  if useLocalStorage s then setItem_tasks (interpolate u) tasks s
  else
    fold_left (fun s task => set_tasks_store (ObjectStore.put (_id task) task) s) tasks s.

(** [tx.store.index('userId').getAll(userId)], with an argument that may
    be [null].  The index holds the records whose [userId] is a key (a
    string); a [null] query is the unbounded key range and selects all of
    them.  The records of one owner come in the order of the store. *)
Definition index_getAll (u : option string) (st : ObjectStore.t task) : list task :=
  List.filter (fun x => match u with
                        | Some u => bool_decide (userId x = Some u)
                        | None => bool_decide (is_Some (userId x))
                        end)
              (ObjectStore.getAll st).

Definition clearTasks (u : option string) (s : t) : t :=
  if useLocalStorage s then removeItem_tasks (interpolate u) s
  else
    let tasks := index_getAll u (tasks_store s) in
    fold_left (fun s task => set_tasks_store (ObjectStore.remove (_id task)) s) tasks s.

Definition clearSyncQueue (s : t) : t :=
  if useLocalStorage s then removeItem_queue s
  else set_sync_store [] s.

End StorageService.

(** ** ApiService *)

Module ApiService.

(** The outcome of [fetch(url, config)]: the promise is rejected, or a
    response arrives.  [message] is the [message] property of the JSON
    body of an error response, when there is one; [json] is the parsed
    body of a response whose content type is JSON.  [NullResponse] is a
    response whose body is the JSON value [null]. *)
Inductive fetch_result (A : Type) : Type :=
| Rejected (e : js_error)
| Response (status : nat) (message : option string) (json : option A)
| NullResponse (status : nat).
Arguments Rejected {A} e.
Arguments Response {A} status message json.
Arguments NullResponse {A} status.

(** [response.ok] *)
Definition ok (status : nat) : bool :=
  (200 <=? status)%nat && (status <=? 299)%nat.

Definition request {A} (fetched : fetch_result A) : result (option A) :=
  match fetched with
  | Response status message json =>
      if negb (ok status) then
        Throw (JsError "Error"
                 (match message with
                  | Some m => if String.eqb m "" then
                                "HTTP error! status: " +:+ string_of_Z (Z.of_nat status)
                              else m
                  | None => "HTTP error! status: " +:+ string_of_Z (Z.of_nat status)
                  end))
      else Ok json
  | NullResponse status =>
      if negb (ok status) then
        (* [errorData] is [null]: reading [errorData.message] throws, and
           the handler below lets the error through *)
        Throw (JsError "TypeError" "Cannot read properties of null (reading 'message')")
      else Ok None
  | Rejected error =>
      if String.eqb (err_name error) "TypeError" && includes (err_message error) "fetch"
      then Throw (JsError "Error" "Network error. Please check your connection.")
      else Throw error
  end.

End ApiService.

(** ** Remote task gateway

    What lies behind [fetch] (the network and the server) is a state [Net]
    with one transition per request that the task service sends. *)
Class Gateway (Net : Type) := {
  POST_tasks : option payload -> Net -> ApiService.fetch_result task * Net;
  PUT_task : string -> option payload -> Net -> ApiService.fetch_result task * Net;
  DELETE_task : string -> Net -> ApiService.fetch_result unit * Net;
  GET_tasks : Net -> ApiService.fetch_result (list task) * Net
}.

(** ** TaskService *)

Module TaskService.
Section gateway.
Context {Net : Type} `{Gateway Net}.

(** [getTasks()], without filters: [GET /tasks] *)
Definition getTasks (n : Net) : result (option (list task)) * Net :=
  let '(fetched, n') := GET_tasks n in (ApiService.request fetched, n').

(** [POST /tasks] *)
Definition createTask (taskData : option payload) (n : Net)
  : result (option task) * Net :=
  let '(fetched, n') := POST_tasks taskData n in (ApiService.request fetched, n').

(** [PUT /tasks/:taskId] *)
Definition updateTask (taskId : string) (updates : option payload) (n : Net)
  : result (option task) * Net :=
  let '(fetched, n') := PUT_task taskId updates n in (ApiService.request fetched, n').

(** [DELETE /tasks/:taskId] *)
Definition deleteTask (taskId : string) (n : Net) : result (option unit) * Net :=
  let '(fetched, n') := DELETE_task taskId n in (ApiService.request fetched, n').
End gateway.
End TaskService.

(** ** SyncService *)

Module SyncService.
Section gateway.
Context {Net : Type} `{Gateway Net}.

(** The fields of the service ([isOnline], [dispatch], [userId],
    [syncInProgress]) together with the singletons it works on: the
    storage service, the network behind the task service, and the
    actions received so far by the state sink behind [dispatch]. *)
Record t := World {
  isOnline : bool;
  dispatch : bool;
  svc_userId : option string;
  syncInProgress : bool;
  storage : StorageService.t;
  net : Net;
  sink : list action
}.

Definition set_isOnline (b : bool) (w : t) : t :=
  {| isOnline := b; dispatch := dispatch w; svc_userId := svc_userId w;
     syncInProgress := syncInProgress w; storage := storage w; net := net w;
     sink := sink w |}.

Definition set_syncInProgress (b : bool) (w : t) : t :=
  {| isOnline := isOnline w; dispatch := dispatch w; svc_userId := svc_userId w;
     syncInProgress := b; storage := storage w; net := net w; sink := sink w |}.

Definition set_storage (s : StorageService.t) (w : t) : t :=
  {| isOnline := isOnline w; dispatch := dispatch w; svc_userId := svc_userId w;
     syncInProgress := syncInProgress w; storage := s; net := net w;
     sink := sink w |}.

Definition set_net (n : Net) (w : t) : t :=
  {| isOnline := isOnline w; dispatch := dispatch w; svc_userId := svc_userId w;
     syncInProgress := syncInProgress w; storage := storage w; net := n;
     sink := sink w |}.

(** [if (this.dispatch) { this.dispatch(a) }] *)
Definition do_dispatch (a : action) (w : t) : t :=
  if dispatch w then
    {| isOnline := isOnline w; dispatch := dispatch w; svc_userId := svc_userId w;
       syncInProgress := syncInProgress w; storage := storage w; net := net w;
       sink := sink w ++ [a] |}
  else w.

Definition getOfflineTasks (w : t) : list task :=
  match svc_userId w with
  | Some u => if String.eqb u "" then [] else StorageService.getTasks u (storage w)
  | None => []
  end.

(** [tasks.find(t => t._id === taskId)] *)
Definition find_task (taskId : string) (tasks : list task) : option task :=
  List.find (fun x => String.eqb (_id x) taskId) tasks.

Definition createOfflineTask (taskData : payload) (now : Z) (rnd_id rnd_op : string)
           (w : t) : result task * t :=
  let offlineTask :=
    {| _id := "offline_" +:+ string_of_Z now +:+ "_" +:+ rnd_id;
       userId := svc_userId w;
       createdAt := now;
       updatedAt := now;
       isOffline := true;
       fields := taskData |} in
  let w := set_storage (StorageService.saveTask offlineTask (storage w)) w in
  let '(queued, s) :=
    StorageService.addToSyncQueue
      {| op_type := "CREATE"; op_taskId := _id offlineTask; op_data := Some taskData |}
      now rnd_op (storage w) in
  match queued with
  | Ok _ => (Ok offlineTask, set_storage s w)
  | Throw e => (Throw e, set_storage s w)
  end.

Definition updateOfflineTask (taskId : string) (updates : payload) (now : Z)
           (rnd_op : string) (w : t) : result task * t :=
  let tasks := getOfflineTasks w in
  match find_task taskId tasks with
  | Some task =>
      let updatedTask := spread_update task updates now in
      let w := set_storage (StorageService.saveTask updatedTask (storage w)) w in
      let '(queued, s) :=
        StorageService.addToSyncQueue
          {| op_type := "UPDATE"; op_taskId := taskId; op_data := Some updates |}
          now rnd_op (storage w) in
      match queued with
      | Ok _ => (Ok updatedTask, set_storage s w)
      | Throw e => (Throw e, set_storage s w)
      end
  | None => (Throw (JsError "Error" "Task not found"), w)
  end.

Definition deleteOfflineTask (taskId : string) (now : Z) (rnd_op : string) (w : t)
  : result unit * t :=
  let w := set_storage (StorageService.deleteTask taskId (svc_userId w) (storage w)) w in
  let '(queued, s) :=
    StorageService.addToSyncQueue
      {| op_type := "DELETE"; op_taskId := taskId; op_data := None |}
      now rnd_op (storage w) in
  (queued, set_storage s w).

(** [await storageService.saveTask(v)] where [v] is the value of a
    gateway call: [null] when the response carried no JSON body, and
    then reading the key of the record throws. *)
Definition saveTask_response (v : option task) (w : t) : result unit * t :=
  match v with
  | Some task => (Ok tt, set_storage (StorageService.saveTask task (storage w)) w)
  | None =>
      (Throw (if StorageService.useLocalStorage (storage w)
              then JsError "TypeError" "Cannot read properties of null (reading 'userId')"
              else JsError "DataError" "Data provided to an operation does not meet requirements."),
       w)
  end.

Definition processOperation (operation : syncItem) (w : t) : result unit * t :=
  let o := op operation in
  if String.eqb (op_type o) "CREATE" then
    let '(created, n) := TaskService.createTask (op_data o) (net w) in
    let w := set_net n w in
    match created with
    | Throw e => (Throw e, w)
    | Ok newTask =>
        let w := set_storage
                   (StorageService.deleteTask (op_taskId o) (svc_userId w) (storage w)) w in
        let '(saved, w) := saveTask_response newTask w in
        match saved, newTask with
        | Ok _, Some newTask => (Ok tt, do_dispatch (UPDATE_TASK newTask) w)
        | Ok _, None => (Ok tt, w)
        | Throw e, _ => (Throw e, w)
        end
    end
  else if String.eqb (op_type o) "UPDATE" then
    let localTasks := getOfflineTasks w in
    match find_task (op_taskId o) localTasks with
    | Some localTask =>
        if negb (startsWith (_id localTask) "offline_") then
          let '(updated, n) := TaskService.updateTask (op_taskId o) (op_data o) (net w) in
          let w := set_net n w in
          match updated with
          | Throw e => (Throw e, w)
          | Ok updatedTask =>
              let '(saved, w) := saveTask_response updatedTask w in
              match saved, updatedTask with
              | Ok _, Some updatedTask => (Ok tt, do_dispatch (UPDATE_TASK updatedTask) w)
              | Ok _, None => (Ok tt, w)
              | Throw e, _ => (Throw e, w)
              end
          end
        else (Ok tt, w)
    | None => (Ok tt, w)
    end
  else if String.eqb (op_type o) "DELETE" then
    if negb (startsWith (op_taskId o) "offline_") then
      let '(deleted, n) := TaskService.deleteTask (op_taskId o) (net w) in
      let w := set_net n w in
      match deleted with
      | Throw e => (Throw e, w)
      | Ok _ => (Ok tt, w)
      end
    else (Ok tt, w)
  else
    (* default: console.warn *)
    (Ok tt, w).

Definition syncFromServer (w : t) : t :=
  let '(fetched, n) := TaskService.getTasks (net w) in
  let w := set_net n w in
  match fetched with
  | Throw _ => w
  | Ok None => w   (* [serverTasks.filter] on [null] throws, and is caught *)
  | Ok (Some serverTasks) =>
      let localTasks := getOfflineTasks w in
      let newTasks :=
        List.filter
          (fun serverTask =>
             negb (existsb (fun localTask => String.eqb (_id localTask) (_id serverTask))
                           localTasks))
          serverTasks in
      let updatedTasks :=
        List.filter
          (fun serverTask =>
             match find_task (_id serverTask) localTasks with
             | Some localTask => (updatedAt localTask <? updatedAt serverTask)%Z
             | None => false
             end)
          serverTasks in
      let w :=
        fold_left (fun w task => set_storage (StorageService.saveTask task (storage w)) w)
                  (newTasks ++ updatedTasks) w in
      if dispatch w && ((0 <? length newTasks)%nat || (0 <? length updatedTasks)%nat)
      then do_dispatch (SYNC_OFFLINE_TASKS (getOfflineTasks w)) w
      else w
  end.

(** The body of the loop of [syncPendingChanges]: an operation that
    throws, or whose removal throws, is caught, logged and kept. *)
Definition syncOperation (w : t) (operation : syncItem) : t :=
  let '(processed, w) := processOperation operation w in
  match processed with
  | Ok _ =>
      let '(_, s) := StorageService.removeFromSyncQueue (id operation) (storage w) in
      set_storage s w
  | Throw _ => w
  end.

Definition syncPendingChanges (w : t) : t :=
  if negb (isOnline w) || syncInProgress w || negb (truthy (svc_userId w)) then w
  else
    let w := set_syncInProgress true w in
    let syncQueue := await (StorageService.getSyncQueue (storage w)) in
    let w := fold_left syncOperation syncQueue w in
    let w := syncFromServer w in
    set_syncInProgress false w.

(** The listeners installed by the constructor. *)
Definition on_online (w : t) : t := syncPendingChanges (set_isOnline true w).

Definition on_offline (w : t) : t := set_isOnline false w.

Definition clearOfflineData (w : t) : t :=
  let w := set_storage (StorageService.clearTasks (svc_userId w) (storage w)) w in
  set_storage (StorageService.clearSyncQueue (storage w)) w.

(** The value of [getSyncStatus].  [lastSync] is the parsed item
    [lastSync] of localStorage, [null] when there is none; no function of
    the two services writes that item, and it is an input here. *)
Record syncStatus := SyncStatus {
  status_isOnline : bool;
  pendingOperations : nat;
  lastSync : option jsval
}.

Definition getSyncStatus (lastSync_item : option jsval) (w : t) : syncStatus :=
  let queue := await (StorageService.getSyncQueue (storage w)) in
  {| status_isOnline := isOnline w;
     pendingOperations := length queue;
     lastSync := lastSync_item |}.

(** *** User mutations

    A mutation of the task list, as [TaskProvider] issues it: applied
    directly through the task service when the network answers
    ([online_apply]), through the offline layer otherwise
    ([offline_apply]).  A [draw] holds the clock reading and the random
    draws consumed by one call of the offline layer. *)

Inductive mutation : Type :=
| Create (taskData : payload)
| Update (taskId : string) (updates : payload)
| Delete (taskId : string).

Record draw := Draw { at_time : Z; rnd_id : string; rnd_op : string }.

Definition offline_apply (w : t) (md : mutation * draw) : t :=
  let '(m, d) := md in
  match m with
  | Create taskData => snd (createOfflineTask taskData (at_time d) (rnd_id d) (rnd_op d) w)
  | Update taskId updates => snd (updateOfflineTask taskId updates (at_time d) (rnd_op d) w)
  | Delete taskId => snd (deleteOfflineTask taskId (at_time d) (rnd_op d) w)
  end.

Definition online_apply (n : Net) (m : mutation) : Net :=
  match m with
  | Create taskData => snd (TaskService.createTask (Some taskData) n)
  | Update taskId updates => snd (TaskService.updateTask taskId (Some updates) n)
  | Delete taskId => snd (TaskService.deleteTask taskId n)
  end.

(** *** The event loop

    [syncPendingChanges] is [async]: an invocation runs up to its next
    [await] and is resumed later, so that listeners, timers and other
    invocations may run in between.  A [phase] is what remains to be done
    by a suspended invocation: fetching the queue, the operations still
    to be processed, the reconciliation followed by the [finally] block.
    An operation is processed in one step. *)

Inductive phase : Type :=
| Fetching
| Draining (remaining : list syncItem)
| Reconciling.

Record machine := Machine {
  world : t;
  passes : list phase
}.

Inductive event : Type :=
| EvOnline                       (* window 'online' *)
| EvOffline                      (* window 'offline' *)
| EvInterval                     (* the 30 s timer of [init] *)
| EvSync                         (* a direct call of [syncPendingChanges] *)
| EvMutate (m : mutation) (d : draw)
| EvResume (i : nat).            (* the [i]-th suspended invocation runs on *)

(** A call of [syncPendingChanges], up to its first [await]. *)
Definition start (m : machine) : machine :=
  let w := world m in
  if negb (isOnline w) || syncInProgress w || negb (truthy (svc_userId w)) then m
  else {| world := set_syncInProgress true w; passes := passes m ++ [Fetching] |}.

Definition resume (ph : phase) (w : t) : t * option phase :=
  match ph with
  | Fetching => (w, Some (Draining (await (StorageService.getSyncQueue (storage w)))))
  | Draining (operation :: remaining) => (syncOperation w operation, Some (Draining remaining))
  | Draining [] => (w, Some Reconciling)
  | Reconciling => (set_syncInProgress false (syncFromServer w), None)
  end.

Definition step (m : machine) (e : event) : machine :=
  match e with
  | EvOnline => start {| world := set_isOnline true (world m); passes := passes m |}
  | EvOffline => {| world := on_offline (world m); passes := passes m |}
  | EvInterval =>
      if isOnline (world m) && negb (syncInProgress (world m)) then start m else m
  | EvSync => start m
  | EvMutate mu d => {| world := offline_apply (world m) (mu, d); passes := passes m |}
  | EvResume i =>
      match passes m !! i with
      | Some ph =>
          let '(w, next) := resume ph (world m) in
          {| world := w;
             passes := match next with
                       | Some ph' => <[i := ph']> (passes m)
                       | None => delete i (passes m)
                       end |}
      | None => m
      end
  end.

Definition run (events : list event) (m : machine) : machine :=
  fold_left step events m.

(** The events that carry one invocation, alone, from its call to its
    end over a queue of [n] operations. *)
Definition whole_pass (n : nat) : list event :=
  EvSync :: replicate (n + 3) (EvResume 0).

End gateway.
Arguments t : clear implicits.
Arguments World {Net}.
Arguments machine : clear implicits.
Arguments Machine {Net}.
End SyncService.

(** ** TaskContext

    The reducer and the mutation functions of [TaskProvider]
    ([client/src/pages/Tasks.jsx]).  A task that comes from the task
    service is [null] when the response carried no JSON body; the reducer
    stores what it is given, so that an entry of [tasks] may be [null],
    and reading [_id] from such an entry throws. *)

Module TaskContext.

Record state := State {
  tasks : list (option task);
  isLoading : bool;
  filter : string;
  sortBy : string;
  sortOrder : string;
  searchQuery : string;
  selectedCategory : string
}.

Definition initialState : state :=
  {| tasks := []; isLoading := false; filter := "all"; sortBy := "createdAt";
     sortOrder := "desc"; searchQuery := ""; selectedCategory := "all" |}.

Inductive action : Type :=
| SET_LOADING (payload : bool)
| SET_TASKS (payload : list (option task))
| ADD_TASK (payload : option task)
| UPDATE_TASK (payload : option task)
| DELETE_TASK (payload : string)
| SET_FILTER (payload : string)
| SET_SORT (by_ order : string)
| SET_SEARCH (payload : string)
| SET_CATEGORY (payload : string)
| SYNC_OFFLINE_TASKS (payload : list (option task))
| OTHER (type : string).

Definition set_tasks (l : list (option task)) (st : state) : state :=
  {| tasks := l; isLoading := isLoading st; filter := filter st; sortBy := sortBy st;
     sortOrder := sortOrder st; searchQuery := searchQuery st;
     selectedCategory := selectedCategory st |}.

Definition null_id : js_error :=
  JsError "TypeError" "Cannot read properties of null (reading '_id')".

(** [tasks.map(task => task._id === payload._id ? payload : task)] *)
Fixpoint map_update (payload : option task) (l : list (option task))
  : result (list (option task)) :=
  match l with
  | [] => Ok []
  | task :: rest =>
      match task, payload with
      | Some t, Some p =>
          match map_update payload rest with
          | Ok rest' => Ok ((if String.eqb (_id t) (_id p) then payload else task) :: rest')
          | Throw e => Throw e
          end
      | _, _ => Throw null_id
      end
  end.

(** [tasks.filter(task => task._id !== payload)] *)
Fixpoint filter_delete (payload : string) (l : list (option task))
  : result (list (option task)) :=
  match l with
  | [] => Ok []
  | None :: _ => Throw null_id
  | Some t :: rest =>
      match filter_delete payload rest with
      | Ok rest' => Ok (if String.eqb (_id t) payload then rest' else Some t :: rest')
      | Throw e => Throw e
      end
  end.

Definition taskReducer (st : state) (a : action) : result state :=
  match a with
  | SET_LOADING payload =>
      Ok {| tasks := tasks st; isLoading := payload; filter := filter st;
            sortBy := sortBy st; sortOrder := sortOrder st;
            searchQuery := searchQuery st; selectedCategory := selectedCategory st |}
  | SET_TASKS payload =>
      Ok {| tasks := payload; isLoading := false; filter := filter st;
            sortBy := sortBy st; sortOrder := sortOrder st;
            searchQuery := searchQuery st; selectedCategory := selectedCategory st |}
  | ADD_TASK payload => Ok (set_tasks (payload :: tasks st) st)
  | UPDATE_TASK payload =>
      match map_update payload (tasks st) with
      | Ok l => Ok (set_tasks l st)
      | Throw e => Throw e
      end
  | DELETE_TASK payload =>
      match filter_delete payload (tasks st) with
      | Ok l => Ok (set_tasks l st)
      | Throw e => Throw e
      end
  | SET_FILTER payload =>
      Ok {| tasks := tasks st; isLoading := isLoading st; filter := payload;
            sortBy := sortBy st; sortOrder := sortOrder st;
            searchQuery := searchQuery st; selectedCategory := selectedCategory st |}
  | SET_SORT by_ order =>
      Ok {| tasks := tasks st; isLoading := isLoading st; filter := filter st;
            sortBy := by_; sortOrder := order;
            searchQuery := searchQuery st; selectedCategory := selectedCategory st |}
  | SET_SEARCH payload =>
      Ok {| tasks := tasks st; isLoading := isLoading st; filter := filter st;
            sortBy := sortBy st; sortOrder := sortOrder st;
            searchQuery := payload; selectedCategory := selectedCategory st |}
  | SET_CATEGORY payload =>
      Ok {| tasks := tasks st; isLoading := isLoading st; filter := filter st;
            sortBy := sortBy st; sortOrder := sortOrder st;
            searchQuery := searchQuery st; selectedCategory := payload |}
  | SYNC_OFFLINE_TASKS payload => Ok (set_tasks payload st)
  | OTHER _ => Ok st
  end.

(** The state after a sequence of actions; a reducer that throws ends
    the sequence. *)
Definition reduce (actions : list action) (st : state) : result state :=
  fold_left (fun r a => match r with Ok st => taskReducer st a | Throw e => Throw e end)
            actions (Ok st).

Section gateway.
Context {Net : Type} `{Gateway Net}.

(** The sync service that the provider calls, and the actions that its
    functions have dispatched. *)
Record t := Provider {
  syncService : SyncService.t Net;
  dispatched : list action
}.

Definition do_dispatch (a : action) (w : SyncService.t Net) (p : t) : t :=
  {| syncService := w; dispatched := dispatched p ++ [a] |}.

Definition createTask (taskData : payload) (d : SyncService.draw) (p : t)
  : result (option task) * t :=
  let w := syncService p in
  let '(created, n) := TaskService.createTask (Some taskData) (SyncService.net w) in
  let w := SyncService.set_net n w in
  match created with
  | Ok newTask => (Ok newTask, do_dispatch (ADD_TASK newTask) w p)
  | Throw error =>
      (* Store offline if network fails *)
      let '(stored, w) :=
        SyncService.createOfflineTask taskData (SyncService.at_time d)
          (SyncService.rnd_id d) (SyncService.rnd_op d) w in
      match stored with
      | Ok offlineTask => (Throw error, do_dispatch (ADD_TASK (Some offlineTask)) w p)
      | Throw e => (Throw e, {| syncService := w; dispatched := dispatched p |})
      end
  end.

Definition updateTask (taskId : string) (updates : payload) (d : SyncService.draw) (p : t)
  : result (option task) * t :=
  let w := syncService p in
  let '(updated, n) := TaskService.updateTask taskId (Some updates) (SyncService.net w) in
  let w := SyncService.set_net n w in
  match updated with
  | Ok updatedTask => (Ok updatedTask, do_dispatch (UPDATE_TASK updatedTask) w p)
  | Throw error =>
      let '(stored, w) :=
        SyncService.updateOfflineTask taskId updates (SyncService.at_time d)
          (SyncService.rnd_op d) w in
      match stored with
      | Ok offlineTask => (Throw error, do_dispatch (UPDATE_TASK (Some offlineTask)) w p)
      | Throw e => (Throw e, {| syncService := w; dispatched := dispatched p |})
      end
  end.

Definition deleteTask (taskId : string) (d : SyncService.draw) (p : t)
  : result unit * t :=
  let w := syncService p in
  let '(deleted, n) := TaskService.deleteTask taskId (SyncService.net w) in
  let w := SyncService.set_net n w in
  match deleted with
  | Ok _ => (Ok tt, do_dispatch (DELETE_TASK taskId) w p)
  | Throw error =>
      let '(stored, w) :=
        SyncService.deleteOfflineTask taskId (SyncService.at_time d)
          (SyncService.rnd_op d) w in
      match stored with
      | Ok _ => (Throw error, do_dispatch (DELETE_TASK taskId) w p)
      | Throw e => (Throw e, {| syncService := w; dispatched := dispatched p |})
      end
  end.

(** A mutation issued through the provider. *)
Definition apply (m : SyncService.mutation) (d : SyncService.draw) (p : t)
  : result unit * t :=
  match m with
  | SyncService.Create taskData =>
      let '(r, p) := createTask taskData d p in
      (match r with Ok _ => Ok tt | Throw e => Throw e end, p)
  | SyncService.Update taskId updates =>
      let '(r, p) := updateTask taskId updates d p in
      (match r with Ok _ => Ok tt | Throw e => Throw e end, p)
  | SyncService.Delete taskId => deleteTask taskId d p
  end.

End gateway.
Arguments t : clear implicits.
Arguments Provider {Net}.
End TaskContext.

(** The action of the sync service as the reducer receives it. *)
Definition ui_action (a : action) : TaskContext.action :=
  match a with
  | UPDATE_TASK payload => TaskContext.UPDATE_TASK (Some payload)
  | SYNC_OFFLINE_TASKS payload => TaskContext.SYNC_OFFLINE_TASKS (List.map Some payload)
  end.

(** ** The gateway of the specification

    The Remote Task Gateway as the specification describes it, with which
    the client code is run in the scenarios below.  It follows the words
    of the specification, not the routes of the server of the repository:
    [createTask(payload)] answers the task, to which the server assigns
    its identifier and both timestamps; [updateTask(id, payload)] merges
    the payload into the stored task, recomputes [updatedAt] and answers
    the task; [deleteTask(id)] removes the task; [listTasks] answers the
    list of the tasks of the owner; an update or a deletion of an unknown
    identifier is answered with not-found (404, "Task not found"); every
    call may fail with a network error.  (The routes of the repository
    validate the body, wrap the task or the list in an envelope
    [{success, ...}] and page the list; the client code reads a response
    as the task, or the list, itself.  The identifier [srv1] is the one
    of the scenario of the specification; [completedAt] is not tracked.)
    Server time is logical: it advances with each accepted write.
    [outage] is the number of coming requests that the network drops;
    [requests] records every request that [fetch] was asked to send. *)

Module SpecGateway.

Inductive request : Type :=
| POST (body : option payload)
| PUT (taskId : string) (body : option payload)
| DELETE (taskId : string)
| GET.

Record server := Server {
  owner : string;
  db : list task;
  next_id : nat;
  clock : Z
}.

Record t := SpecNet {
  srv : server;
  outage : nat;
  requests : list request
}.

Definition server_id (k : nat) : string := "srv" +:+ string_of_Z (Z.of_nat k).

Definition body_fields (body : option payload) : payload :=
  match body with Some p => p | None => ∅ end.

Definition has_id (taskId : string) (x : task) : bool := String.eqb (_id x) taskId.

(** The stored task with the payload merged into it: identifier, owner
    and creation time stay, [updatedAt] is recomputed. *)
Definition merge (old : task) (body : payload) (now : Z) : task :=
  {| _id := _id old; userId := userId old; createdAt := createdAt old;
     updatedAt := now; isOffline := isOffline old;
     fields := body ∪ fields old |}.

Definition create (body : option payload) (s : server)
  : ApiService.fetch_result task * server :=
  let task := {| _id := server_id (next_id s); userId := Some (owner s);
                 createdAt := clock s; updatedAt := clock s; isOffline := false;
                 fields := body_fields body |} in
  (ApiService.Response 201 None (Some task),
   {| owner := owner s; db := db s ++ [task]; next_id := S (next_id s);
      clock := (clock s + 1)%Z |}).

Definition update (taskId : string) (body : option payload) (s : server)
  : ApiService.fetch_result task * server :=
  match List.find (has_id taskId) (db s) with
  | Some old =>
      let task := merge old (body_fields body) (clock s) in
      (ApiService.Response 200 None (Some task),
       {| owner := owner s;
          db := List.map (fun x => if has_id taskId x then task else x) (db s);
          next_id := next_id s; clock := (clock s + 1)%Z |})
  | None => (ApiService.Response 404 (Some "Task not found") None, s)
  end.

Definition delete (taskId : string) (s : server)
  : ApiService.fetch_result unit * server :=
  match List.find (has_id taskId) (db s) with
  | Some _ =>
      (ApiService.Response 200 None (Some tt),
       {| owner := owner s;
          db := List.filter (fun x => negb (has_id taskId x)) (db s);
          next_id := next_id s; clock := (clock s + 1)%Z |})
  | None => (ApiService.Response 404 (Some "Task not found") None, s)
  end.

Definition list (s : server) : ApiService.fetch_result (list task) * server :=
  (ApiService.Response 200 None (Some (db s)), s).

(** One request through the network: dropped during an outage,
    answered by the gateway otherwise; recorded in both cases. *)
Definition send {A} (r : request)
           (handler : server -> ApiService.fetch_result A * server) (n : t)
  : ApiService.fetch_result A * t :=
  match outage n with
  | S k =>
      (ApiService.Rejected (JsError "TypeError" "Failed to fetch"),
       {| srv := srv n; outage := k; requests := requests n ++ [r] |})
  | O =>
      let '(response, s) := handler (srv n) in
      (response, {| srv := s; outage := O; requests := requests n ++ [r] |})
  end.

#[global] Instance gateway : Gateway t := {
  POST_tasks body := send (POST body) (create body);
  PUT_task taskId body := send (PUT taskId body) (update taskId body);
  DELETE_task taskId := send (DELETE taskId) (delete taskId);
  GET_tasks := send GET list
}.

End SpecGateway.

(** ** Invariants of the local store *)

(** An object store holds its records in strictly ascending key order, and
    the key of a record is read from the record (its key path). *)
Definition store_wf {V : Type} (key : V -> string) (s : ObjectStore.t V) : Prop :=
  StronglySorted (fun k1 k2 => String.compare k1 k2 = Lt) (ObjectStore.keys s)
  /\ Forall (fun kv => fst kv = key (snd kv)) s.

(** One record per identifier: by construction of the object store in the
    IndexedDB path, within each owner's item in the localStorage path. *)
Definition one_per_id (s : StorageService.t) : Prop :=
  if StorageService.useLocalStorage s then
    forall (u : string) (tasks : list task),
      StorageService.ls_tasks s !! u = Some tasks -> NoDup (List.map _id tasks)
  else store_wf _id (StorageService.tasks_store s).

(** The records of a list that carry a given identifier. *)
Definition records_with (taskId : string) (tasks : list task) : list task :=
  List.filter (fun x => String.eqb (_id x) taskId) tasks.

(** The list that [saveTask] writes back in the localStorage path. *)
Definition upsert (x : task) (tasks : list task) : list task :=
  match list_find (fun y => _id y = _id x) tasks with
  | Some (existingIndex, _) => <[existingIndex := x]> tasks
  | None => tasks ++ [x]
  end.

(** ** Views of the state used in the statements *)

(** What the storage service keeps of the operation queue. *)
Definition queue_state (s : StorageService.t)
  : bool * ObjectStore.t syncItem * option (list syncItem) :=
  (StorageService.useLocalStorage s, StorageService.sync_store s, StorageService.ls_queue s).

(** The queue as [await storageService.getSyncQueue()] lists it. *)
Definition queued (s : StorageService.t) : list syncItem :=
  await (StorageService.getSyncQueue s).

(** The key of a queued operation is its [id] (IndexedDB path). *)
Definition queue_wf (s : StorageService.t) : Prop :=
  StorageService.useLocalStorage s = false -> store_wf id (StorageService.sync_store s).

(** The fields of the sync service proper. *)
Definition control {Net : Type} `{Gateway Net} (w : SyncService.t Net)
  : bool * bool * option string * bool :=
  (SyncService.isOnline w, SyncService.dispatch w, SyncService.svc_userId w,
   SyncService.syncInProgress w).

(** The guard of [syncPendingChanges] lets the call through. *)
Definition may_sync {Net : Type} `{Gateway Net} (w : SyncService.t Net) : bool :=
  SyncService.isOnline w && negb (SyncService.syncInProgress w)
  && truthy (SyncService.svc_userId w).

(** The gateway did not accept the request: the fetch was rejected, or the
    response carries a status outside 200-299 (404 among them). *)
Definition refused {A : Type} (fetched : ApiService.fetch_result A) : Prop :=
  match fetched with
  | ApiService.Rejected _ => True
  | ApiService.Response status _ _ => ApiService.ok status = false
  | ApiService.NullResponse status => ApiService.ok status = false
  end.

(** The operation is one that [processOperation] sends to the gateway, an
    UPDATE or a DELETE, and the gateway refuses it. *)
Definition refused_by_gateway {Net : Type} `{Gateway Net}
           (operation : syncItem) (w : SyncService.t Net) : Prop :=
  let o := op operation in
  (op_type o = "DELETE"
   /\ startsWith (op_taskId o) "offline_" = false
   /\ refused (fst (DELETE_task (op_taskId o) (SyncService.net w))))
  \/ (op_type o = "UPDATE"
      /\ (exists localTask,
             SyncService.find_task (op_taskId o) (SyncService.getOfflineTasks w)
             = Some localTask
             /\ startsWith (_id localTask) "offline_" = false)
      /\ refused (fst (PUT_task (op_taskId o) (op_data o) (SyncService.net w)))).

(** At most one invocation of [syncPendingChanges] is suspended, and the
    flag [syncInProgress] is set exactly when one is. *)
Definition exclusive {Net : Type} `{Gateway Net} (m : SyncService.machine Net) : Prop :=
  match SyncService.passes m with
  | [] => SyncService.syncInProgress (SyncService.world m) = false
  | [_] => SyncService.syncInProgress (SyncService.world m) = true
  | _ => False
  end.

(** ** Reconciliation *)

(** The key of a stored task is its [_id] (IndexedDB path). *)
Definition tasks_wf (s : StorageService.t) : Prop :=
  StorageService.useLocalStorage s = false -> store_wf _id (StorageService.tasks_store s).

(** Last write wins, in the words of the specification: a server task
    absent locally is inserted; a server task present locally overwrites
    the local copy only if its [updatedAt] is strictly newer; a local task
    absent from the server response is left untouched. *)
Definition last_write_wins (serverTask localTask : option task) : option task :=
  match serverTask, localTask with
  | Some s, None => Some s
  | Some s, Some l => if (updatedAt l <? updatedAt s)%Z then Some s else Some l
  | None, l => l
  end.

(** ** The operations of the offline layer *)

(** The temporary identifier that [createOfflineTask] gives to a task. *)
Definition offline_id (d : SyncService.draw) : string :=
  "offline_" +:+ string_of_Z (SyncService.at_time d) +:+ "_" +:+ SyncService.rnd_id d.

(** The queued operation that the offline layer enqueues for a mutation. *)
Definition enqueued (md : SyncService.mutation * SyncService.draw) : syncItem :=
  let '(m, d) := md in
  match m with
  | SyncService.Create taskData =>
      StorageService.make_syncItem
        {| op_type := "CREATE"; op_taskId := offline_id d; op_data := Some taskData |}
        (SyncService.at_time d) (SyncService.rnd_op d)
  | SyncService.Update taskId updates =>
      StorageService.make_syncItem
        {| op_type := "UPDATE"; op_taskId := taskId; op_data := Some updates |}
        (SyncService.at_time d) (SyncService.rnd_op d)
  | SyncService.Delete taskId =>
      StorageService.make_syncItem
        {| op_type := "DELETE"; op_taskId := taskId; op_data := None |}
        (SyncService.at_time d) (SyncService.rnd_op d)
  end.

(** ** Operations that the drain does not send *)

(** [processOperation] sends nothing for the operation: its type is not
    one of the three that the switch knows, or it is an update whose task
    is not in the local store or still carries a temporary identifier,
    or it is the deletion of a temporary identifier. *)
Definition skipped {Net : Type} `{Gateway Net}
           (operation : syncItem) (w : SyncService.t Net) : Prop :=
  let o := op operation in
  (op_type o <> "CREATE" /\ op_type o <> "UPDATE" /\ op_type o <> "DELETE")
  \/ (op_type o = "UPDATE"
      /\ match SyncService.find_task (op_taskId o) (SyncService.getOfflineTasks w) with
         | Some localTask => startsWith (_id localTask) "offline_" = true
         | None => True
         end)
  \/ (op_type o = "DELETE" /\ startsWith (op_taskId o) "offline_" = true).

(** The task that [createOfflineTask] stores for user [u]. *)
Definition offline_task (u : string) (taskData : payload) (d : SyncService.draw) : task :=
  {| _id := offline_id d; userId := Some u; createdAt := SyncService.at_time d;
     updatedAt := SyncService.at_time d; isOffline := true; fields := taskData |}.

(** No entry of the list is [null], and none carries the identifier. *)
Definition without_id (taskId : string) (l : list (option task)) : Prop :=
  Forall (fun entry => exists t, entry = Some t /\ _id t <> taskId) l.

(** ** Sample data

    Concrete states and sessions on which the properties below are
    exercised. *)

(** A store in each mode, holding one task of user [u1], and a newer
    version of that task. *)
Definition demo_task : task :=
  {| _id := "t1"; userId := Some "u1"; createdAt := 10; updatedAt := 10;
     isOffline := false; fields := {[ "title" := VStr "Buy milk" ]} |}.

Definition demo_task' : task :=
  {| _id := "t1"; userId := Some "u1"; createdAt := 10; updatedAt := 20;
     isOffline := false; fields := {[ "title" := VStr "Buy oat milk" ]} |}.

Definition demo_indexedDB : StorageService.t :=
  {| StorageService.useLocalStorage := false;
     StorageService.tasks_store := [("t1", demo_task)];
     StorageService.sync_store := [];
     StorageService.ls_tasks := ∅;
     StorageService.ls_queue := None |}.

Definition demo_localStorage : StorageService.t :=
  {| StorageService.useLocalStorage := true;
     StorageService.tasks_store := [];
     StorageService.sync_store := [];
     StorageService.ls_tasks := {[ "u1" := [demo_task] ]};
     StorageService.ls_queue := None |}.

(** A gateway holding that task, and a client of it, online and
    idle, whose local store mirrors the server. *)
Definition demo_server : SpecGateway.server :=
  {| SpecGateway.owner := "u1"; SpecGateway.db := [demo_task];
     SpecGateway.next_id := 1; SpecGateway.clock := 100 |}.

Definition demo_net : SpecGateway.t :=
  {| SpecGateway.srv := demo_server; SpecGateway.outage := 0; SpecGateway.requests := [] |}.

Definition demo_world : SyncService.t SpecGateway.t :=
  {| SyncService.isOnline := true; SyncService.dispatch := true;
     SyncService.svc_userId := Some "u1"; SyncService.syncInProgress := false;
     SyncService.storage := demo_indexedDB; SyncService.net := demo_net;
     SyncService.sink := [] |}.

Definition demo_task2 : task :=
  {| _id := "t2"; userId := Some "u1"; createdAt := 11; updatedAt := 11;
     isOffline := false; fields := {[ "title" := VStr "Walk the dog" ]} |}.

Definition delete_t1 : syncItem :=
  {| op := {| op_type := "DELETE"; op_taskId := "t1"; op_data := None |};
     timestamp := 1000; id := "DELETE_t1_0.1" |}.

Definition delete_t2 : syncItem :=
  {| op := {| op_type := "DELETE"; op_taskId := "t2"; op_data := None |};
     timestamp := 1001; id := "DELETE_t2_0.2" |}.

Definition delete_gone : syncItem :=
  {| op := {| op_type := "DELETE"; op_taskId := "gone"; op_data := None |};
     timestamp := 1000; id := "DELETE_gone_0.3" |}.

(** The user deleted [t1] and [t2] while offline; the client is online
    again, and the network drops the first request to come. *)
Definition outage_world : SyncService.t SpecGateway.t :=
  {| SyncService.isOnline := true; SyncService.dispatch := true;
     SyncService.svc_userId := Some "u1"; SyncService.syncInProgress := false;
     SyncService.storage :=
       {| StorageService.useLocalStorage := false;
          StorageService.tasks_store := [];
          StorageService.sync_store :=
            [("DELETE_t1_0.1", delete_t1); ("DELETE_t2_0.2", delete_t2)];
          StorageService.ls_tasks := ∅;
          StorageService.ls_queue := None |};
     SyncService.net :=
       {| SpecGateway.srv :=
            {| SpecGateway.owner := "u1"; SpecGateway.db := [demo_task; demo_task2];
               SpecGateway.next_id := 1; SpecGateway.clock := 100 |};
          SpecGateway.outage := 1;
          SpecGateway.requests := [] |};
     SyncService.sink := [] |}.

(** The user deleted, while offline, a task that the server no longer
    holds; the client is online again and the gateway is reachable. *)
Definition gone_world : SyncService.t SpecGateway.t :=
  {| SyncService.isOnline := true; SyncService.dispatch := true;
     SyncService.svc_userId := Some "u1"; SyncService.syncInProgress := false;
     SyncService.storage :=
       {| StorageService.useLocalStorage := false;
          StorageService.tasks_store := [("t1", demo_task)];
          StorageService.sync_store := [("DELETE_gone_0.3", delete_gone)];
          StorageService.ls_tasks := ∅;
          StorageService.ls_queue := None |};
     SyncService.net := demo_net;
     SyncService.sink := [] |}.

Definition demo_task3 : task :=
  {| _id := "offline_1000_0.5"; userId := Some "u1"; createdAt := 1000; updatedAt := 1000;
     isOffline := true; fields := {[ "title" := VStr "Call mum" ]} |}.

(** The local store holds [t1] and a task created offline; the server
    holds a newer [t1] and [t2]. *)
Definition reconcile_world : SyncService.t SpecGateway.t :=
  {| SyncService.isOnline := true; SyncService.dispatch := true;
     SyncService.svc_userId := Some "u1"; SyncService.syncInProgress := false;
     SyncService.storage :=
       {| StorageService.useLocalStorage := false;
          StorageService.tasks_store :=
            [("offline_1000_0.5", demo_task3); ("t1", demo_task)];
          StorageService.sync_store := [];
          StorageService.ls_tasks := ∅;
          StorageService.ls_queue := None |};
     SyncService.net :=
       {| SpecGateway.srv :=
            {| SpecGateway.owner := "u1"; SpecGateway.db := [demo_task'; demo_task2];
               SpecGateway.next_id := 1; SpecGateway.clock := 100 |};
          SpecGateway.outage := 0;
          SpecGateway.requests := [] |};
     SyncService.sink := [] |}.

(** An offline client with an empty local store and an empty queue, and a
    reachable gateway that holds no task. *)
Definition fresh_world : SyncService.t SpecGateway.t :=
  {| SyncService.isOnline := false; SyncService.dispatch := true;
     SyncService.svc_userId := Some "u1"; SyncService.syncInProgress := false;
     SyncService.storage :=
       {| StorageService.useLocalStorage := false;
          StorageService.tasks_store := [];
          StorageService.sync_store := [];
          StorageService.ls_tasks := ∅;
          StorageService.ls_queue := None |};
     SyncService.net :=
       {| SpecGateway.srv :=
            {| SpecGateway.owner := "u1"; SpecGateway.db := [];
               SpecGateway.next_id := 1; SpecGateway.clock := 100 |};
          SpecGateway.outage := 0;
          SpecGateway.requests := [] |};
     SyncService.sink := [] |}.

(** The task is created offline at time 1000 and deleted offline at time
    1001, before any sync pass. *)
Definition created_then_deleted (taskData : payload)
  : list (SyncService.mutation * SyncService.draw) :=
  [(SyncService.Create taskData, SyncService.Draw 1000 "0.5" "0.7");
   (SyncService.Delete "offline_1000_0.5", SyncService.Draw 1001 "" "0.9")].

(** The task is created offline at time 1000 and completed offline at
    time 1001. *)
Definition created_then_updated (taskData updates : payload)
  : list (SyncService.mutation * SyncService.draw) :=
  [(SyncService.Create taskData, SyncService.Draw 1000 "0.5" "0.7");
   (SyncService.Update "offline_1000_0.5" updates, SyncService.Draw 1001 "" "0.9")].

(** The task created by the server for the first [POST] of [taskData]
    that [fresh_world] sends. *)
Definition first_server_task (taskData : payload) : task :=
  {| _id := "srv1"; userId := Some "u1"; createdAt := 100; updatedAt := 100;
     isOffline := false; fields := taskData |}.

(** A task of a second user, and an IndexedDB store that holds the tasks
    of both users. *)
Definition demo_task_u2 : task :=
  {| _id := "t9"; userId := Some "u2"; createdAt := 12; updatedAt := 12;
     isOffline := false; fields := {[ "title" := VStr "Pay rent" ]} |}.

Definition shared_indexedDB : StorageService.t :=
  {| StorageService.useLocalStorage := false;
     StorageService.tasks_store := [("t1", demo_task); ("t9", demo_task_u2)];
     StorageService.sync_store := [];
     StorageService.ls_tasks := ∅;
     StorageService.ls_queue := None |}.

(** A deletion of [t1], as the offline layer hands it to the queue. *)
Definition delete_t1_operation : operation :=
  {| op_type := "DELETE"; op_taskId := "t1"; op_data := None |}.

(** A client whose local store holds [t1] and whose queue is empty; the
    browser reports it online, and the network drops the next request. *)
Definition unreachable_world : SyncService.t SpecGateway.t :=
  {| SyncService.isOnline := true; SyncService.dispatch := true;
     SyncService.svc_userId := Some "u1"; SyncService.syncInProgress := false;
     SyncService.storage := demo_indexedDB;
     SyncService.net :=
       {| SpecGateway.srv := demo_server; SpecGateway.outage := 1;
          SpecGateway.requests := [] |};
     SyncService.sink := [] |}.

(** The same client in the degraded mode. *)
Definition degraded_world : SyncService.t SpecGateway.t :=
  {| SyncService.isOnline := true; SyncService.dispatch := true;
     SyncService.svc_userId := Some "u1"; SyncService.syncInProgress := false;
     SyncService.storage := demo_localStorage;
     SyncService.net :=
       {| SpecGateway.srv := demo_server; SpecGateway.outage := 1;
          SpecGateway.requests := [] |};
     SyncService.sink := [] |}.

(** The draws of one call of the offline layer at time 1000. *)
Definition demo_draw : SyncService.draw := SyncService.Draw 1000 "0.5" "0.7".

(** The client has created a task offline, and is about to drain the
    CREATE operation against the gateway. *)
Definition created_world : SyncService.t SpecGateway.t :=
  SyncService.offline_apply
    fresh_world (SyncService.Create {[ "title" := VStr "Buy milk" ]}, demo_draw).

Definition create_operation : syncItem :=
  enqueued (SyncService.Create {[ "title" := VStr "Buy milk" ]}, demo_draw).

(** The client has created a task offline and deleted it again; the
    second operation of its queue is the deletion. *)
Definition cancelled_world : SyncService.t SpecGateway.t :=
  fold_left SyncService.offline_apply (created_then_deleted ∅) fresh_world.

Definition delete_offline_operation : syncItem :=
  enqueued (SyncService.Delete "offline_1000_0.5", SyncService.Draw 1001 "" "0.9").

(** A state of the reducer that lists [t1] and [t2], and one that lists
    the task created offline. *)
Definition demo_state : TaskContext.state :=
  TaskContext.set_tasks [Some demo_task; Some demo_task2] TaskContext.initialState.

Definition offline_state : TaskContext.state :=
  TaskContext.set_tasks
    [Some (offline_task "u1" {[ "title" := VStr "Buy milk" ]} demo_draw)]
    TaskContext.initialState.

(** A gateway that answers every request with 204 No Content, and a
    client of it. *)
Module NoContent.
#[global] Instance gateway : Gateway unit := {
  POST_tasks _ n := (ApiService.Response 204 None None, n);
  PUT_task _ _ n := (ApiService.Response 204 None None, n);
  DELETE_task _ n := (ApiService.Response 204 None None, n);
  GET_tasks n := (ApiService.Response 204 None None, n)
}.
End NoContent.

Definition no_content_world : SyncService.t unit :=
  {| SyncService.isOnline := true; SyncService.dispatch := true;
     SyncService.svc_userId := Some "u1"; SyncService.syncInProgress := false;
     SyncService.storage := demo_indexedDB;
     SyncService.net := tt;
     SyncService.sink := [] |}.

(** * Properties *)

(** ** Strings and object stores *)

Lemma compare_refl (s : string) : String.compare s s = Eq.
Proof.
  pose proof (String.compare_antisym s s) as E.
  destruct (String.compare s s); simpl in E; congruence.
Qed.

Lemma compare_Lt_trans (a b c : string) :
  String.compare a b = Lt -> String.compare b c = Lt -> String.compare a c = Lt.
Proof.
  intros Hab Hbc. apply String_as_OT.cmp_lt.
  eapply String_as_OT.lt_trans; apply String_as_OT.cmp_lt; eassumption.
Qed.

Lemma compare_Gt_Lt (a b : string) :
  String.compare a b = Gt -> String.compare b a = Lt.
Proof. intros E. rewrite String.compare_antisym, E. reflexivity. Qed.

Lemma compare_Lt_neq (a b : string) : String.compare a b = Lt -> a <> b.
Proof. intros E ->. rewrite compare_refl in E. discriminate. Qed.

Section object_store.
Context {V : Type}.
Implicit Types (s : ObjectStore.t V) (k : string) (v : V).

Lemma put_put k v s :
  ObjectStore.put k v (ObjectStore.put k v s) = ObjectStore.put k v s.
Proof.
  induction s as [|[k' v'] r IH]; simpl.
  - by rewrite compare_refl.
  - destruct (String.compare k k') eqn:E; simpl.
    + by rewrite compare_refl.
    + by rewrite compare_refl.
    + by rewrite E, IH.
Qed.

Lemma keys_put k v s x :
  In x (ObjectStore.keys (ObjectStore.put k v s)) ->
  x = k \/ In x (ObjectStore.keys s).
Proof.
  induction s as [|[k' v'] r IH]; simpl.
  - intros [<-|[]]. by left.
  - destruct (String.compare k k') eqn:E; simpl.
    + intros [<-|Hin]; [by left | by right; right].
    + intros [<-|Hin]; [by left | by right].
    + intros [<-|Hin]; [by right; left|].
      destruct (IH Hin); [by left | by right; right].
Qed.

Lemma in_put k v s : In (k, v) (ObjectStore.put k v s).
Proof.
  induction s as [|[k' v'] r IH]; simpl.
  - by left.
  - destruct (String.compare k k'); simpl; auto.
Qed.

Lemma in_put_inv k v s kv :
  In kv (ObjectStore.put k v s) -> kv = (k, v) \/ In kv s.
Proof.
  induction s as [|[k' v'] r IH]; simpl.
  - intros [<-|[]]. by left.
  - destruct (String.compare k k') eqn:E; simpl.
    + intros [<-|Hin]; [by left | by right; right].
    + intros [<-|Hin]; [by left | by right].
    + intros [<-|Hin]; [by right; left|].
      destruct (IH Hin); [by left | by right; right].
Qed.

Lemma put_sorted k v s :
  StronglySorted (fun k1 k2 => String.compare k1 k2 = Lt) (ObjectStore.keys s) ->
  StronglySorted (fun k1 k2 => String.compare k1 k2 = Lt)
                 (ObjectStore.keys (ObjectStore.put k v s)).
Proof.
  induction s as [|[k' v'] r IH]; simpl; intros Hs.
  - repeat constructor.
  - apply StronglySorted_inv in Hs as [Hr Hall].
    destruct (String.compare k k') eqn:E; simpl.
    + apply String.compare_eq_iff in E as ->. by constructor.
    + constructor; [by constructor|].
      constructor; [done|].
      eapply Forall_impl; [exact Hall|].
      intros x Hx. simpl in Hx. eauto using compare_Lt_trans.
    + constructor; [by apply IH|].
      apply Forall_forall. intros x Hx.
      apply list_elem_of_In, keys_put in Hx as [->|Hx].
      * by apply compare_Gt_Lt.
      * rewrite Forall_forall in Hall. apply Hall. by apply list_elem_of_In.
Qed.

Lemma put_wf (key : V -> string) v s :
  store_wf key s -> store_wf key (ObjectStore.put (key v) v s).
Proof.
  intros [Hs Hk]. split; [by apply put_sorted|].
  apply Forall_forall. intros kv Hin.
  apply list_elem_of_In, in_put_inv in Hin as [->|Hin]; [done|].
  rewrite Forall_forall in Hk. apply Hk. by apply list_elem_of_In.
Qed.

Lemma sorted_keys_NoDup s :
  StronglySorted (fun k1 k2 => String.compare k1 k2 = Lt) (ObjectStore.keys s) ->
  NoDup (ObjectStore.keys s).
Proof.
  induction 1 as [|k l Hl IH Hall]; constructor; [|done].
  intros Hin. rewrite Forall_forall in Hall.
  by apply (compare_Lt_neq k k); [apply Hall|].
Qed.

Lemma wf_getAll_NoDup (key : V -> string) s :
  store_wf key s -> NoDup (List.map key (ObjectStore.getAll s)).
Proof.
  intros [Hs Hk]. apply sorted_keys_NoDup in Hs.
  replace (List.map key (ObjectStore.getAll s)) with (ObjectStore.keys s); [done|].
  unfold ObjectStore.keys, ObjectStore.getAll. rewrite List.map_map.
  apply List.map_ext_in. intros kv Hin.
  rewrite Forall_forall in Hk. apply Hk. by apply list_elem_of_In.
Qed.
End object_store.

Lemma filter_none {A : Type} (f : A -> bool) (l : list A) :
  (forall x, In x l -> f x = false) -> List.filter f l = [].
Proof.
  induction l as [|y l IH]; simpl; [done|].
  intros Hall. rewrite (Hall y) by auto. apply IH. auto.
Qed.

(** ** The task collection of the storage service *)

Section save_task.
Implicit Types (s : StorageService.t) (x : task) (tasks : list task).

Lemma upsert_ids_found x tasks i y :
  list_find (fun y => _id y = _id x) tasks = Some (i, y) ->
  List.map _id (<[i := x]> tasks) = List.map _id tasks.
Proof.
  intros (Hi & Hy & _)%list_find_Some.
  change (_id <$> <[i:=x]> tasks = _id <$> tasks).
  rewrite list_fmap_insert. apply list_insert_id.
  by rewrite list_lookup_fmap, Hi, <- Hy.
Qed.

Lemma upsert_find x tasks :
  exists i, list_find (fun y => _id y = _id x) (upsert x tasks) = Some (i, x)
            /\ <[i := x]> (upsert x tasks) = upsert x tasks.
Proof.
  unfold upsert.
  destruct (list_find _ tasks) as [[i y]|] eqn:E.
  - exists i. apply list_find_Some in E as (Hi & Hy & Hlt). split.
    + apply list_find_Some. split; [|split; [done|]].
      * apply list_lookup_insert_eq. by eapply lookup_lt_Some.
      * intros j z Hj Hji. rewrite list_lookup_insert_ne in Hj by lia. eauto.
    + by rewrite list_insert_insert_eq.
  - exists (length tasks). split.
    + rewrite list_find_app_r by done. simpl.
      rewrite decide_True by done. reflexivity.
    + rewrite insert_app_r_alt by lia. by rewrite Nat.sub_diag.
Qed.

Lemma upsert_upsert x tasks : upsert x (upsert x tasks) = upsert x tasks.
Proof.
  destruct (upsert_find x tasks) as (i & Hfind & Hins).
  unfold upsert at 1. by rewrite Hfind.
Qed.

Lemma upsert_In x tasks : In x (upsert x tasks).
Proof.
  destruct (upsert_find x tasks) as (i & (Hi & _)%list_find_Some & _).
  apply list_elem_of_In. by eapply list_elem_of_lookup_2.
Qed.

Lemma upsert_NoDup x tasks :
  NoDup (List.map _id tasks) -> NoDup (List.map _id (upsert x tasks)).
Proof.
  unfold upsert. intros Hnd.
  destruct (list_find _ tasks) as [[i y]|] eqn:E.
  - by erewrite upsert_ids_found.
  - rewrite List.map_app. simpl. apply NoDup_app. split; [done|].
    split; [|apply NoDup_singleton].
    intros k Hk ->%list_elem_of_singleton.
    apply list_elem_of_In, List.in_map_iff in Hk as (y & Hy & Hin).
    rewrite list_find_None, Forall_forall in E.
    by apply (E y); [apply list_elem_of_In|].
Qed.

Lemma saveTask_localStorage x s :
  StorageService.useLocalStorage s = true ->
  StorageService.saveTask x s =
    StorageService.setItem_tasks
      (interpolate (userId x))
      (upsert x (StorageService.getTasks (interpolate (userId x)) s)) s.
Proof. intros E. unfold StorageService.saveTask. by rewrite E. Qed.

Lemma saveTask_indexedDB x s :
  StorageService.useLocalStorage s = false ->
  StorageService.saveTask x s =
    StorageService.set_tasks_store (ObjectStore.put (_id x) x) s.
Proof. intros E. unfold StorageService.saveTask. by rewrite E. Qed.

Lemma saveTask_saveTask x s :
  StorageService.saveTask x (StorageService.saveTask x s) = StorageService.saveTask x s.
Proof.
  destruct (StorageService.useLocalStorage s) eqn:E.
  - rewrite (saveTask_localStorage x s E).
    rewrite saveTask_localStorage by done.
    unfold StorageService.setItem_tasks, StorageService.getTasks. simpl. rewrite E.
    rewrite lookup_insert_eq, upsert_upsert, insert_insert_eq. done.
  - rewrite (saveTask_indexedDB x s E).
    rewrite saveTask_indexedDB by done.
    unfold StorageService.set_tasks_store. simpl. by rewrite put_put.
Qed.

Lemma saveTask_one_per_id x s : one_per_id s -> one_per_id (StorageService.saveTask x s).
Proof.
  unfold one_per_id.
  destruct (StorageService.useLocalStorage s) eqn:E.
  - rewrite (saveTask_localStorage x s E). simpl. rewrite E.
    intros Hs u tasks.
    destruct (decide (interpolate (userId x) = u)) as [<-|Hne].
    + rewrite lookup_insert_eq. intros [= <-].
      apply upsert_NoDup. unfold StorageService.getTasks. rewrite E.
      destruct (StorageService.ls_tasks s !! _) eqn:El; [eauto | constructor].
    + rewrite lookup_insert_ne by done. apply Hs.
  - rewrite (saveTask_indexedDB x s E). simpl. rewrite E. apply put_wf.
Qed.

Lemma one_per_id_getTasks s u :
  one_per_id s -> NoDup (List.map _id (StorageService.getTasks u s)).
Proof.
  unfold one_per_id, StorageService.getTasks.
  destruct (StorageService.useLocalStorage s).
  - intros Hs. destruct (StorageService.ls_tasks s !! u) eqn:El; [eauto | constructor].
  - intros Hwf%wf_getAll_NoDup.
    induction (ObjectStore.getAll (StorageService.tasks_store s)) as [|y l IH];
      simpl in *; [constructor|].
    apply NoDup_cons in Hwf as [Hy Hl].
    destruct (bool_decide _); simpl; [|by apply IH].
    apply NoDup_cons. split; [|by apply IH].
    intros Hin. apply Hy.
    apply list_elem_of_In, List.in_map_iff in Hin as (z & Hz & Hin).
    apply List.filter_In in Hin as [Hin _].
    apply list_elem_of_In, List.in_map_iff. eauto.
Qed.

Lemma saveTask_In x s u :
  userId x = Some u -> In x (StorageService.getTasks u (StorageService.saveTask x s)).
Proof.
  intros Hu. destruct (StorageService.useLocalStorage s) eqn:E.
  - rewrite (saveTask_localStorage x s E).
    unfold StorageService.getTasks at 1. simpl. rewrite E, Hu. simpl.
    rewrite lookup_insert_eq. apply upsert_In.
  - rewrite (saveTask_indexedDB x s E).
    unfold StorageService.getTasks. simpl. rewrite E.
    apply List.filter_In. split; [|by apply bool_decide_eq_true].
    apply List.in_map_iff. exists (_id x, x). split; [done|]. apply in_put.
Qed.

Lemma records_with_unique x tasks :
  NoDup (List.map _id tasks) -> In x tasks -> records_with (_id x) tasks = [x].
Proof.
  unfold records_with. induction tasks as [|y l IH]; simpl; [done|].
  intros [Hy Hl]%NoDup_cons [->|Hin].
  - rewrite String.eqb_refl. f_equal.
    apply filter_none. intros z Hz.
    destruct (String.eqb_spec (_id z) (_id x)) as [Heq|]; [|done].
    exfalso. apply Hy. rewrite <- Heq. by apply list_elem_of_In, List.in_map.
  - destruct (String.eqb_spec (_id y) (_id x)) as [Heq|]; [|by apply IH].
    exfalso. apply Hy. rewrite Heq. by apply list_elem_of_In, List.in_map.
Qed.
End save_task.

(** Deleting twice is deleting once, in both paths. *)
Lemma deleteTask_deleteTask (taskId : string) (u : option string) (s : StorageService.t) :
  StorageService.deleteTask taskId u (StorageService.deleteTask taskId u s)
  = StorageService.deleteTask taskId u s.
Proof.
  assert (forall {A : Type} (f : A -> bool) (l : list A),
             List.filter f (List.filter f l) = List.filter f l) as Hfilter.
  { intros A f l. induction l as [|y l IH]; simpl; [done|].
    destruct (f y) eqn:E; simpl; [|done]. by rewrite E, IH. }
  unfold StorageService.deleteTask.
  destruct (StorageService.useLocalStorage s) eqn:E; simpl; rewrite E.
  - unfold StorageService.setItem_tasks, StorageService.getTasks. simpl. rewrite E.
    by rewrite lookup_insert_eq, Hfilter, insert_insert_eq.
  - unfold StorageService.set_tasks_store, ObjectStore.remove. simpl.
    by rewrite Hfilter.
Qed.

(** C9 -- Put idempotence.  For every task record and every state of the
    local store, in the IndexedDB path as in the localStorage path,
    saving the record twice leaves the store as saving it once does.  The
    store keeps one record per identifier: when it held at most one record
    per identifier before, it still does afterwards, no owner's list
    repeats an identifier, and the list of the record's owner holds
    exactly one record with its identifier, the record saved. *)
Theorem saveTask_idempotent (x : task) (s : StorageService.t) :
  StorageService.saveTask x (StorageService.saveTask x s) = StorageService.saveTask x s
  /\ (one_per_id s ->
      one_per_id (StorageService.saveTask x s)
      /\ (forall u, NoDup (List.map _id (StorageService.getTasks u (StorageService.saveTask x s))))
      /\ (forall u, userId x = Some u ->
            records_with (_id x) (StorageService.getTasks u (StorageService.saveTask x s))
            = [x])).
Proof.
  split; [apply saveTask_saveTask|].
  intros Hs. pose proof (saveTask_one_per_id x s Hs) as Hs'.
  split; [done|]. split.
  - intros u. by apply one_per_id_getTasks.
  - intros u Hu. apply records_with_unique.
    + by apply one_per_id_getTasks.
    + by apply saveTask_In.
Qed.

Lemma demo_indexedDB_one_per_id : one_per_id demo_indexedDB.
Proof. split; simpl; repeat constructor. Defined.

Lemma demo_localStorage_one_per_id : one_per_id demo_localStorage.
Proof.
  intros u tasks. simpl.
  destruct (decide (u = "u1")) as [->|Hne].
  - rewrite lookup_singleton_eq. intros [= <-]. simpl.
    apply NoDup_singleton.
  - by rewrite lookup_singleton_ne.
Defined.

Lemma saveTask_idempotent_witness :
  (one_per_id demo_indexedDB /\
   records_with "t1"
     (StorageService.getTasks "u1" (StorageService.saveTask demo_task' demo_indexedDB))
   = [demo_task'])
  /\ (one_per_id demo_localStorage /\
      records_with "t1"
        (StorageService.getTasks "u1" (StorageService.saveTask demo_task' demo_localStorage))
      = [demo_task']).
Proof.
  split.
  - split; [exact demo_indexedDB_one_per_id|].
    destruct (saveTask_idempotent demo_task' demo_indexedDB) as [_ Hkeep].
    destruct (Hkeep demo_indexedDB_one_per_id) as (_ & _ & Hone).
    exact (Hone "u1" eq_refl).
  - split; [exact demo_localStorage_one_per_id|].
    destruct (saveTask_idempotent demo_task' demo_localStorage) as [_ Hkeep].
    destruct (Hkeep demo_localStorage_one_per_id) as (_ & _ & Hone).
    exact (Hone "u1" eq_refl).
Defined.

(** ** The operation queue of the storage service *)

(** C8 -- Degraded-mode enqueue, evaluated on the code.  In the
    localStorage path, whatever the state of the store and whatever the
    operation, [addToSyncQueue] calls [push] on the promise that the
    unawaited [getSyncQueue()] returns: it throws a [TypeError] and
    persists nothing.  [removeFromSyncQueue] calls [filter] on the same
    promise, throws likewise and removes nothing. *)
Theorem degraded_queue_throws
  (tasks_store : ObjectStore.t task) (sync_store : ObjectStore.t syncItem)
  (ls_tasks : gmap string (list task)) (ls_queue : option (list syncItem))
  (operation : operation) (now : Z) (rnd : string) (i : string) :
  let s := StorageService.Storage true tasks_store sync_store ls_tasks ls_queue in
  StorageService.addToSyncQueue operation now rnd s
  = (Throw (JsError "TypeError" "queue.push is not a function"), s)
  /\ StorageService.removeFromSyncQueue i s
     = (Throw (JsError "TypeError" "queue.filter is not a function"), s).
Proof. split; reflexivity. Qed.

(** C3 -- Queue ordering, evaluated on the code.  In the IndexedDB path
    the key of a queued operation is the string
    "<type>_<taskId>_<random>", and [getAll()] lists by key.  Enqueueing
    an UPDATE and then a DELETE of the same task into an empty queue
    succeeds, and the queue then lists the DELETE before the UPDATE,
    whatever the clock readings and the random draws. *)
Theorem queue_lists_by_key_not_by_enqueue_order
  (tasks_store : ObjectStore.t task)
  (ls_tasks : gmap string (list task)) (ls_queue : option (list syncItem))
  (taskId : string) (updates : payload) (now1 now2 : Z) (rnd1 rnd2 : string) :
  let s0 := StorageService.Storage false tasks_store [] ls_tasks ls_queue in
  let update := Operation "UPDATE" taskId (Some updates) in
  let delete := Operation "DELETE" taskId None in
  exists s1 s2,
    StorageService.addToSyncQueue update now1 rnd1 s0 = (Ok tt, s1)
    /\ StorageService.addToSyncQueue delete now2 rnd2 s1 = (Ok tt, s2)
    /\ await (StorageService.getSyncQueue s2)
       = [StorageService.make_syncItem delete now2 rnd2;
          StorageService.make_syncItem update now1 rnd1].
Proof.
  intros. eexists _, _. split; [reflexivity|]. split; reflexivity.
Qed.

(** Two updates of one task are listed by their random suffix: here the
    update enqueued second comes first. *)
Example updates_listed_by_random_suffix :
  let s0 := StorageService.Storage false [] [] ∅ None in
  let first := Operation "UPDATE" "t1" (Some {[ "title" := VStr "Buy milk" ]}) in
  let second := Operation "UPDATE" "t1" (Some {[ "title" := VStr "Buy oat milk" ]}) in
  let s1 := snd (StorageService.addToSyncQueue first 1000 "0.9" s0) in
  let s2 := snd (StorageService.addToSyncQueue second 1001 "0.1" s1) in
  List.map op (queued s2) = [second; first].
Proof. reflexivity. Qed.

(** ** The offline layer *)

Section offline_layer.
Context {Net : Type} `{Gateway Net}.
Implicit Types (w : SyncService.t Net).

Lemma find_task_None taskId tasks :
  Forall (fun x => _id x <> taskId) tasks -> SyncService.find_task taskId tasks = None.
Proof.
  unfold SyncService.find_task. induction 1 as [|x l Hx _ IH]; simpl; [done|].
  by destruct (String.eqb_spec (_id x) taskId).
Qed.

Lemma find_task_Some taskId tasks x :
  SyncService.find_task taskId tasks = Some x -> In x tasks /\ _id x = taskId.
Proof.
  unfold SyncService.find_task. intros [Hin Hx]%List.find_some.
  by apply String.eqb_eq in Hx.
Qed.

(** C10 -- Update atomicity at the public interface.  For every task
    identifier that no task of the local store (as the service reads it)
    carries, [updateOfflineTask] throws "Task not found" and leaves the
    whole state as it was: the task store and the operation queue are
    unchanged, and no UPDATE operation is enqueued. *)
Theorem updateOfflineTask_not_found w taskId updates now rnd_op :
  Forall (fun x => _id x <> taskId) (SyncService.getOfflineTasks w) ->
  SyncService.updateOfflineTask taskId updates now rnd_op w
  = (Throw (JsError "Error" "Task not found"), w).
Proof.
  intros Habsent. unfold SyncService.updateOfflineTask.
  by rewrite (find_task_None _ _ Habsent).
Qed.
End offline_layer.

Lemma updateOfflineTask_not_found_witness :
  Forall (fun x => _id x <> "t2") (SyncService.getOfflineTasks demo_world)
  /\ SyncService.updateOfflineTask "t2" {[ "completed" := VBool true ]} 1000 "0.5" demo_world
     = (Throw (JsError "Error" "Task not found"), demo_world).
Proof.
  assert (Forall (fun x => _id x <> "t2") (SyncService.getOfflineTasks demo_world))
    as Habsent by (repeat constructor; discriminate).
  split; [exact Habsent|].
  exact (updateOfflineTask_not_found demo_world "t2" _ 1000 "0.5" Habsent).
Defined.

(** ** The drain *)

Section drain.
Context {Net : Type} `{Gateway Net}.
Implicit Types (w : SyncService.t Net) (operation : syncItem).

Lemma saveTask_queue_state x s :
  queue_state (StorageService.saveTask x s) = queue_state s.
Proof. unfold StorageService.saveTask. by destruct (StorageService.useLocalStorage s) eqn:E. Qed.

Lemma deleteTask_queue_state taskId u s :
  queue_state (StorageService.deleteTask taskId u s) = queue_state s.
Proof. unfold StorageService.deleteTask. by destruct (StorageService.useLocalStorage s) eqn:E. Qed.

Lemma request_refused {A : Type} (fetched : ApiService.fetch_result A) :
  refused fetched -> is_ok (ApiService.request fetched) = false.
Proof.
  destruct fetched as [e|status message json|status]; simpl.
  - intros _. by destruct (_ && _).
  - by intros ->.
  - by intros ->.
Qed.

Ltac unfold_sync :=
  unfold SyncService.processOperation, SyncService.saveTask_response,
    SyncService.do_dispatch, TaskService.createTask, TaskService.updateTask,
    TaskService.deleteTask, TaskService.getTasks in *.

Ltac split_matches :=
  repeat (simpl in *;
          match goal with
          | |- context [match ?x with _ => _ end] =>
              lazymatch x with
              | context [match _ with _ => _ end] => fail
              | _ => destruct x eqn:?
              end
          end);
  simpl in *.

Lemma processOperation_control operation w :
  control (snd (SyncService.processOperation operation w)) = control w.
Proof.
  unfold_sync.
  split_matches; simplify_eq; unfold control; simpl; congruence.
Qed.

Lemma processOperation_queue_state operation w :
  queue_state (SyncService.storage (snd (SyncService.processOperation operation w)))
  = queue_state (SyncService.storage w).
Proof.
  unfold_sync.
  split_matches; simplify_eq; simpl;
    rewrite ?saveTask_queue_state, ?deleteTask_queue_state; reflexivity.
Qed.
Lemma do_dispatch_control a w : control (SyncService.do_dispatch a w) = control w.
Proof.
  unfold SyncService.do_dispatch, control.
  destruct (SyncService.dispatch w) eqn:E; simpl; congruence.
Qed.

Lemma do_dispatch_control_user a w :
  SyncService.svc_userId (SyncService.do_dispatch a w) = SyncService.svc_userId w.
Proof. unfold SyncService.do_dispatch. by destruct (SyncService.dispatch w). Qed.

Lemma do_dispatch_storage a w :
  SyncService.storage (SyncService.do_dispatch a w) = SyncService.storage w.
Proof. unfold SyncService.do_dispatch. by destruct (SyncService.dispatch w). Qed.

Lemma do_dispatch_net a w :
  SyncService.net (SyncService.do_dispatch a w) = SyncService.net w.
Proof. unfold SyncService.do_dispatch. by destruct (SyncService.dispatch w). Qed.

Lemma syncFromServer_control w : control (SyncService.syncFromServer w) = control w.
Proof.
  unfold SyncService.syncFromServer, TaskService.getTasks.
  destruct (GET_tasks (SyncService.net w)) as [fetched n].
  destruct (ApiService.request fetched) as [[serverTasks|]|]; try reflexivity.
  cbv zeta.
  set (saved := (_ ++ _)%list). clearbody saved.
  set (w0 := SyncService.set_net n w).
  assert (control w0 = control w) as <- by reflexivity. clearbody w0.
  assert (forall l w1, control (fold_left (fun w task =>
            SyncService.set_storage
              (StorageService.saveTask task (SyncService.storage w)) w) l w1)
          = control w1) as Hfold.
  { induction l as [|x l IH]; intros w1; simpl; [done|]. by rewrite IH. }
  destruct (_ && _); [|apply Hfold].
  rewrite do_dispatch_control. apply Hfold.
Qed.

Lemma syncFromServer_queue_state w :
  queue_state (SyncService.storage (SyncService.syncFromServer w))
  = queue_state (SyncService.storage w).
Proof.
  unfold SyncService.syncFromServer, TaskService.getTasks.
  destruct (GET_tasks (SyncService.net w)) as [fetched n].
  destruct (ApiService.request fetched) as [[serverTasks|]|]; try reflexivity.
  cbv zeta.
  set (saved := (_ ++ _)%list). clearbody saved.
  set (w0 := SyncService.set_net n w).
  assert (queue_state (SyncService.storage w0) = queue_state (SyncService.storage w))
    as <- by reflexivity. clearbody w0.
  assert (forall l w1, queue_state (SyncService.storage (fold_left (fun w task =>
            SyncService.set_storage
              (StorageService.saveTask task (SyncService.storage w)) w) l w1))
          = queue_state (SyncService.storage w1)) as Hfold.
  { induction l as [|x l IH]; intros w1; simpl; [done|].
    rewrite IH. simpl. apply saveTask_queue_state. }
  destruct (_ && _); [|apply Hfold].
  rewrite do_dispatch_storage. apply Hfold.
Qed.

Lemma queued_queue_state s s' : queue_state s = queue_state s' -> queued s = queued s'.
Proof.
  unfold queue_state, queued, StorageService.getSyncQueue.
  intros Heq. injection Heq as H1 H2 H3. by rewrite H1, H2, H3.
Qed.

Lemma queue_wf_queue_state s s' : queue_state s = queue_state s' -> queue_wf s' -> queue_wf s.
Proof.
  unfold queue_state, queue_wf. intros Heq. injection Heq as H1 H2 H3.
  by rewrite H1, H2.
Qed.

Lemma syncOperation_control w operation :
  control (SyncService.syncOperation w operation) = control w.
Proof.
  unfold SyncService.syncOperation.
  pose proof (processOperation_control operation w) as Hc.
  destruct (SyncService.processOperation operation w) as [[|] w1]; simpl in *; [|done].
  by destruct (StorageService.removeFromSyncQueue _ _).
Qed.

Lemma drain_control l w : control (fold_left SyncService.syncOperation l w) = control w.
Proof.
  revert w. induction l as [|x l IH]; intros w; simpl; [done|].
  by rewrite IH, syncOperation_control.
Qed.

(** An operation whose processing throws leaves the queue as it was. *)
Lemma syncOperation_failed w operation :
  is_ok (fst (SyncService.processOperation operation w)) = false ->
  queue_state (SyncService.storage (SyncService.syncOperation w operation))
  = queue_state (SyncService.storage w).
Proof.
  unfold SyncService.syncOperation.
  pose proof (processOperation_queue_state operation w) as Hq.
  by destruct (SyncService.processOperation operation w) as [[|] w1].
Qed.

Lemma remove_wf {V : Type} (key : V -> string) (k : string) (s : ObjectStore.t V) :
  store_wf key s -> store_wf key (ObjectStore.remove k s).
Proof.
  intros [Hs Hk]. unfold ObjectStore.remove. split.
  - clear Hk. induction s as [|[k' v] r IH]; simpl in *; [constructor|].
    apply StronglySorted_inv in Hs as [Hr Hall].
    destruct (negb _); simpl; [|by apply IH].
    constructor; [by apply IH|].
    apply Forall_forall. intros x Hx. rewrite Forall_forall in Hall. apply Hall.
    apply list_elem_of_In, List.in_map_iff in Hx as ([k2 v2] & <- & Hin).
    apply List.filter_In in Hin as [Hin _].
    apply list_elem_of_In, List.in_map_iff. by exists (k2, v2).
  - apply Forall_forall. intros kv Hin. rewrite Forall_forall in Hk. apply Hk.
    apply list_elem_of_In, List.filter_In in Hin as [Hin _]. by apply list_elem_of_In.
Qed.

(** Whatever becomes of an operation, the other operations stay queued. *)
Lemma syncOperation_keeps w operation x :
  queue_wf (SyncService.storage w) ->
  In x (queued (SyncService.storage w)) ->
  id x <> id operation ->
  queue_wf (SyncService.storage (SyncService.syncOperation w operation))
  /\ In x (queued (SyncService.storage (SyncService.syncOperation w operation))).
Proof.
  intros Hwf Hin Hne. unfold SyncService.syncOperation.
  pose proof (processOperation_queue_state operation w) as Hq.
  destruct (SyncService.processOperation operation w) as [[|] w1]; simpl in *.
  2:{ split; [by eapply queue_wf_queue_state | by rewrite (queued_queue_state _ _ Hq)]. }
  apply (queue_wf_queue_state _ _ Hq) in Hwf.
  rewrite <- (queued_queue_state _ _ Hq) in Hin. clear Hq.
  unfold StorageService.removeFromSyncQueue.
  unfold queue_wf, queued, StorageService.getSyncQueue in *.
  destruct (StorageService.useLocalStorage (SyncService.storage w1)) eqn:E; simpl.
  - rewrite E. split; [congruence | done].
  - rewrite E in *. simpl in *. specialize (Hwf eq_refl). split.
    + intros _. by apply remove_wf.
    + apply List.in_map_iff in Hin as ([k y] & Hy & Hin). simpl in Hy. subst y.
      apply List.in_map_iff. exists (k, x). split; [done|].
      apply List.filter_In. split; [done|]. simpl.
      destruct Hwf as [_ Hk]. rewrite Forall_forall in Hk.
      specialize (Hk (k, x)). simpl in Hk. rewrite Hk by by apply list_elem_of_In.
      apply negb_true_iff, String.eqb_neq. congruence.
Qed.

Lemma drain_keeps l w x :
  queue_wf (SyncService.storage w) ->
  In x (queued (SyncService.storage w)) ->
  Forall (fun operation => id x <> id operation) l ->
  queue_wf (SyncService.storage (fold_left SyncService.syncOperation l w))
  /\ In x (queued (SyncService.storage (fold_left SyncService.syncOperation l w))).
Proof.
  revert w. induction l as [|operation l IH]; intros w Hwf Hin Hall; simpl; [done|].
  apply Forall_cons in Hall as [Hne Hall].
  destruct (syncOperation_keeps w operation x) as [Hwf' Hin']; auto.
Qed.

Lemma syncPendingChanges_guarded w :
  may_sync w = false -> SyncService.syncPendingChanges w = w.
Proof.
  unfold may_sync, SyncService.syncPendingChanges.
  destruct (SyncService.isOnline w), (SyncService.syncInProgress w),
    (truthy (SyncService.svc_userId w)); simpl; done.
Qed.

Lemma syncPendingChanges_pass w :
  may_sync w = true ->
  SyncService.syncPendingChanges w
  = SyncService.set_syncInProgress false
      (SyncService.syncFromServer
         (fold_left SyncService.syncOperation (queued (SyncService.storage w))
                    (SyncService.set_syncInProgress true w))).
Proof.
  unfold may_sync, SyncService.syncPendingChanges.
  destruct (SyncService.isOnline w), (SyncService.syncInProgress w),
    (truthy (SyncService.svc_userId w)); simpl; done.
Qed.

Lemma syncPendingChanges_control w :
  control (SyncService.syncPendingChanges w) = control w.
Proof.
  destruct (may_sync w) eqn:E.
  - rewrite syncPendingChanges_pass by done.
    pose proof (syncFromServer_control
                  (fold_left SyncService.syncOperation (queued (SyncService.storage w))
                             (SyncService.set_syncInProgress true w))) as Hc.
    rewrite drain_control in Hc. unfold control in *. simpl in *.
    injection Hc as -> -> -> _.
    unfold may_sync in E. by destruct (SyncService.syncInProgress w), (SyncService.isOnline w).
  - by rewrite syncPendingChanges_guarded.
Qed.

(** The identifiers of a queue listed from a well-formed store differ. *)
Lemma queued_ids_differ s before operation after :
  queue_wf s -> StorageService.useLocalStorage s = false ->
  queued s = before ++ operation :: after ->
  Forall (fun o => id operation <> id o) before
  /\ Forall (fun o => id operation <> id o) after.
Proof.
  intros Hwf E Hq. specialize (Hwf E).
  apply wf_getAll_NoDup in Hwf.
  unfold queued, StorageService.getSyncQueue in Hq. rewrite E in Hq. simpl in Hq.
  rewrite Hq, List.map_app in Hwf. simpl in Hwf.
  apply NoDup_app in Hwf as (_ & Hdis & [Hop _]%NoDup_cons).
  split; apply Forall_forall; intros o Ho Heq.
  - apply (Hdis (id o)).
    + apply list_elem_of_In, List.in_map. by apply list_elem_of_In.
    + rewrite Heq. by left.
  - apply Hop. rewrite Heq. apply list_elem_of_In, List.in_map. by apply list_elem_of_In.
Qed.

(** In the localStorage path the drain removes nothing: the removal of a
    processed operation throws as well. *)
Lemma syncOperation_localStorage w operation :
  StorageService.useLocalStorage (SyncService.storage w) = true ->
  queue_state (SyncService.storage (SyncService.syncOperation w operation))
  = queue_state (SyncService.storage w).
Proof.
  intros E. unfold SyncService.syncOperation.
  pose proof (processOperation_queue_state operation w) as Hq.
  destruct (SyncService.processOperation operation w) as [[|] w1]; simpl in *; [|done].
  assert (StorageService.useLocalStorage (SyncService.storage w1) = true) as Hu.
  { unfold queue_state in Hq. injection Hq as Hu _ _. congruence. }
  unfold StorageService.removeFromSyncQueue, StorageService.getSyncQueue.
  rewrite Hu. simpl. exact Hq.
Qed.

Lemma drain_localStorage l w :
  StorageService.useLocalStorage (SyncService.storage w) = true ->
  queue_state (SyncService.storage (fold_left SyncService.syncOperation l w))
  = queue_state (SyncService.storage w).
Proof.
  revert w. induction l as [|o l IH]; intros w E; simpl; [done|].
  pose proof (syncOperation_localStorage w o E) as Hstep.
  rewrite IH; [done|].
  unfold queue_state in Hstep. injection Hstep as Hu _ _. congruence.
Qed.

(** An operation whose processing throws during a pass is still queued
    when the pass ends. *)
Lemma failed_operation_stays w before operation after :
  may_sync w = true ->
  queue_wf (SyncService.storage w) ->
  queued (SyncService.storage w) = before ++ operation :: after ->
  is_ok (fst (SyncService.processOperation operation
               (fold_left SyncService.syncOperation before
                          (SyncService.set_syncInProgress true w)))) = false ->
  In operation (queued (SyncService.storage (SyncService.syncPendingChanges w))).
Proof.
  intros Hgo Hwf Hq Hfail.
  rewrite syncPendingChanges_pass by done. simpl.
  rewrite (queued_queue_state _ _ (syncFromServer_queue_state _)).
  set (w0 := SyncService.set_syncInProgress true w) in *.
  assert (In operation (queued (SyncService.storage w0))) as Hin.
  { unfold w0. simpl. rewrite Hq. apply List.in_elt. }
  assert (queue_wf (SyncService.storage w0)) as Hwf0 by done.
  destruct (StorageService.useLocalStorage (SyncService.storage w)) eqn:E.
  - (* localStorage path: nothing is ever removed *)
    by rewrite (queued_queue_state _ _ (drain_localStorage _ w0 E)).
  - rewrite Hq, fold_left_app. simpl.
    destruct (queued_ids_differ _ _ _ _ Hwf E Hq) as [Hbefore Hafter].
    destruct (drain_keeps before w0 operation Hwf0 Hin Hbefore) as [Hwf1 Hin1].
    pose proof (syncOperation_failed _ _ Hfail) as Hsame.
    apply drain_keeps; [by eapply queue_wf_queue_state| |done].
    by rewrite (queued_queue_state _ _ Hsame).
Qed.
End drain.

Section drain_failures.
Context {Net : Type} `{Gateway Net}.
Implicit Types (w : SyncService.t Net) (operation : syncItem).

Lemma refused_throws operation w :
  refused_by_gateway operation w ->
  is_ok (fst (SyncService.processOperation operation w)) = false.
Proof.
  unfold refused_by_gateway, SyncService.processOperation.
  intros [(-> & Hid & Hrefused)|(-> & (localTask & -> & Hid) & Hrefused)]; simpl.
  - rewrite Hid. simpl. unfold TaskService.deleteTask.
    destruct (DELETE_task _ _) as [fetched n]. simpl in *.
    apply request_refused in Hrefused. by destruct (ApiService.request fetched).
  - rewrite Hid. simpl. unfold TaskService.updateTask.
    destruct (PUT_task _ _ _) as [fetched n]. simpl in *.
    apply request_refused in Hrefused. by destruct (ApiService.request fetched).
Qed.

(** C5 (amended) -- Not-found handling.  When the gateway refuses an
    UPDATE or DELETE operation that the drain sends to it -- with a
    not-found status as with any other status outside 200-299, or by a
    rejected fetch -- processing the operation throws and the operation
    is still in the queue when the pass ends: it is retried by the next
    pass. *)
Theorem refused_operation_stays_queued w before operation after :
  may_sync w = true ->
  queue_wf (SyncService.storage w) ->
  queued (SyncService.storage w) = before ++ operation :: after ->
  refused_by_gateway operation
    (fold_left SyncService.syncOperation before (SyncService.set_syncInProgress true w)) ->
  is_ok (fst (SyncService.processOperation operation
                (fold_left SyncService.syncOperation before
                           (SyncService.set_syncInProgress true w)))) = false
  /\ In operation (queued (SyncService.storage (SyncService.syncPendingChanges w))).
Proof.
  intros Hgo Hwf Hq Hrefused. apply refused_throws in Hrefused.
  split; [done|]. by eapply failed_operation_stays.
Qed.

(** C6 (amended) -- Drain failure semantics.  If processing one queued
    operation fails, for whatever reason, loss of connectivity included,
    the queue is left as it was by that operation, which is still queued
    when the pass ends; the drain goes on with the operations that follow,
    then reconciles; and the pass leaves [isOnline] as it found it. *)
Theorem drain_failure_isolated w before operation after :
  may_sync w = true ->
  queue_wf (SyncService.storage w) ->
  queued (SyncService.storage w) = before ++ operation :: after ->
  let w1 := fold_left SyncService.syncOperation before
                      (SyncService.set_syncInProgress true w) in
  is_ok (fst (SyncService.processOperation operation w1)) = false ->
  queued (SyncService.storage (SyncService.syncOperation w1 operation))
  = queued (SyncService.storage w1)
  /\ SyncService.syncPendingChanges w
     = SyncService.set_syncInProgress false
         (SyncService.syncFromServer
            (fold_left SyncService.syncOperation after
                       (SyncService.syncOperation w1 operation)))
  /\ In operation (queued (SyncService.storage (SyncService.syncPendingChanges w)))
  /\ SyncService.isOnline (SyncService.syncPendingChanges w) = SyncService.isOnline w.
Proof.
  intros Hgo Hwf Hq w1 Hfail. repeat split.
  - apply queued_queue_state. by apply syncOperation_failed.
  - rewrite syncPendingChanges_pass by done. by rewrite Hq, fold_left_app.
  - by eapply failed_operation_stays.
  - pose proof (syncPendingChanges_control w) as Hc. unfold control in Hc. congruence.
Qed.
End drain_failures.

Lemma outage_world_queue_wf : queue_wf (SyncService.storage outage_world).
Proof. intros _. split; simpl; repeat constructor. Defined.

Lemma gone_world_queue_wf : queue_wf (SyncService.storage gone_world).
Proof. intros _. split; simpl; repeat constructor. Defined.

Lemma gone_refused :
  refused_by_gateway delete_gone (SyncService.set_syncInProgress true gone_world).
Proof. left. repeat split. Defined.

Lemma refused_operation_stays_queued_witness :
  may_sync gone_world = true
  /\ refused (fst (DELETE_task "gone" (SyncService.net gone_world)))
  /\ In delete_gone (queued (SyncService.storage (SyncService.syncPendingChanges gone_world))).
Proof.
  split; [reflexivity|]. split; [reflexivity|].
  exact (proj2 (refused_operation_stays_queued
                  gone_world [] delete_gone [] eq_refl gone_world_queue_wf eq_refl
                  gone_refused)).
Defined.

(** C5, as stated, fails: the gateway answers 404 to the DELETE
    of a task that it does not hold, and the operation is not removed from
    the queue. *)
Lemma not_found_is_not_dropped :
  fst (DELETE_task "gone" (SyncService.net gone_world))
  = ApiService.Response 404 (Some "Task not found") None
  /\ queued (SyncService.storage gone_world) = [delete_gone]
  /\ queued (SyncService.storage (SyncService.syncPendingChanges gone_world)) = [delete_gone]
  /\ In delete_gone
        (queued (SyncService.storage (SyncService.syncPendingChanges gone_world))).
Proof. split_and!; try reflexivity. by left. Qed.

Lemma drain_failure_isolated_witness :
  may_sync outage_world = true
  /\ is_ok (fst (SyncService.processOperation
                   delete_t1 (SyncService.set_syncInProgress true outage_world))) = false
  /\ In delete_t1
        (queued (SyncService.storage (SyncService.syncPendingChanges outage_world)))
  /\ SyncService.isOnline (SyncService.syncPendingChanges outage_world) = true.
Proof.
  assert (is_ok (fst (SyncService.processOperation
                        delete_t1 (SyncService.set_syncInProgress true outage_world)))
          = false) as Hfail by reflexivity.
  split; [reflexivity|]. split; [exact Hfail|].
  destruct (drain_failure_isolated
              outage_world [] delete_t1 [delete_t2] eq_refl outage_world_queue_wf
              eq_refl Hfail) as (_ & _ & Hin & Honline).
  split; [exact Hin | exact Honline].
Defined.

(** C6, as stated, fails: the first DELETE fails because the network is
    down, and yet the drain goes on: the second DELETE is sent, succeeds
    and leaves the queue, and [isOnline] stays true.  The same happens
    when the 'offline' event arrives in the middle of the pass: the
    listener clears [isOnline], and the suspended pass still sends the
    operations that remain. *)
Lemma drain_not_aborted_when_offline :
  fst (SyncService.processOperation
         delete_t1 (SyncService.set_syncInProgress true outage_world))
  = Throw (JsError "Error" "Network error. Please check your connection.")
  /\ SpecGateway.requests (SyncService.net (SyncService.syncPendingChanges outage_world))
     = [SpecGateway.DELETE "t1"; SpecGateway.DELETE "t2"; SpecGateway.GET]
  /\ queued (SyncService.storage (SyncService.syncPendingChanges outage_world)) = [delete_t1]
  /\ ~ In delete_t2
        (queued (SyncService.storage (SyncService.syncPendingChanges outage_world)))
  /\ SyncService.isOnline (SyncService.syncPendingChanges outage_world) = true
  /\ let interrupted :=
       SyncService.run
         [SyncService.EvSync; SyncService.EvResume 0; SyncService.EvOffline;
          SyncService.EvResume 0; SyncService.EvResume 0]
         (SyncService.Machine outage_world []) in
     SyncService.isOnline (SyncService.world interrupted) = false
     /\ SyncService.passes interrupted = [SyncService.Draining []]
     /\ SpecGateway.requests (SyncService.net (SyncService.world interrupted))
        = [SpecGateway.DELETE "t1"; SpecGateway.DELETE "t2"]
     /\ queued (SyncService.storage (SyncService.world interrupted)) = [delete_t1].
Proof.
  repeat match goal with
         | |- _ /\ _ => split
         | |- let _ := _ in _ => cbv zeta
         end; try reflexivity.
  vm_compute. intros [Heq|[]]. discriminate.
Qed.

(** ** Mutual exclusion of sync passes *)

Section mutual_exclusion.
Context {Net : Type} `{Gateway Net}.
Implicit Types (w : SyncService.t Net) (m : SyncService.machine Net).

Lemma offline_apply_control w md : control (SyncService.offline_apply w md) = control w.
Proof.
  destruct md as [[taskData|taskId updates|taskId] d]; simpl.
  - unfold SyncService.createOfflineTask.
    destruct (StorageService.addToSyncQueue _ _ _ _) as [[|] s]; reflexivity.
  - unfold SyncService.updateOfflineTask.
    destruct (SyncService.find_task _ _); [|reflexivity].
    destruct (StorageService.addToSyncQueue _ _ _ _) as [[|] s]; reflexivity.
  - unfold SyncService.deleteOfflineTask.
    destruct (StorageService.addToSyncQueue _ _ _ _) as [[|] s]; reflexivity.
Qed.

Lemma control_syncInProgress w w' :
  control w = control w' -> SyncService.syncInProgress w = SyncService.syncInProgress w'.
Proof. unfold control. congruence. Qed.

Lemma start_exclusive m : exclusive m -> exclusive (SyncService.start m).
Proof.
  unfold exclusive, SyncService.start.
  destruct m as [w [|ph [|ph' l]]]; simpl; [| |done].
  - intros Hw. rewrite Hw.
    by destruct (SyncService.isOnline w), (truthy (SyncService.svc_userId w)).
  - intros Hw. rewrite Hw. by destruct (SyncService.isOnline w).
Qed.

Lemma step_exclusive m e : exclusive m -> exclusive (SyncService.step m e).
Proof.
  destruct e as [| | | |mu d|i].
  - intros Hm. by apply start_exclusive.
  - done.
  - intros Hm. simpl. destruct (_ && _); [by apply start_exclusive | done].
  - apply start_exclusive.
  - destruct m as [w passes]. unfold exclusive.
    cbn [SyncService.step SyncService.passes SyncService.world].
    by rewrite (control_syncInProgress _ _ (offline_apply_control w (mu, d))).
  - unfold exclusive. destruct m as [w [|ph [|ph' l]]]; simpl; [done| |done].
    destruct i as [|i]; simpl; [|done].
    destruct ph as [|[|operation remaining]|]; simpl; try done.
    by rewrite (control_syncInProgress _ _ (syncOperation_control w operation)).
Qed.

Lemma run_exclusive events m : exclusive m -> exclusive (SyncService.run events m).
Proof.
  unfold SyncService.run. revert m.
  induction events as [|e events IH]; intros m Hm; simpl; [done|].
  by apply IH, step_exclusive.
Qed.

Lemma run_draining remaining w :
  SyncService.run (replicate (length remaining) (SyncService.EvResume 0))
    (SyncService.Machine w [SyncService.Draining remaining])
  = SyncService.Machine (fold_left SyncService.syncOperation remaining w)
      [SyncService.Draining []].
Proof.
  revert w. induction remaining as [|operation remaining IH]; intros w; simpl; [done|].
  apply IH.
Qed.

(** Run alone, the steps of an invocation amount to [syncPendingChanges]. *)
Lemma whole_pass_syncPendingChanges w :
  SyncService.run (SyncService.whole_pass (length (queued (SyncService.storage w))))
    (SyncService.Machine w [])
  = SyncService.Machine (SyncService.syncPendingChanges w) [].
Proof.
  unfold SyncService.whole_pass.
  set (n := length (queued (SyncService.storage w))).
  assert (replicate (n + 3) (SyncService.EvResume 0)
          = SyncService.EvResume 0
              :: replicate n (SyncService.EvResume 0)
              ++ [SyncService.EvResume 0; SyncService.EvResume 0]) as ->.
  { replace (n + 3) with (S (n + 2)) by lia. simpl. by rewrite replicate_add. }
  unfold SyncService.run. cbn [fold_left SyncService.step].
  unfold SyncService.start. cbn [SyncService.world SyncService.passes].
  destruct (may_sync w) eqn:E.
  - rewrite syncPendingChanges_pass by done.
    unfold may_sync in E.
    assert (negb (SyncService.isOnline w) || SyncService.syncInProgress w
            || negb (truthy (SyncService.svc_userId w)) = false) as ->.
    { by destruct (SyncService.isOnline w), (SyncService.syncInProgress w),
        (truthy (SyncService.svc_userId w)). }
    rewrite fold_left_app.
    pose proof (run_draining (queued (SyncService.storage w))
                  (SyncService.set_syncInProgress true w)) as Hdrain.
    unfold SyncService.run in Hdrain. fold n in Hdrain.
    match goal with
    | |- fold_left _ _ (fold_left _ _ ?m) = _ =>
        change m with (SyncService.Machine
                         (SyncService.set_syncInProgress true w)
                         [SyncService.Draining (queued (SyncService.storage w))])
    end.
    rewrite Hdrain. reflexivity.
  - rewrite syncPendingChanges_guarded by done.
    unfold may_sync in E.
    assert (negb (SyncService.isOnline w) || SyncService.syncInProgress w
            || negb (truthy (SyncService.svc_userId w)) = true) as ->.
    { by destruct (SyncService.isOnline w), (SyncService.syncInProgress w),
        (truthy (SyncService.svc_userId w)). }
    rewrite fold_left_app. simpl.
    induction n as [|k IH]; simpl; done.
Qed.

(** C7 -- Mutual exclusion.  From an idle service and whatever the
    events that follow (connectivity changes, timer ticks, direct calls,
    user mutations, resumptions of a suspended pass), at most one sync
    pass is in flight, and [syncInProgress] is false exactly when none is,
    also after a pass in which operations or the reconciliation failed.
    A call of [syncPendingChanges] made while a pass is in progress, or
    while offline, or without a user id, returns the state unchanged
    (local store, operation queue and server included) and starts nothing;
    so does a timer tick during a pass. *)
Theorem sync_mutual_exclusion w events :
  SyncService.syncInProgress w = false ->
  let m := SyncService.run events (SyncService.Machine w []) in
  length (SyncService.passes m) <= 1
  /\ (SyncService.passes m = [] <->
      SyncService.syncInProgress (SyncService.world m) = false)
  /\ (forall w',
        SyncService.isOnline w' = false \/ SyncService.syncInProgress w' = true
        \/ truthy (SyncService.svc_userId w') = false ->
        SyncService.syncPendingChanges w' = w'
        /\ forall passes, SyncService.step (SyncService.Machine w' passes) SyncService.EvSync
                          = SyncService.Machine w' passes)
  /\ (SyncService.passes m <> [] ->
      SyncService.step m SyncService.EvSync = m
      /\ SyncService.step m SyncService.EvInterval = m
      /\ SyncService.syncPendingChanges (SyncService.world m) = SyncService.world m)
  /\ SyncService.syncInProgress (SyncService.syncPendingChanges w) = false.
Proof.
  intros Hidle m.
  assert (exclusive m) as Hm by (by apply run_exclusive).
  assert (forall w', SyncService.isOnline w' = false \/ SyncService.syncInProgress w' = true
                     \/ truthy (SyncService.svc_userId w') = false -> may_sync w' = false)
    as Hguard.
  { unfold may_sync. intros w' [Hw | [Hw | Hw]]; rewrite Hw;
      by rewrite ?andb_false_r. }
  assert (forall w' passes, may_sync w' = false ->
            SyncService.step (SyncService.Machine w' passes) SyncService.EvSync
            = SyncService.Machine w' passes) as Hstart.
  { intros w' passes Hw'. simpl. unfold SyncService.start, may_sync in *. simpl.
    by destruct (SyncService.isOnline w'), (SyncService.syncInProgress w'),
      (truthy (SyncService.svc_userId w')). }
  clearbody m. unfold exclusive in Hm.
  split; [|split; [|split; [|split]]].
  - destruct (SyncService.passes m) as [|ph [|ph' l]]; simpl; [lia|lia|done].
  - destruct (SyncService.passes m) as [|ph [|ph' l]]; [done| |done].
    rewrite Hm. split; discriminate.
  - intros w' Hw'. split.
    + by apply syncPendingChanges_guarded, Hguard.
    + intros passes. by apply Hstart, Hguard.
  - intros Hbusy.
    assert (SyncService.syncInProgress (SyncService.world m) = true) as Hflag.
    { by destruct (SyncService.passes m) as [|ph [|ph' l]]. }
    destruct m as [w' passes]. simpl in Hflag. split; [|split].
    + apply Hstart, Hguard. by right; left.
    + simpl. rewrite Hflag. by rewrite andb_false_r.
    + apply syncPendingChanges_guarded, Hguard. by right; left.
  - by rewrite (control_syncInProgress _ _ (syncPendingChanges_control w)).
Qed.
End mutual_exclusion.

Lemma sync_mutual_exclusion_witness :
  SyncService.syncInProgress outage_world = false
  /\ length (SyncService.passes
               (SyncService.run
                  [SyncService.EvSync; SyncService.EvResume 0; SyncService.EvSync;
                   SyncService.EvInterval; SyncService.EvResume 0]
                  (SyncService.Machine outage_world []))) <= 1
  /\ SyncService.syncInProgress (SyncService.syncPendingChanges outage_world) = false.
Proof.
  split; [reflexivity|].
  destruct (sync_mutual_exclusion
              outage_world
              [SyncService.EvSync; SyncService.EvResume 0; SyncService.EvSync;
               SyncService.EvInterval; SyncService.EvResume 0]
              eq_refl) as (Hone & _ & _ & _ & Hidle).
  split; [exact Hone | exact Hidle].
Defined.

(** ** Reconciliation with the server *)

Section find_task.
Implicit Types (x y : task) (l tasks : list task) (i : string).

Lemma find_task_app i l1 l2 :
  SyncService.find_task i (l1 ++ l2)
  = match SyncService.find_task i l1 with
    | Some x => Some x
    | None => SyncService.find_task i l2
    end.
Proof.
  unfold SyncService.find_task. induction l1 as [|y l1 IH]; simpl; [done|].
  by destruct (String.eqb (_id y) i).
Qed.

Lemma find_task_In i l x :
  NoDup (List.map _id l) -> In x l -> _id x = i -> SyncService.find_task i l = Some x.
Proof.
  unfold SyncService.find_task. induction l as [|y l IH]; simpl; [done|].
  intros [Hy Hl]%NoDup_cons [->|Hin] Hi.
  - by rewrite (proj2 (String.eqb_eq _ _) Hi).
  - destruct (String.eqb_spec (_id y) i) as [Heq|]; [|by apply IH].
    exfalso. apply Hy. rewrite Heq, <- Hi. by apply list_elem_of_In, List.in_map.
Qed.

(** Under a filter, with distinct identifiers. *)
Lemma find_task_filter (P : task -> bool) i l :
  NoDup (List.map _id l) ->
  SyncService.find_task i (List.filter P l)
  = match SyncService.find_task i l with
    | Some x => if P x then Some x else None
    | None => None
    end.
Proof.
  unfold SyncService.find_task. induction l as [|y l IH]; simpl; [done|].
  intros [Hy Hl]%NoDup_cons.
  destruct (String.eqb_spec (_id y) i) as [Heq|Hne].
  - destruct (P y) eqn:EP; simpl.
    + by rewrite (proj2 (String.eqb_eq _ _) Heq).
    + destruct (List.find _ (List.filter P l)) as [z|] eqn:Ez; [|done].
      apply List.find_some in Ez as [[Hin _]%List.filter_In Hz].
      apply String.eqb_eq in Hz.
      exfalso. apply Hy. rewrite Heq, <- Hz. by apply list_elem_of_In, List.in_map.
  - destruct (P y); simpl; [|by apply IH].
    rewrite (proj2 (String.eqb_neq _ _) Hne). by apply IH.
Qed.

Lemma find_task_rev i l :
  NoDup (List.map _id l) -> SyncService.find_task i (rev l) = SyncService.find_task i l.
Proof.
  induction l as [|y l IH]; simpl; [done|].
  intros [Hy Hl]%NoDup_cons. rewrite find_task_app, IH by done.
  unfold SyncService.find_task at 2 3. simpl.
  destruct (String.eqb_spec (_id y) i) as [Heq|Hne].
  - destruct (SyncService.find_task i l) as [z|] eqn:Ez; [|done].
    apply find_task_Some in Ez as [Hin Hz].
    exfalso. apply Hy. rewrite Heq, <- Hz. by apply list_elem_of_In, List.in_map.
  - fold (SyncService.find_task i l). by destruct (SyncService.find_task i l).
Qed.

Lemma upsert_cons x y l :
  upsert x (y :: l) = if decide (_id y = _id x) then x :: l else y :: upsert x l.
Proof.
  unfold upsert. simpl. destruct (decide (_id y = _id x)); [done|].
  by destruct (list_find _ l) as [[k z]|].
Qed.

Lemma find_task_upsert x l i :
  SyncService.find_task i (upsert x l)
  = if String.eqb (_id x) i then Some x else SyncService.find_task i l.
Proof.
  induction l as [|y l IH].
  - unfold upsert, SyncService.find_task. simpl. by destruct (String.eqb (_id x) i).
  - rewrite upsert_cons. unfold SyncService.find_task in *. simpl.
    destruct (decide (_id y = _id x)) as [Heq|Hne]; simpl.
    + rewrite Heq. by destruct (String.eqb (_id x) i).
    + rewrite IH. destruct (String.eqb_spec (_id y) i) as [Hy|]; [|done].
      destruct (String.eqb_spec (_id x) i); [congruence | done].
Qed.

Lemma get_put {V : Type} k (v : V) s i :
  ObjectStore.get i (ObjectStore.put k v s)
  = if String.eqb i k then Some v else ObjectStore.get i s.
Proof.
  induction s as [|[k' v'] r IH]; simpl; [done|].
  destruct (String.compare k k') eqn:E; simpl.
  - apply String.compare_eq_iff in E as ->. by destruct (String.eqb i k').
  - done.
  - rewrite IH. destruct (String.eqb_spec i k') as [->|]; [|done].
    destruct (String.eqb_spec k' k) as [->|]; [|done].
    by rewrite compare_refl in E.
Qed.

Lemma find_task_getAll (s : ObjectStore.t task) i :
  Forall (fun kv => fst kv = _id (snd kv)) s ->
  SyncService.find_task i (ObjectStore.getAll s) = ObjectStore.get i s.
Proof.
  unfold SyncService.find_task.
  induction 1 as [|[k v] r Hk _ IH]; simpl in *; [done|]. subst k.
  rewrite (String.eqb_sym i). by destruct (String.eqb (_id v) i).
Qed.
End find_task.

Section reconciliation.
Context {Net : Type} `{Gateway Net}.
Implicit Types (w : SyncService.t Net) (s : StorageService.t) (x : task).

Lemma saveTask_tasks_wf x s : tasks_wf s -> tasks_wf (StorageService.saveTask x s).
Proof.
  unfold tasks_wf, StorageService.saveTask.
  destruct (StorageService.useLocalStorage s) eqn:E; simpl; [congruence|].
  intros Hwf _. by apply put_wf, Hwf.
Qed.

(** The owner's list after [saveTask], read by identifier. *)
Lemma find_after_saveTask x s u i :
  tasks_wf s -> userId x = Some u ->
  SyncService.find_task i (StorageService.getTasks u (StorageService.saveTask x s))
  = if String.eqb (_id x) i then Some x
    else SyncService.find_task i (StorageService.getTasks u s).
Proof.
  intros Hwf Hu. destruct (StorageService.useLocalStorage s) eqn:E.
  - rewrite (saveTask_localStorage x s E). rewrite Hu. simpl.
    unfold StorageService.getTasks at 1. simpl. rewrite E, lookup_insert_eq.
    apply find_task_upsert.
  - pose proof (saveTask_tasks_wf x s Hwf) as Hwf'.
    rewrite (saveTask_indexedDB x s E) in *.
    unfold tasks_wf in *. simpl in Hwf'. rewrite E in Hwf'.
    specialize (Hwf E). specialize (Hwf' eq_refl).
    unfold StorageService.getTasks. simpl. rewrite E.
    rewrite !find_task_filter by by apply wf_getAll_NoDup.
    rewrite !find_task_getAll by apply Hwf || apply Hwf'.
    rewrite get_put, (String.eqb_sym i).
    destruct (String.eqb (_id x) i); [|done].
    by rewrite bool_decide_eq_true_2.
Qed.

Lemma find_after_saves (l : list task) w u i :
  tasks_wf (SyncService.storage w) ->
  Forall (fun x => userId x = Some u) l ->
  let w' := fold_left (fun w task =>
              SyncService.set_storage
                (StorageService.saveTask task (SyncService.storage w)) w) l w in
  tasks_wf (SyncService.storage w')
  /\ SyncService.svc_userId w' = SyncService.svc_userId w
  /\ SyncService.find_task i (StorageService.getTasks u (SyncService.storage w'))
     = match SyncService.find_task i (rev l) with
       | Some x => Some x
       | None => SyncService.find_task i (StorageService.getTasks u (SyncService.storage w))
       end.
Proof.
  revert w. induction l as [|x l IH]; intros w Hwf Hall; simpl; [done|].
  apply Forall_cons in Hall as [Hx Hall].
  destruct (IH (SyncService.set_storage
                  (StorageService.saveTask x (SyncService.storage w)) w))
    as (Hwf' & Hu' & Hfind); [by apply saveTask_tasks_wf | done |].
  split; [done|]. split; [done|].
  rewrite Hfind, find_task_app. simpl.
  destruct (SyncService.find_task i (rev l)); [done|].
  rewrite find_after_saveTask by done.
  unfold SyncService.find_task at 1. simpl. by destruct (String.eqb (_id x) i).
Qed.

Lemma getOfflineTasks_user w u :
  SyncService.svc_userId w = Some u -> u <> "" ->
  SyncService.getOfflineTasks w = StorageService.getTasks u (SyncService.storage w).
Proof.
  intros Hu Hne. unfold SyncService.getOfflineTasks. rewrite Hu.
  by rewrite (proj2 (String.eqb_neq _ _) Hne).
Qed.

Lemma existsb_find_task i (l : list task) :
  existsb (fun y => String.eqb (_id y) i) l
  = match SyncService.find_task i l with Some _ => true | None => false end.
Proof.
  unfold SyncService.find_task. induction l as [|y l IH]; simpl; [done|].
  by destruct (String.eqb (_id y) i).
Qed.

Lemma NoDup_filter_ids (P : task -> bool) (l : list task) :
  NoDup (List.map _id l) -> NoDup (List.map _id (List.filter P l)).
Proof.
  induction l as [|y l IH]; simpl; [done|].
  intros [Hy Hl]%NoDup_cons. destruct (P y); simpl; [|by apply IH].
  apply NoDup_cons. split; [|by apply IH].
  intros Hin. apply Hy.
  apply list_elem_of_In, List.in_map_iff in Hin as (z & Hz & [Hin _]%List.filter_In).
  rewrite <- Hz. by apply list_elem_of_In, List.in_map.
Qed.

Lemma NoDup_filters_ids (P Q : task -> bool) (l : list task) :
  NoDup (List.map _id l) ->
  (forall x, P x = true -> Q x = false) ->
  NoDup (List.map _id (List.filter P l ++ List.filter Q l)).
Proof.
  intros Hnd Hdis. rewrite List.map_app. apply NoDup_app.
  split; [by apply NoDup_filter_ids|]. split; [|by apply NoDup_filter_ids].
  intros k Hp Hq.
  apply list_elem_of_In, List.in_map_iff in Hp as (x & Hx & [Hinx HP]%List.filter_In).
  apply list_elem_of_In, List.in_map_iff in Hq as (y & Hy & [Hiny HQ]%List.filter_In).
  assert (x = y) as ->.
  { assert (SyncService.find_task k l = Some x) as Ex by by apply find_task_In.
    assert (SyncService.find_task k l = Some y) as Ey by by apply find_task_In.
    congruence. }
  rewrite (Hdis y HP) in HQ. discriminate.
Qed.

(** C4 -- Last-write-wins reconciliation.  When the gateway returns the
    owner's tasks, each under its own identifier, the local store read by
    identifier after [syncFromServer] is the last-write-wins merge of the
    server response and of the local store before: a server task whose
    identifier matches a local task replaces it if and only if the
    server's [updatedAt] is strictly newer; a server task absent locally
    is inserted; a local task absent from the response is left as it
    was. *)
Theorem syncFromServer_last_write_wins w u serverTasks n :
  SyncService.svc_userId w = Some u -> u <> "" ->
  tasks_wf (SyncService.storage w) ->
  TaskService.getTasks (SyncService.net w) = (Ok (Some serverTasks), n) ->
  NoDup (List.map _id serverTasks) ->
  Forall (fun x => userId x = Some u) serverTasks ->
  forall taskId,
    SyncService.find_task taskId (SyncService.getOfflineTasks (SyncService.syncFromServer w))
    = last_write_wins (SyncService.find_task taskId serverTasks)
                      (SyncService.find_task taskId (SyncService.getOfflineTasks w)).
Proof.
  intros Hu Hne Hwf Hget Hnd Hown taskId.
  unfold SyncService.syncFromServer. rewrite Hget. cbv zeta.
  rewrite (getOfflineTasks_user (SyncService.set_net n w) u Hu Hne).
  rewrite (getOfflineTasks_user w u Hu Hne).
  change (SyncService.storage (SyncService.set_net n w)) with (SyncService.storage w).
  set (localTasks := StorageService.getTasks u (SyncService.storage w)).
  set (isNew := fun serverTask : task =>
         negb (existsb (fun localTask => String.eqb (_id localTask) (_id serverTask))
                       localTasks)).
  set (isNewer := fun serverTask : task =>
         match SyncService.find_task (_id serverTask) localTasks with
         | Some localTask => (updatedAt localTask <? updatedAt serverTask)%Z
         | None => false
         end).
  set (saved := (List.filter isNew serverTasks ++ List.filter isNewer serverTasks)%list).
  assert (NoDup (List.map _id saved)) as Hsaved.
  { apply NoDup_filters_ids; [done|]. intros x. unfold isNew, isNewer.
    rewrite existsb_find_task. by destruct (SyncService.find_task _ _). }
  assert (Forall (fun x => userId x = Some u) saved) as Hsaved_own.
  { apply Forall_app. split; apply Forall_forall; intros x Hx;
      apply list_elem_of_In, List.filter_In in Hx as [Hx _];
      rewrite Forall_forall in Hown; by apply Hown, list_elem_of_In. }
  destruct (find_after_saves saved (SyncService.set_net n w) u taskId Hwf Hsaved_own)
    as (_ & Hu' & Hfind).
  assert (SyncService.find_task taskId saved
          = match SyncService.find_task taskId serverTasks with
            | Some s => if isNew s || isNewer s then Some s else None
            | None => None
            end) as Hsaved_find.
  { unfold saved. rewrite find_task_app, !find_task_filter by done.
    destruct (SyncService.find_task taskId serverTasks) as [s|]; [|done].
    by destruct (isNew s), (isNewer s). }
  match goal with
  | |- SyncService.find_task _ (SyncService.getOfflineTasks ?w') = _ =>
      assert (SyncService.find_task taskId (SyncService.getOfflineTasks w')
              = SyncService.find_task taskId
                  (StorageService.getTasks u
                     (SyncService.storage
                        (fold_left (fun w task =>
                           SyncService.set_storage
                             (StorageService.saveTask task (SyncService.storage w)) w)
                           saved (SyncService.set_net n w))))) as ->
  end.
  { destruct (_ && _).
    - rewrite (getOfflineTasks_user _ u); [|by rewrite do_dispatch_control_user, Hu'|done].
      rewrite do_dispatch_storage. reflexivity.
    - rewrite (getOfflineTasks_user _ u); [done|by rewrite Hu'|done]. }
  rewrite Hfind, find_task_rev, Hsaved_find by done.
  change (SyncService.storage (SyncService.set_net n w)) with (SyncService.storage w).
  fold localTasks.
  destruct (SyncService.find_task taskId serverTasks) as [s|] eqn:Es; [|done].
  apply find_task_Some in Es as [_ <-].
  unfold isNew, isNewer, last_write_wins. rewrite existsb_find_task.
  destruct (SyncService.find_task (_id s) localTasks) as [l|]; simpl; [|done].
  by destruct (updatedAt l <? updatedAt s)%Z.
Qed.
End reconciliation.

Lemma reconcile_world_tasks_wf : tasks_wf (SyncService.storage reconcile_world).
Proof. intros _. split; simpl; repeat constructor. Defined.

Lemma syncFromServer_last_write_wins_witness :
  (SyncService.svc_userId reconcile_world = Some "u1"
   /\ tasks_wf (SyncService.storage reconcile_world)
   /\ fst (TaskService.getTasks (SyncService.net reconcile_world))
      = Ok (Some [demo_task'; demo_task2]))
  /\ SyncService.find_task "t1"
       (SyncService.getOfflineTasks (SyncService.syncFromServer reconcile_world))
     = Some demo_task'
  /\ SyncService.find_task "t2"
       (SyncService.getOfflineTasks (SyncService.syncFromServer reconcile_world))
     = Some demo_task2
  /\ SyncService.find_task "offline_1000_0.5"
       (SyncService.getOfflineTasks (SyncService.syncFromServer reconcile_world))
     = Some demo_task3.
Proof.
  split; [split; [reflexivity|split; [exact reconcile_world_tasks_wf|reflexivity]]|].
  assert ("u1" <> "") as Hne by discriminate.
  assert (NoDup (List.map _id [demo_task'; demo_task2])) as Hnd.
  { apply NoDup_cons. split; [|apply NoDup_singleton].
    intros Hin%list_elem_of_singleton. discriminate. }
  assert (Forall (fun x => userId x = Some "u1") [demo_task'; demo_task2]) as Hown
      by (repeat constructor).
  pose proof (syncFromServer_last_write_wins
                reconcile_world "u1" [demo_task'; demo_task2] _
                eq_refl Hne reconcile_world_tasks_wf eq_refl Hnd Hown) as Hlww.
  split; [exact (Hlww "t1")|]. split; [exact (Hlww "t2")|].
  exact (Hlww "offline_1000_0.5").
Defined.

(** ** Replay of the offline session *)

(** C2 -- Offline cancellation, evaluated on the code.  A task is created
    and then deleted while offline, before any sync pass: both operations
    are queued under the temporary identifier and the local record is
    gone.  On reconnection the drain nevertheless sends the CREATE
    ([POST]); only the DELETE is skipped.  One request for the task has
    gone out, and the task is left on the server and in the local store
    under the identifier that the server assigned. *)
Theorem created_then_deleted_leaves_a_record (taskData : payload) :
  let offline := fold_left SyncService.offline_apply (created_then_deleted taskData)
                           fresh_world in
  List.map (fun item => (op_type (op item), op_taskId (op item)))
           (queued (SyncService.storage offline))
  = [("CREATE", "offline_1000_0.5"); ("DELETE", "offline_1000_0.5")]
  /\ SyncService.getOfflineTasks offline = []
  /\ let synced := SyncService.on_online offline in
     SpecGateway.requests (SyncService.net synced)
     = [SpecGateway.POST (Some taskData); SpecGateway.GET]
     /\ SpecGateway.db (SpecGateway.srv (SyncService.net synced)) = [first_server_task taskData]
     /\ SyncService.getOfflineTasks synced = [first_server_task taskData]
     /\ queued (SyncService.storage synced) = [].
Proof. repeat split. Qed.

(** C1 -- Replay equivalence, evaluated on the code.  A task is created
    and then completed while offline: the local record carries the
    update, and the queue holds a CREATE and an UPDATE under the temporary
    identifier.  Applied online, the same two mutations leave the task
    completed at the gateway.  The drain sends the CREATE, which gives the
    local record the identifier of the server; the UPDATE, still queued
    under the temporary identifier, then finds no local task, is skipped
    without a request and is removed from the queue.  The gateway is left
    with the task as it was created, the reconciled local record has lost
    the update as well, and nothing is left to retry. *)
Theorem update_of_offline_task_is_lost (taskData : payload) :
  let updates : payload := {[ "completed" := VBool true ]} in
  let offline := fold_left SyncService.offline_apply
                           (created_then_updated taskData updates) fresh_world in
  let synced := SyncService.on_online offline in
  let online := fold_left SyncService.online_apply
                          [SyncService.Create taskData; SyncService.Update "srv1" updates]
                          (SyncService.net fresh_world) in
  List.map (fun item => (op_type (op item), op_taskId (op item)))
           (queued (SyncService.storage offline))
  = [("CREATE", "offline_1000_0.5"); ("UPDATE", "offline_1000_0.5")]
  /\ List.map fields (SyncService.getOfflineTasks offline) = [updates ∪ taskData]
  /\ SpecGateway.requests (SyncService.net synced)
     = [SpecGateway.POST (Some taskData); SpecGateway.GET]
  /\ SpecGateway.requests online
     = [SpecGateway.POST (Some taskData); SpecGateway.PUT "srv1" (Some updates)]
  /\ List.map fields (SpecGateway.db (SpecGateway.srv (SyncService.net synced))) = [taskData]
  /\ List.map fields (SpecGateway.db (SpecGateway.srv online)) = [updates ∪ taskData]
  /\ SpecGateway.srv (SyncService.net synced) <> SpecGateway.srv online
  /\ queued (SyncService.storage synced) = []
  /\ SyncService.getOfflineTasks synced = [first_server_task taskData].
Proof.
  cbv zeta. split_and!; try reflexivity.
  intros Heq. apply (f_equal SpecGateway.clock) in Heq. vm_compute in Heq. discriminate.
Qed.

(** *** The local store in the IndexedDB path *)

Section indexedDB.
Implicit Types (s : StorageService.t) (x : task) (u i : string).

Lemma get_remove {V : Type} k (st : ObjectStore.t V) i :
  ObjectStore.get i (ObjectStore.remove k st)
  = if String.eqb k i then None else ObjectStore.get i st.
Proof.
  unfold ObjectStore.remove. induction st as [|[k' v'] r IH]; simpl.
  - by destruct (String.eqb k i).
  - destruct (String.eqb_spec k k') as [->|Hne]; simpl.
    + rewrite IH. rewrite (String.eqb_sym i). by destruct (String.eqb k' i).
    + rewrite IH. destruct (String.eqb_spec i k') as [->|]; [|done].
      by rewrite (proj2 (String.eqb_neq _ _) Hne).
Qed.

Lemma deleteTask_tasks_wf taskId uo s :
  tasks_wf s -> tasks_wf (StorageService.deleteTask taskId uo s).
Proof.
  unfold tasks_wf, StorageService.deleteTask.
  destruct (StorageService.useLocalStorage s) eqn:E; simpl; [congruence|].
  intros Hwf _. by apply remove_wf, Hwf.
Qed.

Lemma find_after_deleteTask taskId uo s u i :
  StorageService.useLocalStorage s = false -> tasks_wf s ->
  SyncService.find_task i (StorageService.getTasks u (StorageService.deleteTask taskId uo s))
  = if String.eqb taskId i then None
    else SyncService.find_task i (StorageService.getTasks u s).
Proof.
  intros E Hwf. pose proof (deleteTask_tasks_wf taskId uo s Hwf) as Hwf'.
  unfold tasks_wf, StorageService.deleteTask, StorageService.getTasks in *.
  specialize (Hwf E). rewrite E in Hwf'. simpl in Hwf'. specialize (Hwf' E).
  rewrite E. simpl. rewrite E.
  rewrite !find_task_filter by by apply wf_getAll_NoDup.
  rewrite !find_task_getAll by apply Hwf || apply Hwf'.
  rewrite get_remove. by destruct (String.eqb taskId i).
Qed.

Lemma getTasks_set_sync_store u q s :
  StorageService.getTasks u (StorageService.set_sync_store q s) = StorageService.getTasks u s.
Proof. reflexivity. Qed.
End indexedDB.

(** * Further properties of the code *)

(** ** Bulk operations of the storage service *)

Section bulk_storage.
Implicit Types (s : StorageService.t) (u : string) (l : list task).

Lemma saveTask_mode x s :
  StorageService.useLocalStorage (StorageService.saveTask x s)
  = StorageService.useLocalStorage s.
Proof. unfold StorageService.saveTask. by destruct (StorageService.useLocalStorage s) eqn:E. Qed.

Lemma saveTasks_fold l uo s :
  StorageService.useLocalStorage s = false ->
  StorageService.saveTasks l uo s = fold_left (fun s x => StorageService.saveTask x s) l s.
Proof.
  intros E. unfold StorageService.saveTasks. rewrite E.
  revert s E. induction l as [|x l IH]; intros s E; simpl; [done|].
  rewrite <- (saveTask_indexedDB x s E). apply IH. by rewrite saveTask_mode.
Qed.

Lemma find_after_saveTasks l s u i :
  tasks_wf s -> Forall (fun x => userId x = Some u) l ->
  SyncService.find_task i
    (StorageService.getTasks u (fold_left (fun s x => StorageService.saveTask x s) l s))
  = match SyncService.find_task i (rev l) with
    | Some x => Some x
    | None => SyncService.find_task i (StorageService.getTasks u s)
    end.
Proof.
  intros Hwf Hown. revert s Hwf.
  induction Hown as [|x l Hx Hown IH]; intros s Hwf; simpl; [done|].
  rewrite IH by by apply saveTask_tasks_wf.
  rewrite find_task_app, (find_after_saveTask x s u i Hwf Hx).
  destruct (SyncService.find_task i (rev l)); [done|].
  simpl. by destruct (String.eqb (_id x) i).
Qed.

(** X1 -- After [saveTasks], looking a task up by its identifier gives the
    task that was saved under it.  For an identifier that is not in the
    saved list the two media differ: IndexedDB still holds what it held,
    localStorage holds nothing, since the item of the user is replaced
    as a whole. *)
Theorem saveTasks_lookup l u s i :
  tasks_wf s ->
  NoDup (List.map _id l) ->
  Forall (fun x => userId x = Some u) l ->
  SyncService.find_task i
    (StorageService.getTasks u (StorageService.saveTasks l (Some u) s))
  = match SyncService.find_task i l with
    | Some x => Some x
    | None => if StorageService.useLocalStorage s then None
              else SyncService.find_task i (StorageService.getTasks u s)
    end.
Proof.
  intros Hwf Hids Hown.
  destruct (StorageService.useLocalStorage s) eqn:E.
  - unfold StorageService.saveTasks, StorageService.getTasks. rewrite E. simpl.
    rewrite E, lookup_insert_eq. by destruct (SyncService.find_task i l).
  - rewrite (saveTasks_fold l (Some u) s E), (find_after_saveTasks l s u i Hwf Hown).
    by rewrite (find_task_rev i l Hids).
Qed.

Lemma filter_all {A : Type} (f : A -> bool) (q : list A) :
  (forall x, In x q -> f x = true) -> List.filter f q = q.
Proof.
  induction q as [|a q IH]; intros Hf; simpl; [done|].
  rewrite (Hf a) by by left. f_equal. apply IH. intros x Hx. apply Hf. by right.
Qed.

Lemma fold_remove_store l s :
  fold_left (fun s x => StorageService.set_tasks_store (ObjectStore.remove (_id x)) s) l s
  = StorageService.set_tasks_store
      (fun st => fold_left (fun st x => ObjectStore.remove (_id x) st) l st) s.
Proof.
  revert s. induction l as [|x l IH]; intros s; simpl; [by destruct s|].
  by rewrite IH.
Qed.

Lemma fold_remove_filter l (st : ObjectStore.t task) :
  fold_left (fun st x => ObjectStore.remove (_id x) st) l st
  = List.filter (fun kv => negb (existsb (fun x => String.eqb (_id x) (fst kv)) l)) st.
Proof.
  revert st. induction l as [|x l IH]; intros st; simpl.
  - symmetry. by apply filter_all.
  - rewrite IH. unfold ObjectStore.remove.
    induction st as [|kv st IHst]; simpl; [done|].
    destruct (String.eqb (_id x) kv.1); simpl; [done|].
    destruct (existsb _ l); simpl; by rewrite IHst.
Qed.

Lemma ids_inj_in l (x y : task) :
  NoDup (List.map _id l) -> In x l -> In y l -> _id x = _id y -> x = y.
Proof.
  induction l as [|a l IH]; simpl; [done|].
  intros [Ha Hl]%NoDup_cons [<-|Hx] [<-|Hy] E; try done.
  - destruct Ha. apply list_elem_of_In. rewrite E. by apply in_map.
  - destruct Ha. apply list_elem_of_In. rewrite <- E. by apply in_map.
  - by apply IH.
Qed.

Lemma clear_index (P : task -> bool) (st : ObjectStore.t task) :
  store_wf _id st ->
  fold_left (fun st x => ObjectStore.remove (_id x) st)
            (List.filter P (ObjectStore.getAll st)) st
  = List.filter (fun kv => negb (P kv.2)) st.
Proof.
  intros Hwf. rewrite fold_remove_filter. apply List.filter_ext_in.
  intros kv Hkv. f_equal.
  assert (fst kv = _id (snd kv)) as Hkey.
  { destruct Hwf as [_ Hkeys]. rewrite List.Forall_forall in Hkeys. by apply Hkeys. }
  destruct (P kv.2) eqn:HP.
  - apply existsb_exists. exists kv.2. split.
    + apply filter_In. split; [|done]. unfold ObjectStore.getAll. by apply in_map.
    + rewrite Hkey. apply String.eqb_refl.
  - destruct (existsb _ _) eqn:Hex; [|done].
    apply existsb_exists in Hex as (x & [Hx HPx]%filter_In & Heq%String.eqb_eq).
    assert (x = kv.2) as ->; [|congruence].
    apply (ids_inj_in (ObjectStore.getAll st)); [by apply (wf_getAll_NoDup _id)|done| |congruence].
    unfold ObjectStore.getAll. by apply in_map.
Qed.

Lemma owned_after_clear (P : task -> bool) (u' : string) (st : ObjectStore.t task) :
  List.filter (fun x => bool_decide (userId x = Some u'))
              (ObjectStore.getAll (List.filter (fun kv => negb (P kv.2)) st))
  = List.filter (fun x => bool_decide (userId x = Some u') && negb (P x))
                (ObjectStore.getAll st).
Proof.
  induction st as [|kv st IH]; simpl; [done|].
  destruct (P kv.2); simpl; rewrite IH.
  - by rewrite andb_false_r.
  - by rewrite andb_true_r.
Qed.

Lemma clearTasks_indexedDB uo u' s :
  StorageService.useLocalStorage s = false -> tasks_wf s ->
  StorageService.getTasks u' (StorageService.clearTasks uo s)
  = List.filter (fun x => bool_decide (userId x = Some u')
                          && negb (match uo with
                                   | Some u => bool_decide (userId x = Some u)
                                   | None => bool_decide (is_Some (userId x))
                                   end))
                (ObjectStore.getAll (StorageService.tasks_store s)).
Proof.
  intros E Hwf. unfold StorageService.clearTasks. rewrite E, fold_remove_store.
  unfold StorageService.getTasks. simpl. rewrite E.
  unfold StorageService.index_getAll.
  match goal with |- context [List.filter ?f (ObjectStore.getAll _)] =>
    lazymatch f with context [uo] => set (P := f) end end.
  rewrite (clear_index P) by by apply Hwf.
  apply (owned_after_clear P).
Qed.

(** X2 -- [clearTasks] is scoped to one user: afterwards the store
    lists no task for that user, and lists for every other user the
    tasks that it listed before. *)
Theorem clearTasks_scoped (u u' : string) s :
  tasks_wf s ->
  StorageService.getTasks u' (StorageService.clearTasks (Some u) s)
  = if String.eqb u' u then [] else StorageService.getTasks u' s.
Proof.
  intros Hwf. destruct (StorageService.useLocalStorage s) eqn:E.
  - unfold StorageService.clearTasks, StorageService.getTasks. rewrite E. simpl. rewrite E.
    destruct (String.eqb_spec u' u) as [->|Hne].
    + by rewrite lookup_delete_eq.
    + by rewrite lookup_delete_ne.
  - rewrite (clearTasks_indexedDB (Some u) u' s E Hwf).
    destruct (String.eqb_spec u' u) as [->|Hne].
    + apply filter_none. intros x _. by destruct (bool_decide (userId x = Some u)).
    + unfold StorageService.getTasks. rewrite E. apply List.filter_ext. intros x.
      destruct (bool_decide_reflect (userId x = Some u')) as [Hx|Hx]; [|done].
      rewrite bool_decide_eq_false_2; [done|]. congruence.
Qed.

(** X3 -- With no user ([null]), [clearTasks] removes from IndexedDB the
    tasks of every user, the [null] query selecting the whole index;
    in the localStorage path it removes the one item [tasks_null]. *)
Theorem clearTasks_null (u' : string) s :
  tasks_wf s ->
  StorageService.getTasks u' (StorageService.clearTasks None s)
  = if StorageService.useLocalStorage s
    then (if String.eqb u' "null" then [] else StorageService.getTasks u' s)
    else [].
Proof.
  intros Hwf. destruct (StorageService.useLocalStorage s) eqn:E.
  - unfold StorageService.clearTasks, StorageService.getTasks. rewrite E. simpl. rewrite E.
    destruct (String.eqb_spec u' "null") as [->|Hne].
    + by rewrite lookup_delete_eq.
    + by rewrite lookup_delete_ne.
  - rewrite (clearTasks_indexedDB None u' s E Hwf).
    apply filter_none. intros x _.
    destruct (bool_decide_reflect (userId x = Some u')) as [Hx|Hx]; [|done].
    rewrite bool_decide_eq_true_2; [done|]. by rewrite Hx.
Qed.

End bulk_storage.

Lemma demo_indexedDB_tasks_wf : tasks_wf demo_indexedDB.
Proof. intros _. split; simpl; repeat constructor. Defined.

Lemma shared_indexedDB_tasks_wf : tasks_wf shared_indexedDB.
Proof. intros _. split; simpl; repeat constructor. Defined.

Lemma saveTasks_lookup_witness :
  tasks_wf demo_indexedDB
  /\ SyncService.find_task "t2"
       (StorageService.getTasks "u1"
          (StorageService.saveTasks [demo_task'; demo_task2] (Some "u1") demo_indexedDB))
     = Some demo_task2
  /\ SyncService.find_task "t1"
       (StorageService.getTasks "u1"
          (StorageService.saveTasks [demo_task2] (Some "u1") demo_indexedDB))
     = Some demo_task
  /\ SyncService.find_task "t1"
       (StorageService.getTasks "u1"
          (StorageService.saveTasks [demo_task2] (Some "u1") demo_localStorage))
     = None.
Proof.
  assert (NoDup (List.map _id [demo_task'; demo_task2])) as Hids.
  { apply NoDup_cons. split; [|apply NoDup_singleton].
    intros Hin%list_elem_of_singleton. discriminate. }
  assert (NoDup (List.map _id [demo_task2])) as Hid by apply NoDup_singleton.
  assert (Forall (fun x => userId x = Some "u1") [demo_task'; demo_task2]) as Hown
      by (repeat constructor).
  assert (Forall (fun x => userId x = Some "u1") [demo_task2]) as Hown2
      by (repeat constructor).
  assert (tasks_wf demo_localStorage) as Hls by (intros; discriminate).
  split; [exact demo_indexedDB_tasks_wf|]. split_and!.
  - exact (saveTasks_lookup _ "u1" demo_indexedDB "t2" demo_indexedDB_tasks_wf Hids Hown).
  - exact (saveTasks_lookup _ "u1" demo_indexedDB "t1" demo_indexedDB_tasks_wf Hid Hown2).
  - exact (saveTasks_lookup _ "u1" demo_localStorage "t1" Hls Hid Hown2).
Defined.

Lemma clearTasks_scoped_witness :
  tasks_wf shared_indexedDB
  /\ StorageService.getTasks "u1" (StorageService.clearTasks (Some "u1") shared_indexedDB)
     = []
  /\ StorageService.getTasks "u2" (StorageService.clearTasks (Some "u1") shared_indexedDB)
     = [demo_task_u2].
Proof.
  split; [exact shared_indexedDB_tasks_wf|]. split.
  - exact (clearTasks_scoped "u1" "u1" shared_indexedDB shared_indexedDB_tasks_wf).
  - exact (clearTasks_scoped "u1" "u2" shared_indexedDB shared_indexedDB_tasks_wf).
Defined.

Lemma clearTasks_null_witness :
  tasks_wf shared_indexedDB
  /\ StorageService.getTasks "u1" (StorageService.clearTasks None shared_indexedDB) = []
  /\ StorageService.getTasks "u2" (StorageService.clearTasks None shared_indexedDB) = [].
Proof.
  split; [exact shared_indexedDB_tasks_wf|]. split.
  - exact (clearTasks_null "u1" shared_indexedDB shared_indexedDB_tasks_wf).
  - exact (clearTasks_null "u2" shared_indexedDB shared_indexedDB_tasks_wf).
Defined.

(** ** The operation queue: enqueue, removal, reset *)

Section queue_ops.
Implicit Types (s : StorageService.t).

Lemma put_length_fresh {V : Type} k (v : V) (st : ObjectStore.t V) :
  ObjectStore.get k st = None ->
  length (ObjectStore.put k v st) = S (length st).
Proof.
  induction st as [|[k' v'] st IH]; simpl; [done|].
  destruct (String.eqb_spec k k') as [->|Hne]; [done|]. intros Hget.
  destruct (String.compare k k') eqn:Hc; simpl; [|done|by rewrite IH].
  by apply String.compare_eq_iff in Hc.
Qed.

Lemma remove_absent {V : Type} k (st : ObjectStore.t V) :
  ObjectStore.get k st = None -> ObjectStore.remove k st = st.
Proof.
  induction st as [|[k' v'] st IH]; simpl; [done|].
  destruct (String.eqb k k'); [done|]. intros Hget. simpl. f_equal. by apply IH.
Qed.

Lemma remove_put_fresh {V : Type} k (v : V) (st : ObjectStore.t V) :
  ObjectStore.get k st = None ->
  ObjectStore.remove k (ObjectStore.put k v st) = st.
Proof.
  induction st as [|[k' v'] st IH]; simpl.
  - by rewrite String.eqb_refl.
  - destruct (String.eqb_spec k k') as [->|Hne]; [done|]. intros Hget.
    destruct (String.compare k k') eqn:Hc; simpl.
    + by apply String.compare_eq_iff in Hc.
    + rewrite String.eqb_refl. simpl.
      destruct (String.eqb_spec k k'); [done|]. simpl. f_equal.
      by apply (remove_absent k st).
    + destruct (String.eqb_spec k k'); [done|]. simpl. f_equal. by apply IH.
Qed.

(** X4 -- [addToSyncQueue] is all or nothing: either the operation is
    stored, and the queue lists it and is one operation longer, or the
    call throws and the storage service is left as it was. *)
Theorem addToSyncQueue_all_or_nothing operation now rnd s :
  let item := StorageService.make_syncItem operation now rnd in
  match StorageService.addToSyncQueue operation now rnd s with
  | (Ok _, s') =>
      length (queued s') = S (length (queued s))
      /\ In item (queued s')
      /\ forall u, StorageService.getTasks u s' = StorageService.getTasks u s
  | (Throw _, s') => s' = s
  end.
Proof.
  cbv zeta. unfold StorageService.addToSyncQueue, queued, StorageService.getSyncQueue.
  destruct (StorageService.useLocalStorage s) eqn:E; simpl; [done|].
  unfold ObjectStore.add.
  destruct (ObjectStore.get _ (StorageService.sync_store s)) eqn:Hget; [done|].
  simpl. rewrite E. simpl. split_and!.
  - unfold ObjectStore.getAll. rewrite !length_map. by apply put_length_fresh.
  - unfold ObjectStore.getAll.
    apply List.in_map_iff. eexists. split; [|apply in_put]. reflexivity.
  - intros u. unfold StorageService.getTasks. simpl. by rewrite E.
Qed.

(** X5 -- The key of a queued operation is made of its type, its task
    identifier and the random draw, not of the time: enqueueing an
    operation on the same task with the same draw a second time, at
    whatever time, throws a [ConstraintError] and stores nothing. *)
Theorem addToSyncQueue_same_draw operation now now' rnd s s' :
  op_taskId operation <> "" ->
  StorageService.addToSyncQueue operation now rnd s = (Ok tt, s') ->
  StorageService.addToSyncQueue operation now' rnd s'
  = (Throw (JsError "ConstraintError" "Key already exists in the object store."), s').
Proof.
  intros Hid. unfold StorageService.addToSyncQueue, StorageService.getSyncQueue.
  cbv zeta.
  assert (forall t, id (StorageService.make_syncItem operation t rnd)
                    = id (StorageService.make_syncItem operation now rnd)) as Hkey.
  { intros t. unfold StorageService.make_syncItem. simpl.
    by destruct (String.eqb_spec (op_taskId operation) ""). }
  destruct (StorageService.useLocalStorage s) eqn:E; [simpl; discriminate|].
  unfold ObjectStore.add.
  destruct (ObjectStore.get _ (StorageService.sync_store s)) eqn:Hget; [discriminate|].
  intros [= <-].
  cbn [StorageService.useLocalStorage StorageService.set_sync_store
       StorageService.sync_store].
  rewrite E, (Hkey now'), get_put, String.eqb_refl. reflexivity.
Qed.

(** X6 -- Removing from the queue the operation that was just enqueued
    gives back the storage service as it was before the enqueue. *)
Theorem enqueue_then_remove operation now rnd s s' :
  StorageService.addToSyncQueue operation now rnd s = (Ok tt, s') ->
  StorageService.removeFromSyncQueue
    (id (StorageService.make_syncItem operation now rnd)) s'
  = (Ok tt, s).
Proof.
  unfold StorageService.addToSyncQueue, StorageService.getSyncQueue.
  destruct (StorageService.useLocalStorage s) eqn:E; simpl; [discriminate|].
  unfold ObjectStore.add.
  destruct (ObjectStore.get _ (StorageService.sync_store s)) eqn:Hget; [done|].
  intros [= <-]. unfold StorageService.removeFromSyncQueue. simpl. rewrite E.
  f_equal. unfold StorageService.set_sync_store. simpl.
  rewrite (remove_put_fresh _ _ _ Hget). by destruct s; simpl in *; subst.
Qed.

End queue_ops.

Lemma addToSyncQueue_same_draw_witness :
  let s' := snd (StorageService.addToSyncQueue delete_t1_operation 1000 "0.1" demo_indexedDB) in
  StorageService.addToSyncQueue delete_t1_operation 1000 "0.1" demo_indexedDB = (Ok tt, s')
  /\ StorageService.addToSyncQueue delete_t1_operation 2000 "0.1" s'
     = (Throw (JsError "ConstraintError" "Key already exists in the object store."), s').
Proof.
  cbv zeta.
  assert (op_taskId delete_t1_operation <> "") as Hid by discriminate.
  assert (StorageService.addToSyncQueue delete_t1_operation 1000 "0.1" demo_indexedDB
          = (Ok tt, snd (StorageService.addToSyncQueue
                           delete_t1_operation 1000 "0.1" demo_indexedDB))) as Hfirst
      by reflexivity.
  split; [exact Hfirst|].
  exact (addToSyncQueue_same_draw delete_t1_operation 1000 2000 "0.1" demo_indexedDB _
           Hid Hfirst).
Defined.

Lemma enqueue_then_remove_witness :
  let s' := snd (StorageService.addToSyncQueue delete_t1_operation 1000 "0.1" demo_indexedDB) in
  StorageService.addToSyncQueue delete_t1_operation 1000 "0.1" demo_indexedDB = (Ok tt, s')
  /\ StorageService.removeFromSyncQueue "DELETE_t1_0.1" s' = (Ok tt, demo_indexedDB).
Proof.
  cbv zeta.
  assert (StorageService.addToSyncQueue delete_t1_operation 1000 "0.1" demo_indexedDB
          = (Ok tt, snd (StorageService.addToSyncQueue
                           delete_t1_operation 1000 "0.1" demo_indexedDB))) as Hfirst
      by reflexivity.
  split; [exact Hfirst|].
  exact (enqueue_then_remove delete_t1_operation 1000 "0.1" demo_indexedDB _ Hfirst).
Defined.

(** ** Reset of the offline data, and the status of the queue *)

Section offline_data.
Context {Net : Type} `{Gateway Net}.
Implicit Types (s : StorageService.t) (w : SyncService.t Net).

Lemma clearTasks_own u s :
  tasks_wf s -> StorageService.getTasks u (StorageService.clearTasks (Some u) s) = [].
Proof.
  intros Hwf. destruct (StorageService.useLocalStorage s) eqn:E.
  - unfold StorageService.clearTasks, StorageService.getTasks. rewrite E. simpl.
    by rewrite E, lookup_delete_eq.
  - rewrite (clearTasks_indexedDB (Some u) u s E Hwf).
    apply filter_none. intros x _. by destruct (bool_decide (userId x = Some u)).
Qed.

Lemma clearTasks_tasks_wf uo s :
  tasks_wf s -> tasks_wf (StorageService.clearTasks uo s).
Proof.
  unfold tasks_wf, StorageService.clearTasks.
  destruct (StorageService.useLocalStorage s) eqn:E; simpl; [congruence|].
  rewrite fold_remove_store. simpl. intros Hwf _. specialize (Hwf eq_refl).
  revert Hwf.
  generalize (StorageService.index_getAll uo (StorageService.tasks_store s)).
  generalize (StorageService.tasks_store s).
  intros st l. revert st.
  induction l as [|x l IH]; intros st Hwf; simpl; [exact Hwf|].
  apply IH. by apply remove_wf.
Qed.

Lemma clearSyncQueue_tasks_wf s :
  tasks_wf s -> tasks_wf (StorageService.clearSyncQueue s).
Proof.
  unfold tasks_wf, StorageService.clearSyncQueue.
  by destruct (StorageService.useLocalStorage s) eqn:E; simpl; rewrite ?E.
Qed.

Lemma getTasks_clearSyncQueue u s :
  StorageService.getTasks u (StorageService.clearSyncQueue s) = StorageService.getTasks u s.
Proof.
  unfold StorageService.clearSyncQueue, StorageService.getTasks.
  by destruct (StorageService.useLocalStorage s) eqn:E; simpl; rewrite E.
Qed.

Lemma queued_clearSyncQueue s : queued (StorageService.clearSyncQueue s) = [].
Proof.
  unfold StorageService.clearSyncQueue, queued, StorageService.getSyncQueue.
  by destruct (StorageService.useLocalStorage s) eqn:E; simpl; rewrite E.
Qed.

(** X7 -- After [clearOfflineData] the offline layer lists no task for
    the user and the queue is empty, in the IndexedDB path and in the
    localStorage path alike; the fields of the sync service, the network
    and the state sink are not touched. *)
Theorem clearOfflineData_empties w :
  tasks_wf (SyncService.storage w) ->
  let w' := SyncService.clearOfflineData w in
  SyncService.getOfflineTasks w' = []
  /\ queued (SyncService.storage w') = []
  /\ control w' = control w
  /\ SyncService.net w' = SyncService.net w
  /\ SyncService.sink w' = SyncService.sink w.
Proof.
  intros Hwf. cbv zeta. split_and!; try reflexivity.
  - unfold SyncService.getOfflineTasks, SyncService.clearOfflineData. simpl.
    destruct (SyncService.svc_userId w) as [u|]; [|done].
    destruct (String.eqb u ""); [done|].
    rewrite getTasks_clearSyncQueue. by apply clearTasks_own.
  - apply queued_clearSyncQueue.
Qed.

Lemma saves_net (l : list task) w :
  SyncService.net
    (fold_left (fun w task =>
       SyncService.set_storage (StorageService.saveTask task (SyncService.storage w)) w) l w)
  = SyncService.net w.
Proof. revert w. induction l as [|x l IH]; intros w; simpl; [done|]. by rewrite IH. Qed.

Lemma syncFromServer_net w :
  SyncService.net (SyncService.syncFromServer w) = snd (GET_tasks (SyncService.net w)).
Proof.
  unfold SyncService.syncFromServer, TaskService.getTasks.
  destruct (GET_tasks (SyncService.net w)) as [fetched n].
  destruct (ApiService.request fetched) as [[serverTasks|]|]; try reflexivity.
  cbv zeta. destruct (_ && _).
  - by rewrite do_dispatch_net, saves_net.
  - by rewrite saves_net.
Qed.

(** X8 -- [clearOfflineData] discards the operations that were waiting
    to be sent: the sync pass that follows it sends the one [GET] of the
    reconciliation and nothing else, whatever the queue held. *)
Theorem clearOfflineData_discards_queue w :
  SyncService.net (SyncService.syncPendingChanges (SyncService.clearOfflineData w))
  = if may_sync w then snd (GET_tasks (SyncService.net w)) else SyncService.net w.
Proof.
  set (w0 := SyncService.clearOfflineData w).
  assert (may_sync w0 = may_sync w) as Hguard by reflexivity.
  destruct (may_sync w) eqn:Hsync.
  - rewrite (syncPendingChanges_pass w0 Hguard).
    unfold w0 at 1. unfold SyncService.clearOfflineData at 1.
    cbn [SyncService.storage SyncService.set_storage].
    rewrite queued_clearSyncQueue. simpl. by rewrite syncFromServer_net.
  - by rewrite (syncPendingChanges_guarded w0 Hguard).
Qed.

Lemma syncOperation_queue w operation :
  length (queued (SyncService.storage (SyncService.syncOperation w operation)))
  <= length (queued (SyncService.storage w))
  /\ forall x, In x (queued (SyncService.storage (SyncService.syncOperation w operation))) ->
               In x (queued (SyncService.storage w)).
Proof.
  destruct (StorageService.useLocalStorage (SyncService.storage w)) eqn:E.
  - by rewrite (queued_queue_state _ _ (syncOperation_localStorage w operation E)).
  - unfold SyncService.syncOperation.
    pose proof (processOperation_queue_state operation w) as Hq.
    destruct (SyncService.processOperation operation w) as [[|] w1]; simpl in *;
      [|by rewrite (queued_queue_state _ _ Hq)].
    unfold queue_state in Hq. injection Hq as Hu Hstore _.
    unfold StorageService.removeFromSyncQueue. rewrite Hu, E. simpl.
    unfold queued, StorageService.getSyncQueue. simpl. rewrite Hu, E, Hstore. simpl.
    unfold ObjectStore.getAll, ObjectStore.remove. split.
    + rewrite !length_map. apply List.filter_length_le.
    + intros x (kv & <- & [Hkv _]%filter_In)%List.in_map_iff. by apply in_map.
Qed.

Lemma drain_queue l w :
  length (queued (SyncService.storage (fold_left SyncService.syncOperation l w)))
  <= length (queued (SyncService.storage w))
  /\ forall x, In x (queued (SyncService.storage (fold_left SyncService.syncOperation l w))) ->
               In x (queued (SyncService.storage w)).
Proof.
  revert w. induction l as [|o l IH]; intros w; simpl; [done|].
  destruct (IH (SyncService.syncOperation w o)) as [Hlen Hin].
  destruct (syncOperation_queue w o) as [Hlen' Hin']. split; [lia|auto].
Qed.

(** X9 -- A sync pass never adds to the queue: the number of pending
    operations that [getSyncStatus] reports does not grow over a pass,
    every operation queued after the pass was queued before it, and the
    reported [isOnline] is unchanged. *)
Theorem syncPendingChanges_pending lastSync_item w :
  let before := SyncService.getSyncStatus lastSync_item w in
  let after := SyncService.getSyncStatus lastSync_item (SyncService.syncPendingChanges w) in
  SyncService.pendingOperations after <= SyncService.pendingOperations before
  /\ SyncService.status_isOnline after = SyncService.status_isOnline before
  /\ forall x, In x (queued (SyncService.storage (SyncService.syncPendingChanges w))) ->
               In x (queued (SyncService.storage w)).
Proof.
  cbv zeta. unfold SyncService.getSyncStatus. simpl.
  fold (queued (SyncService.storage (SyncService.syncPendingChanges w))).
  fold (queued (SyncService.storage w)).
  assert (SyncService.isOnline (SyncService.syncPendingChanges w) = SyncService.isOnline w)
    as Honline.
  { pose proof (syncPendingChanges_control w) as Hc. unfold control in Hc. congruence. }
  destruct (may_sync w) eqn:Hsync.
  - rewrite (syncPendingChanges_pass w Hsync) in *.
    cbn [SyncService.storage SyncService.set_syncInProgress] in *.
    rewrite (queued_queue_state _ _ (syncFromServer_queue_state _)).
    destruct (drain_queue (queued (SyncService.storage w))
                          (SyncService.set_syncInProgress true w)) as [Hlen Hin].
    by split_and!.
  - rewrite (syncPendingChanges_guarded w Hsync). by split_and!.
Qed.

End offline_data.

Lemma gone_world_tasks_wf : tasks_wf (SyncService.storage gone_world).
Proof. intros _. split; simpl; repeat constructor. Defined.

Lemma clearOfflineData_empties_witness :
  tasks_wf (SyncService.storage gone_world)
  /\ SyncService.getOfflineTasks gone_world = [demo_task]
  /\ queued (SyncService.storage gone_world) = [delete_gone]
  /\ SyncService.getOfflineTasks (SyncService.clearOfflineData gone_world) = []
  /\ queued (SyncService.storage (SyncService.clearOfflineData gone_world)) = [].
Proof.
  split; [exact gone_world_tasks_wf|]. split; [reflexivity|]. split; [reflexivity|].
  destruct (clearOfflineData_empties gone_world gone_world_tasks_wf) as (Ht & Hq & _).
  split; [exact Ht|exact Hq].
Defined.

(** ** Reconciliation with the server, continued *)

Section reconciliation_more.
Context {Net : Type} `{Gateway Net}.
Implicit Types (w : SyncService.t Net).

Lemma saves_sink (l : list task) w :
  SyncService.sink
    (fold_left (fun w task =>
       SyncService.set_storage (StorageService.saveTask task (SyncService.storage w)) w) l w)
  = SyncService.sink w.
Proof. revert w. induction l as [|x l IH]; intros w; simpl; [done|]. by rewrite IH. Qed.

Lemma saves_dispatch (l : list task) w :
  SyncService.dispatch
    (fold_left (fun w task =>
       SyncService.set_storage (StorageService.saveTask task (SyncService.storage w)) w) l w)
  = SyncService.dispatch w.
Proof. revert w. induction l as [|x l IH]; intros w; simpl; [done|]. by rewrite IH. Qed.

Lemma getOfflineTasks_do_dispatch a w :
  SyncService.getOfflineTasks (SyncService.do_dispatch a w) = SyncService.getOfflineTasks w.
Proof.
  unfold SyncService.getOfflineTasks.
  by rewrite do_dispatch_control_user, do_dispatch_storage.
Qed.

(** The tasks saved by a reconciliation, and the lookup that results. *)
Lemma reconciled w u serverTasks n :
  SyncService.svc_userId w = Some u -> u <> "" ->
  tasks_wf (SyncService.storage w) ->
  TaskService.getTasks (SyncService.net w) = (Ok (Some serverTasks), n) ->
  NoDup (List.map _id serverTasks) ->
  Forall (fun x => userId x = Some u) serverTasks ->
  tasks_wf (SyncService.storage (SyncService.syncFromServer w))
  /\ SyncService.net (SyncService.syncFromServer w) = n
  /\ forall i,
       SyncService.find_task i
         (StorageService.getTasks u (SyncService.storage (SyncService.syncFromServer w)))
       = match SyncService.find_task i serverTasks,
               SyncService.find_task i (StorageService.getTasks u (SyncService.storage w)) with
         | Some x, Some y => if (updatedAt y <? updatedAt x)%Z then Some x else Some y
         | Some x, None => Some x
         | None, local => local
         end.
Proof.
  intros Hu Hne Hwf Hget Hnd Hown.
  unfold SyncService.syncFromServer. rewrite Hget. cbv zeta.
  rewrite (getOfflineTasks_user (SyncService.set_net n w) u Hu Hne).
  change (SyncService.storage (SyncService.set_net n w)) with (SyncService.storage w).
  set (localTasks := StorageService.getTasks u (SyncService.storage w)).
  set (absent := fun x : task =>
         negb (existsb (fun y => String.eqb (_id y) (_id x)) localTasks)).
  set (stale := fun x : task =>
         match SyncService.find_task (_id x) localTasks with
         | Some y => (updatedAt y <? updatedAt x)%Z
         | None => false
         end).
  set (saved := (List.filter absent serverTasks ++ List.filter stale serverTasks)%list).
  assert (Forall (fun x => userId x = Some u) saved) as Hsaved.
  { rewrite List.Forall_forall in Hown. apply List.Forall_forall. intros x Hx.
    apply Hown. unfold saved in Hx.
    apply in_app_or in Hx as [Hx|Hx]; by apply filter_In in Hx as [Hx _]. }
  assert (NoDup (List.map _id saved)) as Hids.
  { apply NoDup_filters_ids; [done|]. intros x. unfold absent, stale.
    rewrite existsb_find_task. by destruct (SyncService.find_task _ _). }
  destruct (find_after_saves saved (SyncService.set_net n w) u "" Hwf Hsaved)
    as (Hwf' & _ & _).
  split_and!.
  - destruct (_ && _); [by rewrite do_dispatch_storage|done].
  - destruct (_ && _); [by rewrite do_dispatch_net, saves_net|by rewrite saves_net].
  - intros i.
    destruct (find_after_saves saved (SyncService.set_net n w) u i Hwf Hsaved)
      as (_ & _ & Hfind).
    assert (forall w', SyncService.storage
                         (if SyncService.dispatch w'
                             && ((0 <? length (List.filter absent serverTasks))%nat
                                 || (0 <? length (List.filter stale serverTasks))%nat)
                          then SyncService.do_dispatch
                                 (SYNC_OFFLINE_TASKS (SyncService.getOfflineTasks w')) w'
                          else w')
                       = SyncService.storage w') as ->.
    { intros w'. destruct (_ && _); [by rewrite do_dispatch_storage|done]. }
    rewrite Hfind, (find_task_rev i saved Hids).
    change (SyncService.storage (SyncService.set_net n w)) with (SyncService.storage w).
    fold localTasks. unfold saved.
    rewrite find_task_app, !find_task_filter by done.
    destruct (SyncService.find_task i serverTasks) as [x|] eqn:Ex; [|done].
    apply find_task_Some in Ex as [_ <-].
    unfold absent, stale. rewrite existsb_find_task.
    destruct (SyncService.find_task (_id x) localTasks) as [y|]; simpl; [|done].
    by destruct (updatedAt y <? updatedAt x)%Z.
Qed.

(** X10 -- Reconciliation converges: once [syncFromServer] has run,
    running it again against the same list of server tasks saves
    nothing and notifies nothing; it only records the network state. *)
Theorem syncFromServer_converges w u serverTasks n n' :
  SyncService.svc_userId w = Some u -> u <> "" ->
  tasks_wf (SyncService.storage w) ->
  TaskService.getTasks (SyncService.net w) = (Ok (Some serverTasks), n) ->
  TaskService.getTasks n = (Ok (Some serverTasks), n') ->
  NoDup (List.map _id serverTasks) ->
  Forall (fun x => userId x = Some u) serverTasks ->
  SyncService.syncFromServer (SyncService.syncFromServer w)
  = SyncService.set_net n' (SyncService.syncFromServer w).
Proof.
  intros Hu Hne Hwf Hget Hget' Hnd Hown.
  destruct (reconciled w u serverTasks n Hu Hne Hwf Hget Hnd Hown) as (_ & Hnet & Hfind).
  set (w1 := SyncService.syncFromServer w) in *.
  assert (SyncService.svc_userId w1 = Some u) as Hu1.
  { pose proof (syncFromServer_control w) as Hc. unfold control in Hc. fold w1 in Hc.
    congruence. }
  unfold SyncService.syncFromServer at 1. rewrite Hnet, Hget'. cbv zeta.
  rewrite (getOfflineTasks_user (SyncService.set_net n' w1) u Hu1 Hne).
  change (SyncService.storage (SyncService.set_net n' w1)) with (SyncService.storage w1).
  assert (forall x, In x serverTasks ->
            exists y, SyncService.find_task (_id x)
                        (StorageService.getTasks u (SyncService.storage w1)) = Some y
                      /\ (updatedAt y <? updatedAt x)%Z = false) as Hlocal.
  { intros x Hx. rewrite Hfind, (find_task_In (_id x) serverTasks x Hnd Hx eq_refl).
    destruct (SyncService.find_task _ _) as [y|].
    - destruct (updatedAt y <? updatedAt x)%Z eqn:Hlt; eexists; split; try done.
      apply Z.ltb_irrefl.
    - eexists. split; [done|]. apply Z.ltb_irrefl. }
  rewrite (filter_none _ serverTasks), (filter_none _ serverTasks).
  - simpl. by rewrite andb_false_r.
  - intros x Hx. destruct (Hlocal x Hx) as (y & -> & Hlt). exact Hlt.
  - intros x Hx. destruct (Hlocal x Hx) as (y & Hy & _).
    rewrite existsb_find_task, Hy. reflexivity.
Qed.

(** X11 -- When [syncFromServer] notifies the application, it does so
    once, with the list of local tasks as the reconciliation left it,
    and the reducer makes that list the list of tasks of the state. *)
Theorem syncFromServer_notifies w (st : TaskContext.state) :
  let w' := SyncService.syncFromServer w in
  SyncService.sink w' = SyncService.sink w
  \/ (SyncService.dispatch w = true
      /\ SyncService.sink w'
         = (SyncService.sink w ++ [SYNC_OFFLINE_TASKS (SyncService.getOfflineTasks w')])%list
      /\ TaskContext.taskReducer
           st (ui_action (SYNC_OFFLINE_TASKS (SyncService.getOfflineTasks w')))
         = Ok (TaskContext.set_tasks (List.map Some (SyncService.getOfflineTasks w')) st)).
Proof.
  cbv zeta. unfold SyncService.syncFromServer, TaskService.getTasks.
  destruct (GET_tasks (SyncService.net w)) as [fetched n].
  destruct (ApiService.request fetched) as [[serverTasks|]|]; try by left.
  cbv zeta.
  match goal with
  | |- context [fold_left ?f ?l ?w0] => set (w1 := fold_left f l w0)
  end.
  assert (SyncService.dispatch w1 = SyncService.dispatch w) as Hd
      by (unfold w1; by rewrite saves_dispatch).
  assert (SyncService.sink w1 = SyncService.sink w) as Hs
      by (unfold w1; by rewrite saves_sink).
  destruct (SyncService.dispatch w1 && _) eqn:Hcond; [|by left].
  apply andb_prop in Hcond as [Hd1 _]. right.
  rewrite getOfflineTasks_do_dispatch.
  split_and!; [congruence| |reflexivity].
  unfold SyncService.do_dispatch. rewrite Hd1. simpl. by rewrite Hs.
Qed.

End reconciliation_more.

Section reset_and_sync.
Context {Net : Type} `{Gateway Net}.
Implicit Types (w : SyncService.t Net).

(** X12 -- [clearOfflineData] followed by a sync pass brings the local
    store in line with what the gateway answers: when the [GET] of the
    pass is answered with a list of tasks of the user, looking a task up
    locally after the pass gives exactly the task that the list holds
    under the identifier, or nothing when the list holds none. *)
Theorem clearOfflineData_then_sync w u serverTasks n i :
  may_sync w = true ->
  SyncService.svc_userId w = Some u ->
  tasks_wf (SyncService.storage w) ->
  TaskService.getTasks (SyncService.net w) = (Ok (Some serverTasks), n) ->
  NoDup (List.map _id serverTasks) ->
  Forall (fun x => userId x = Some u) serverTasks ->
  SyncService.find_task i
    (SyncService.getOfflineTasks
       (SyncService.syncPendingChanges (SyncService.clearOfflineData w)))
  = SyncService.find_task i serverTasks.
Proof.
  intros Hsync Hu Hwf Hget Hnd Hown.
  assert (u <> "") as Hne.
  { intros ->. unfold may_sync in Hsync. rewrite Hu in Hsync. simpl in Hsync.
    by rewrite andb_false_r in Hsync. }
  set (w0 := SyncService.clearOfflineData w).
  assert (may_sync w0 = true) as Hsync0 by exact Hsync.
  assert (tasks_wf (SyncService.storage w0)) as Hwf0.
  { unfold w0, SyncService.clearOfflineData. simpl.
    by apply clearSyncQueue_tasks_wf, clearTasks_tasks_wf. }
  rewrite (syncPendingChanges_pass w0 Hsync0).
  assert (queued (SyncService.storage w0) = []) as ->.
  { unfold w0, SyncService.clearOfflineData. simpl. apply queued_clearSyncQueue. }
  simpl.
  set (w1 := SyncService.set_syncInProgress true w0).
  assert (TaskService.getTasks (SyncService.net w1) = (Ok (Some serverTasks), n))
    as Hget1 by exact Hget.
  destruct (reconciled w1 u serverTasks n Hu Hne Hwf0 Hget1 Hnd Hown) as (_ & _ & Hfind).
  assert (SyncService.svc_userId (SyncService.syncFromServer w1) = Some u) as Hu1.
  { pose proof (syncFromServer_control w1) as Hc. unfold control in Hc.
    injection Hc as _ _ Hc _. by rewrite Hc. }
  rewrite (getOfflineTasks_user _ u); [|exact Hu1|exact Hne].
  change (SyncService.storage (SyncService.set_syncInProgress false ?x))
    with (SyncService.storage x).
  rewrite Hfind.
  change (SyncService.storage w1) with (SyncService.storage w0).
  unfold w0, SyncService.clearOfflineData. simpl. rewrite Hu.
  rewrite getTasks_clearSyncQueue, clearTasks_own by done.
  by destruct (SyncService.find_task i _).
Qed.

End reset_and_sync.

Lemma syncFromServer_converges_witness :
  let w1 := SyncService.syncFromServer reconcile_world in
  tasks_wf (SyncService.storage reconcile_world)
  /\ fst (TaskService.getTasks (SyncService.net reconcile_world))
     = Ok (Some [demo_task'; demo_task2])
  /\ SyncService.storage (SyncService.syncFromServer w1) = SyncService.storage w1
  /\ SyncService.sink (SyncService.syncFromServer w1) = SyncService.sink w1.
Proof.
  cbv zeta. split; [exact reconcile_world_tasks_wf|]. split; [reflexivity|].
  assert ("u1" <> "") as Hne by discriminate.
  assert (NoDup (List.map _id [demo_task'; demo_task2])) as Hnd.
  { apply NoDup_cons. split; [|apply NoDup_singleton].
    intros Hin%list_elem_of_singleton. discriminate. }
  assert (Forall (fun x => userId x = Some "u1") [demo_task'; demo_task2]) as Hown
      by (repeat constructor).
  pose proof (syncFromServer_converges
                reconcile_world "u1" [demo_task'; demo_task2] _ _
                eq_refl Hne reconcile_world_tasks_wf eq_refl eq_refl Hnd Hown) as Hconv.
  rewrite Hconv. split; reflexivity.
Defined.

Lemma clearOfflineData_then_sync_witness :
  may_sync gone_world = true
  /\ tasks_wf (SyncService.storage gone_world)
  /\ queued (SyncService.storage gone_world) = [delete_gone]
  /\ fst (TaskService.getTasks (SyncService.net gone_world)) = Ok (Some [demo_task])
  /\ SyncService.find_task "t1"
       (SyncService.getOfflineTasks
          (SyncService.syncPendingChanges (SyncService.clearOfflineData gone_world)))
     = Some demo_task.
Proof.
  split; [reflexivity|]. split; [exact gone_world_tasks_wf|]. split; [reflexivity|].
  split; [reflexivity|].
  assert (NoDup (List.map _id [demo_task])) as Hnd by apply NoDup_singleton.
  assert (Forall (fun x => userId x = Some "u1") [demo_task]) as Hown
      by (repeat constructor).
  assert (TaskService.getTasks (SyncService.net gone_world)
          = (Ok (Some [demo_task]),
             snd (TaskService.getTasks (SyncService.net gone_world)))) as Hget
      by reflexivity.
  exact (clearOfflineData_then_sync gone_world "u1" [demo_task] _ "t1"
           eq_refl eq_refl gone_world_tasks_wf Hget Hnd Hown).
Defined.

(** ** The drain, operation by operation *)

Section drain_more.
Context {Net : Type} `{Gateway Net}.
Implicit Types (w : SyncService.t Net) (s : StorageService.t).

(** X13 -- An operation that [processOperation] skips is dropped: the
    drain removes it from the queue without a request, and touches
    neither the tasks nor the fields of the service. *)
Theorem skipped_operation_dropped w operation :
  StorageService.useLocalStorage (SyncService.storage w) = false ->
  skipped operation w ->
  SyncService.syncOperation w operation
  = SyncService.set_storage
      (StorageService.set_sync_store
         (ObjectStore.remove (id operation)
                             (StorageService.sync_store (SyncService.storage w)))
         (SyncService.storage w)) w.
Proof.
  intros E Hskip.
  assert (SyncService.processOperation operation w = (Ok tt, w)) as Hp.
  { unfold SyncService.processOperation. cbv zeta.
    destruct Hskip as [(H1 & H2 & H3)|[[Ht Hl]|[Ht Hp]]].
    - apply String.eqb_neq in H1, H2, H3. by rewrite H1, H2, H3.
    - rewrite Ht. simpl.
      destruct (SyncService.find_task _ _); [by rewrite Hl|done].
    - rewrite Ht. simpl. by rewrite Hp. }
  unfold SyncService.syncOperation. rewrite Hp.
  unfold StorageService.removeFromSyncQueue. by rewrite E.
Qed.

Lemma find_task_remove_id taskId i (l : list task) :
  SyncService.find_task i (List.filter (fun x => negb (String.eqb (_id x) taskId)) l)
  = if String.eqb taskId i then None else SyncService.find_task i l.
Proof.
  induction l as [|x l IH]; simpl; [by destruct (String.eqb taskId i)|].
  destruct (String.eqb_spec (_id x) taskId) as [<-|Hx]; simpl.
  - rewrite IH. by destruct (String.eqb (_id x) i).
  - destruct (String.eqb_spec (_id x) i) as [<-|Hi]; [|done].
    by destruct (String.eqb_spec taskId (_id x)).
Qed.

Lemma find_after_delete_own taskId u s i :
  tasks_wf s ->
  SyncService.find_task i
    (StorageService.getTasks u (StorageService.deleteTask taskId (Some u) s))
  = if String.eqb taskId i then None
    else SyncService.find_task i (StorageService.getTasks u s).
Proof.
  intros Hwf. destruct (StorageService.useLocalStorage s) eqn:E.
  - unfold StorageService.deleteTask. rewrite E. cbv zeta.
    unfold StorageService.getTasks at 1. simpl. rewrite E, lookup_insert_eq.
    apply find_task_remove_id.
  - by apply find_after_deleteTask.
Qed.

(** X14 -- When the gateway accepts the CREATE of a task made offline,
    the local record changes identity: the temporary identifier is no
    longer found, the identifier given by the server leads to the task
    of the server, every other task is as before, and the state sink, if
    there is one, receives one [UPDATE_TASK] for the task of the server. *)
Theorem create_confirmed w operation u newTask n i :
  op_type (op operation) = "CREATE" ->
  SyncService.svc_userId w = Some u ->
  tasks_wf (SyncService.storage w) ->
  TaskService.createTask (op_data (op operation)) (SyncService.net w)
  = (Ok (Some newTask), n) ->
  userId newTask = Some u ->
  let w' := snd (SyncService.processOperation operation w) in
  fst (SyncService.processOperation operation w) = Ok tt
  /\ SyncService.find_task i (StorageService.getTasks u (SyncService.storage w'))
     = (if String.eqb (_id newTask) i then Some newTask
        else if String.eqb (op_taskId (op operation)) i then None
             else SyncService.find_task i (StorageService.getTasks u (SyncService.storage w)))
  /\ SyncService.sink w'
     = (if SyncService.dispatch w then SyncService.sink w ++ [UPDATE_TASK newTask]
        else SyncService.sink w)%list
  /\ SyncService.net w' = n.
Proof.
  intros Ht Hu Hwf Hcreate Hown. cbv zeta.
  unfold SyncService.processOperation. cbv zeta. rewrite Ht. simpl.
  rewrite Hcreate. simpl. rewrite Hu.
  split_and!.
  - reflexivity.
  - rewrite do_dispatch_storage. simpl.
    rewrite find_after_saveTask; [|by apply deleteTask_tasks_wf|done].
    by rewrite find_after_delete_own.
  - unfold SyncService.do_dispatch. simpl. by destruct (SyncService.dispatch w).
  - by rewrite do_dispatch_net.
Qed.

Lemma offline_apply_local w md :
  SyncService.net (SyncService.offline_apply w md) = SyncService.net w
  /\ SyncService.sink (SyncService.offline_apply w md) = SyncService.sink w.
Proof.
  destruct md as [[taskData|taskId updates|taskId] d];
    unfold SyncService.offline_apply, SyncService.createOfflineTask,
           SyncService.updateOfflineTask, SyncService.deleteOfflineTask; cbv zeta.
  - by destruct (StorageService.addToSyncQueue _ _ _ _) as [[|] s].
  - destruct (SyncService.find_task _ _); [|done].
    by destruct (StorageService.addToSyncQueue _ _ _ _) as [[|] s].
  - by destruct (StorageService.addToSyncQueue _ _ _ _) as [[|] s].
Qed.

(** X15 -- The offline layer is local: a session of offline creations,
    updates and deletions, whatever they are and in either storage path,
    sends no request, notifies the state sink of nothing and leaves the
    fields of the sync service as they were. *)
Theorem offline_session_is_local (session : list (SyncService.mutation * SyncService.draw)) w :
  let w' := fold_left SyncService.offline_apply session w in
  SyncService.net w' = SyncService.net w
  /\ SyncService.sink w' = SyncService.sink w
  /\ control w' = control w.
Proof.
  cbv zeta. revert w. induction session as [|md session IH]; intros w; simpl; [done|].
  destruct (IH (SyncService.offline_apply w md)) as (-> & -> & ->).
  destruct (offline_apply_local w md) as [-> ->].
  by rewrite offline_apply_control.
Qed.

End drain_more.

Lemma cancelled_world_skips : skipped delete_offline_operation cancelled_world.
Proof. right. right. split; reflexivity. Defined.

Lemma skipped_operation_dropped_witness :
  skipped delete_offline_operation cancelled_world
  /\ List.map id (queued (SyncService.storage cancelled_world))
     = ["CREATE_offline_1000_0.5_0.7"; "DELETE_offline_1000_0.5_0.9"]
  /\ List.map id (queued (SyncService.storage
                            (SyncService.syncOperation
                               cancelled_world delete_offline_operation)))
     = ["CREATE_offline_1000_0.5_0.7"]
  /\ SyncService.net (SyncService.syncOperation cancelled_world delete_offline_operation)
     = SyncService.net cancelled_world.
Proof.
  split; [exact cancelled_world_skips|]. split; [reflexivity|].
  rewrite (skipped_operation_dropped cancelled_world delete_offline_operation
             eq_refl cancelled_world_skips).
  split; reflexivity.
Defined.

Lemma created_world_tasks_wf : tasks_wf (SyncService.storage created_world).
Proof. intros _. split; simpl; repeat constructor. Defined.

Lemma create_confirmed_witness :
  let w' := snd (SyncService.processOperation create_operation created_world) in
  tasks_wf (SyncService.storage created_world)
  /\ List.map _id (SyncService.getOfflineTasks created_world) = ["offline_1000_0.5"]
  /\ SyncService.find_task "offline_1000_0.5"
       (StorageService.getTasks "u1" (SyncService.storage w')) = None
  /\ SyncService.find_task "srv1" (StorageService.getTasks "u1" (SyncService.storage w'))
     = Some (first_server_task {[ "title" := VStr "Buy milk" ]})
  /\ SyncService.sink w' = [UPDATE_TASK (first_server_task {[ "title" := VStr "Buy milk" ]})].
Proof.
  cbv zeta. split; [exact created_world_tasks_wf|]. split; [reflexivity|].
  assert (TaskService.createTask (op_data (op create_operation))
                                 (SyncService.net created_world)
          = (Ok (Some (first_server_task {[ "title" := VStr "Buy milk" ]})),
             snd (TaskService.createTask (op_data (op create_operation))
                                         (SyncService.net created_world)))) as Hreq
      by reflexivity.
  destruct (create_confirmed created_world create_operation "u1" _ _ "offline_1000_0.5"
              eq_refl eq_refl created_world_tasks_wf Hreq eq_refl) as (_ & Hold & Hsink & _).
  destruct (create_confirmed created_world create_operation "u1" _ _ "srv1"
              eq_refl eq_refl created_world_tasks_wf Hreq eq_refl) as (_ & Hnew & _).
  split; [exact Hold|]. split; [exact Hnew|exact Hsink].
Defined.

(** ** The reducer of the task context *)

Section reducer.
Implicit Types (st : TaskContext.state) (l : list (option task)) (p : task).

Lemma set_tasks_same st : TaskContext.set_tasks (TaskContext.tasks st) st = st.
Proof. by destruct st. Qed.

Lemma map_update_absent p l :
  without_id (_id p) l -> TaskContext.map_update (Some p) l = Ok l.
Proof.
  induction 1 as [|entry l (t & -> & Ht) _ IH]; simpl; [done|].
  rewrite IH. by destruct (String.eqb_spec (_id t) (_id p)).
Qed.

Lemma filter_delete_absent taskId l :
  without_id taskId l -> TaskContext.filter_delete taskId l = Ok l.
Proof.
  induction 1 as [|entry l (t & -> & Ht) _ IH]; simpl; [done|].
  rewrite IH. by destruct (String.eqb_spec (_id t) taskId).
Qed.

(** X16 -- [UPDATE_TASK] replaces and never inserts: when no task of the
    state carries the identifier of the payload, the state is returned
    as it is.  This is what happens to the [UPDATE_TASK] that follows
    the confirmation of a task created offline, whose identifier is the
    new one of the server: whether the sync service has a sink or not,
    the actions it sends leave the tasks of the state as they were. *)
Theorem create_confirmation_not_shown
        {Net : Type} `{Gateway Net} (w : SyncService.t Net) operation newTask n st :
  op_type (op operation) = "CREATE" ->
  TaskService.createTask (op_data (op operation)) (SyncService.net w)
  = (Ok (Some newTask), n) ->
  without_id (_id newTask) (TaskContext.tasks st) ->
  TaskContext.taskReducer st (TaskContext.UPDATE_TASK (Some newTask)) = Ok st
  /\ exists actions,
       SyncService.sink (snd (SyncService.processOperation operation w))
       = (SyncService.sink w ++ actions)%list
       /\ TaskContext.reduce (List.map ui_action actions) st = Ok st.
Proof.
  intros Ht Hcreate Hst.
  assert (TaskContext.taskReducer st (TaskContext.UPDATE_TASK (Some newTask)) = Ok st)
    as Hred.
  { simpl. rewrite (map_update_absent newTask _ Hst). by rewrite set_tasks_same. }
  split; [exact Hred|].
  unfold SyncService.processOperation. cbv zeta. rewrite Ht. simpl.
  rewrite Hcreate. simpl. unfold SyncService.do_dispatch. simpl.
  destruct (SyncService.dispatch w).
  - exists [UPDATE_TASK newTask]. split; [done|].
    unfold TaskContext.reduce. simpl List.map. simpl fold_left.
    exact Hred.
  - exists []. split; [by rewrite app_nil_r|done].
Qed.

Lemma map_update_ids payload l l' :
  TaskContext.map_update payload l = Ok l' ->
  List.map (option_map _id) l' = List.map (option_map _id) l.
Proof.
  revert l'. induction l as [|[t|] l IH]; intros l'; simpl; [by intros [= <-]| |done].
  destruct payload as [p|]; [|done].
  destruct (TaskContext.map_update (Some p) l) as [rest|]; [|done].
  intros [= <-]. simpl. rewrite (IH rest eq_refl). f_equal.
  by destruct (String.eqb_spec (_id t) (_id p)) as [->|]; simpl.
Qed.

(** X17 -- [UPDATE_TASK] keeps the shape of the list: when it returns, the
    state lists the same identifiers as before, at the same places, and
    nothing else of the state has changed. *)
Theorem update_task_keeps_ids st payload st' :
  TaskContext.taskReducer st (TaskContext.UPDATE_TASK payload) = Ok st' ->
  List.map (option_map _id) (TaskContext.tasks st')
  = List.map (option_map _id) (TaskContext.tasks st)
  /\ st' = TaskContext.set_tasks (TaskContext.tasks st') st.
Proof.
  simpl. destruct (TaskContext.map_update payload (TaskContext.tasks st)) as [l'|] eqn:E;
    [|done].
  intros [= <-]. split; [by apply (map_update_ids payload)|done].
Qed.

Lemma filter_delete_spec taskId l l' :
  TaskContext.filter_delete taskId l = Ok l' ->
  without_id taskId l'
  /\ forall t, _id t <> taskId -> (In (Some t) l' <-> In (Some t) l).
Proof.
  revert l'. induction l as [|[t|] l IH]; intros l'; simpl; [|..].
  - intros [= <-]. split; [constructor|done].
  - destruct (TaskContext.filter_delete taskId l) as [rest|]; [|done].
    destruct (IH rest eq_refl) as [Hrest Hin].
    destruct (String.eqb_spec (_id t) taskId) as [Heq|Hne]; intros [= <-].
    + split; [done|]. intros t' Ht'. rewrite (Hin t' Ht'). simpl.
      split; [by right|]. intros [[= ->]|Hl]; [congruence|done].
    + split; [constructor; [by exists t|done]|].
      intros t' Ht'. simpl. by rewrite (Hin t' Ht').
  - done.
Qed.

(** X18 -- [DELETE_TASK] removes every task that carries the identifier
    and no other task, and deleting again changes nothing. *)
Theorem delete_task_removes st taskId st' :
  TaskContext.taskReducer st (TaskContext.DELETE_TASK taskId) = Ok st' ->
  without_id taskId (TaskContext.tasks st')
  /\ (forall t, _id t <> taskId ->
        (In (Some t) (TaskContext.tasks st') <-> In (Some t) (TaskContext.tasks st)))
  /\ TaskContext.taskReducer st' (TaskContext.DELETE_TASK taskId) = Ok st'.
Proof.
  simpl.
  destruct (TaskContext.filter_delete taskId (TaskContext.tasks st)) as [l'|] eqn:E; [|done].
  intros [= <-]. destruct (filter_delete_spec taskId _ l' E) as [Hl' Hin].
  split_and!; [done|done|]. simpl. by rewrite (filter_delete_absent taskId l' Hl').
Qed.

(** X19 -- Adding a task and then deleting it gives back the state, when
    no task of the state carried its identifier. *)
Theorem add_then_delete st p :
  without_id (_id p) (TaskContext.tasks st) ->
  TaskContext.reduce [TaskContext.ADD_TASK (Some p); TaskContext.DELETE_TASK (_id p)] st
  = Ok st.
Proof.
  intros Hst. unfold TaskContext.reduce. destruct st as [l ? ? ? ? ? ?]. simpl in *.
  by rewrite (filter_delete_absent (_id p) l Hst), String.eqb_refl.
Qed.

End reducer.

Lemma offline_state_without_srv1 :
  without_id "srv1" (TaskContext.tasks offline_state).
Proof.
  constructor; [|constructor]. eexists. split; [reflexivity|]. discriminate.
Defined.

Lemma create_confirmation_not_shown_witness :
  without_id "srv1" (TaskContext.tasks offline_state)
  /\ SyncService.sink (snd (SyncService.processOperation create_operation created_world))
     = [UPDATE_TASK (first_server_task {[ "title" := VStr "Buy milk" ]})]
  /\ TaskContext.reduce
       (List.map ui_action
          (SyncService.sink (snd (SyncService.processOperation create_operation
                                    created_world))))
       offline_state
     = Ok offline_state.
Proof.
  split; [exact offline_state_without_srv1|]. split; [reflexivity|].
  assert (TaskService.createTask (op_data (op create_operation))
                                 (SyncService.net created_world)
          = (Ok (Some (first_server_task {[ "title" := VStr "Buy milk" ]})),
             snd (TaskService.createTask (op_data (op create_operation))
                                         (SyncService.net created_world)))) as Hreq
      by reflexivity.
  destruct (create_confirmation_not_shown created_world create_operation _ _ offline_state
              eq_refl Hreq offline_state_without_srv1) as [Hred _].
  exact Hred.
Defined.

Lemma update_task_keeps_ids_witness :
  let st' := TaskContext.set_tasks [Some demo_task'; Some demo_task2] demo_state in
  TaskContext.taskReducer demo_state (TaskContext.UPDATE_TASK (Some demo_task')) = Ok st'
  /\ List.map (option_map _id) (TaskContext.tasks st')
     = List.map (option_map _id) (TaskContext.tasks demo_state).
Proof.
  cbv zeta.
  assert (TaskContext.taskReducer demo_state (TaskContext.UPDATE_TASK (Some demo_task'))
          = Ok (TaskContext.set_tasks [Some demo_task'; Some demo_task2] demo_state))
    as Hred by reflexivity.
  split; [exact Hred|].
  exact (proj1 (update_task_keeps_ids demo_state _ _ Hred)).
Defined.

Lemma delete_task_removes_witness :
  let st' := TaskContext.set_tasks [Some demo_task2] demo_state in
  TaskContext.taskReducer demo_state (TaskContext.DELETE_TASK "t1") = Ok st'
  /\ without_id "t1" (TaskContext.tasks st')
  /\ TaskContext.taskReducer st' (TaskContext.DELETE_TASK "t1") = Ok st'.
Proof.
  cbv zeta.
  assert (TaskContext.taskReducer demo_state (TaskContext.DELETE_TASK "t1")
          = Ok (TaskContext.set_tasks [Some demo_task2] demo_state))
    as Hred by reflexivity.
  split; [exact Hred|].
  destruct (delete_task_removes demo_state "t1" _ Hred) as (Hgone & _ & Hagain).
  split; [exact Hgone|exact Hagain].
Defined.

Lemma demo_state_without_t9 : without_id "t9" (TaskContext.tasks demo_state).
Proof.
  constructor; [|constructor; [|constructor]];
    (eexists; split; [reflexivity|discriminate]).
Defined.

Lemma add_then_delete_witness :
  without_id "t9" (TaskContext.tasks demo_state)
  /\ TaskContext.reduce
       [TaskContext.ADD_TASK (Some demo_task_u2); TaskContext.DELETE_TASK "t9"] demo_state
     = Ok demo_state.
Proof.
  split; [exact demo_state_without_t9|].
  exact (add_then_delete demo_state demo_task_u2 demo_state_without_t9).
Defined.

(** ** The mutation functions of the task provider *)

Section provider.
Context {Net : Type} `{Gateway Net}.
Implicit Types (p : TaskContext.t Net) (w : SyncService.t Net).

Lemma createOfflineTask_local taskData d w :
  SyncService.net
    (snd (SyncService.createOfflineTask taskData (SyncService.at_time d)
            (SyncService.rnd_id d) (SyncService.rnd_op d) w)) = SyncService.net w.
Proof. exact (proj1 (offline_apply_local w (SyncService.Create taskData, d))). Qed.

Lemma updateOfflineTask_local taskId updates d w :
  SyncService.net
    (snd (SyncService.updateOfflineTask taskId updates (SyncService.at_time d)
            (SyncService.rnd_op d) w)) = SyncService.net w.
Proof. exact (proj1 (offline_apply_local w (SyncService.Update taskId updates, d))). Qed.

Lemma deleteOfflineTask_local taskId d w :
  SyncService.net
    (snd (SyncService.deleteOfflineTask taskId (SyncService.at_time d)
            (SyncService.rnd_op d) w)) = SyncService.net w.
Proof. exact (proj1 (offline_apply_local w (SyncService.Delete taskId, d))). Qed.

(** X20 -- A mutation issued through the provider sends exactly the one
    request of the online path, whether it ends up applied online or
    stored offline.  When the gateway accepts it, the provider
    dispatches one action and writes nothing to the local store or to
    the queue. *)
Theorem provider_sends_once m d p :
  let p' := snd (TaskContext.apply m d p) in
  SyncService.net (TaskContext.syncService p')
  = SyncService.online_apply (SyncService.net (TaskContext.syncService p)) m
  /\ (is_ok (fst (TaskContext.apply m d p)) = true ->
      SyncService.storage (TaskContext.syncService p')
      = SyncService.storage (TaskContext.syncService p)
      /\ length (TaskContext.dispatched p') = S (length (TaskContext.dispatched p))).
Proof.
  cbv zeta. destruct m as [taskData|taskId updates|taskId];
    unfold TaskContext.apply, SyncService.online_apply.
  - unfold TaskContext.createTask. cbv zeta.
    destruct (TaskService.createTask _ _) as [[newTask|error] n]; simpl.
    + split; [done|]. intros _. by rewrite length_app, Nat.add_1_r.
    + pose proof (createOfflineTask_local taskData d
                    (SyncService.set_net n (TaskContext.syncService p))) as Hnet.
      destruct (SyncService.createOfflineTask _ _ _ _ _) as [[x|e] w']; simpl in *;
        by split.
  - unfold TaskContext.updateTask. cbv zeta.
    destruct (TaskService.updateTask _ _ _) as [[updatedTask|error] n]; simpl.
    + split; [done|]. intros _. by rewrite length_app, Nat.add_1_r.
    + pose proof (updateOfflineTask_local taskId updates d
                    (SyncService.set_net n (TaskContext.syncService p))) as Hnet.
      destruct (SyncService.updateOfflineTask _ _ _ _ _) as [[x|e] w']; simpl in *;
        by split.
  - unfold TaskContext.deleteTask. cbv zeta.
    destruct (TaskService.deleteTask _ _) as [[deleted|error] n]; simpl.
    + split; [done|]. intros _. by rewrite length_app, Nat.add_1_r.
    + pose proof (deleteOfflineTask_local taskId d
                    (SyncService.set_net n (TaskContext.syncService p))) as Hnet.
      destruct (SyncService.deleteOfflineTask _ _ _ _) as [[x|e] w']; simpl in *;
        by split.
Qed.

Lemma addToSyncQueue_fresh operation now rnd s :
  StorageService.useLocalStorage s = false ->
  ObjectStore.get (id (StorageService.make_syncItem operation now rnd))
                  (StorageService.sync_store s) = None ->
  StorageService.addToSyncQueue operation now rnd s
  = (Ok tt,
     StorageService.set_sync_store
       (ObjectStore.put (id (StorageService.make_syncItem operation now rnd))
                        (StorageService.make_syncItem operation now rnd)
                        (StorageService.sync_store s)) s).
Proof.
  intros E Hget. unfold StorageService.addToSyncQueue. cbv zeta.
  rewrite E. unfold ObjectStore.add. by rewrite Hget.
Qed.

Lemma queued_put operation now rnd s :
  StorageService.useLocalStorage s = false ->
  In (StorageService.make_syncItem operation now rnd)
     (queued (StorageService.set_sync_store
                (ObjectStore.put (id (StorageService.make_syncItem operation now rnd))
                                 (StorageService.make_syncItem operation now rnd)
                                 (StorageService.sync_store s)) s)).
Proof.
  intros E. unfold queued, StorageService.getSyncQueue. simpl. rewrite E. simpl.
  apply List.in_map_iff. eexists. split; [|apply in_put]. reflexivity.
Qed.

(** X21 -- When the request of [createTask] fails, for whatever reason,
    the task is stored offline: the local store lists it under its
    temporary identifier, a CREATE operation is queued, the provider
    dispatches [ADD_TASK] with the offline task, and the caller gets the
    error of the request. *)
Theorem createTask_stored_offline taskData d p u error n :
  let w := TaskContext.syncService p in
  StorageService.useLocalStorage (SyncService.storage w) = false ->
  SyncService.svc_userId w = Some u ->
  ObjectStore.get (id (enqueued (SyncService.Create taskData, d)))
                  (StorageService.sync_store (SyncService.storage w)) = None ->
  TaskService.createTask (Some taskData) (SyncService.net w) = (Throw error, n) ->
  let p' := snd (TaskContext.createTask taskData d p) in
  fst (TaskContext.createTask taskData d p) = Throw error
  /\ TaskContext.dispatched p'
     = (TaskContext.dispatched p
        ++ [TaskContext.ADD_TASK (Some (offline_task u taskData d))])%list
  /\ In (offline_task u taskData d)
        (StorageService.getTasks u (SyncService.storage (TaskContext.syncService p')))
  /\ In (enqueued (SyncService.Create taskData, d))
        (queued (SyncService.storage (TaskContext.syncService p'))).
Proof.
  cbv zeta. intros E Hu Hfresh Hreq.
  unfold TaskContext.createTask. cbv zeta. rewrite Hreq.
  unfold SyncService.createOfflineTask. cbv zeta.
  cbn [SyncService.storage SyncService.set_storage SyncService.set_net
       SyncService.svc_userId].
  rewrite Hu.
  change {| _id := "offline_" +:+ string_of_Z (SyncService.at_time d) +:+ "_"
                   +:+ SyncService.rnd_id d;
            userId := Some u; createdAt := SyncService.at_time d;
            updatedAt := SyncService.at_time d; isOffline := true;
            fields := taskData |}
    with (offline_task u taskData d).
  set (s1 := StorageService.saveTask (offline_task u taskData d)
               (SyncService.storage (TaskContext.syncService p))).
  assert (StorageService.useLocalStorage s1 = false) as E1
      by (unfold s1; by rewrite saveTask_mode).
  assert (StorageService.sync_store s1
          = StorageService.sync_store (SyncService.storage (TaskContext.syncService p)))
    as Hq.
  { pose proof (saveTask_queue_state (offline_task u taskData d)
                  (SyncService.storage (TaskContext.syncService p))) as Hqs.
    fold s1 in Hqs. unfold queue_state in Hqs. by injection Hqs as _ ? _. }
  rewrite addToSyncQueue_fresh; [|exact E1|by rewrite Hq].
  cbn [fst snd TaskContext.do_dispatch TaskContext.syncService TaskContext.dispatched
       SyncService.storage SyncService.set_storage].
  split_and!; try done.
  - rewrite getTasks_set_sync_store. by apply saveTask_In.
  - apply (queued_put _ _ _ s1 E1).
Qed.

(** X22 -- In the degraded mode the same failure ends differently: the
    offline task is written to localStorage, but the enqueue throws, so
    that no operation is queued, nothing is dispatched, and the caller
    gets the [TypeError] of the enqueue, not the error of the request. *)
Theorem createTask_degraded taskData d p u error n :
  let w := TaskContext.syncService p in
  StorageService.useLocalStorage (SyncService.storage w) = true ->
  SyncService.svc_userId w = Some u ->
  TaskService.createTask (Some taskData) (SyncService.net w) = (Throw error, n) ->
  let p' := snd (TaskContext.createTask taskData d p) in
  fst (TaskContext.createTask taskData d p)
  = Throw (JsError "TypeError" "queue.push is not a function")
  /\ TaskContext.dispatched p' = TaskContext.dispatched p
  /\ In (offline_task u taskData d)
        (StorageService.getTasks u (SyncService.storage (TaskContext.syncService p')))
  /\ queue_state (SyncService.storage (TaskContext.syncService p'))
     = queue_state (SyncService.storage w).
Proof.
  cbv zeta. intros E Hu Hreq.
  unfold TaskContext.createTask. cbv zeta. rewrite Hreq.
  unfold SyncService.createOfflineTask. cbv zeta.
  cbn [SyncService.storage SyncService.set_storage SyncService.set_net
       SyncService.svc_userId].
  rewrite Hu.
  change {| _id := "offline_" +:+ string_of_Z (SyncService.at_time d) +:+ "_"
                   +:+ SyncService.rnd_id d;
            userId := Some u; createdAt := SyncService.at_time d;
            updatedAt := SyncService.at_time d; isOffline := true;
            fields := taskData |}
    with (offline_task u taskData d).
  set (s1 := StorageService.saveTask (offline_task u taskData d)
               (SyncService.storage (TaskContext.syncService p))).
  assert (StorageService.useLocalStorage s1 = true) as E1
      by (unfold s1; by rewrite saveTask_mode).
  unfold StorageService.addToSyncQueue, StorageService.getSyncQueue. cbv zeta.
  rewrite E1. simpl. split_and!; try done.
  - by apply saveTask_In.
  - apply saveTask_queue_state.
Qed.

(** X23 -- When the request of [updateTask] fails and the local store does
    not hold the task, as for a task that was loaded from the server and
    never saved locally, the caller gets "Task not found" in place of the
    error of the request; nothing is stored, queued or dispatched. *)
Theorem updateTask_not_local taskId updates d p error n :
  let w := TaskContext.syncService p in
  TaskService.updateTask taskId (Some updates) (SyncService.net w) = (Throw error, n) ->
  SyncService.find_task taskId (SyncService.getOfflineTasks w) = None ->
  TaskContext.updateTask taskId updates d p
  = (Throw (JsError "Error" "Task not found"),
     TaskContext.Provider (SyncService.set_net n w) (TaskContext.dispatched p)).
Proof.
  cbv zeta. intros Hreq Hfind.
  unfold TaskContext.updateTask. cbv zeta. rewrite Hreq.
  unfold SyncService.updateOfflineTask. cbv zeta.
  change (SyncService.getOfflineTasks (SyncService.set_net n (TaskContext.syncService p)))
    with (SyncService.getOfflineTasks (TaskContext.syncService p)).
  by rewrite Hfind.
Qed.


(** X25 -- When the request of [deleteTask] fails, the deletion is stored
    offline: the local store no longer holds the task, a DELETE
    operation is queued, [DELETE_TASK] is dispatched and the caller gets
    the error of the request. *)
Theorem deleteTask_stored_offline taskId d p u error n :
  let w := TaskContext.syncService p in
  StorageService.useLocalStorage (SyncService.storage w) = false ->
  SyncService.svc_userId w = Some u ->
  tasks_wf (SyncService.storage w) ->
  ObjectStore.get (id (enqueued (SyncService.Delete taskId, d)))
                  (StorageService.sync_store (SyncService.storage w)) = None ->
  TaskService.deleteTask taskId (SyncService.net w) = (Throw error, n) ->
  let p' := snd (TaskContext.deleteTask taskId d p) in
  fst (TaskContext.deleteTask taskId d p) = Throw error
  /\ TaskContext.dispatched p'
     = (TaskContext.dispatched p ++ [TaskContext.DELETE_TASK taskId])%list
  /\ SyncService.find_task taskId
       (StorageService.getTasks u (SyncService.storage (TaskContext.syncService p')))
     = None
  /\ In (enqueued (SyncService.Delete taskId, d))
        (queued (SyncService.storage (TaskContext.syncService p'))).
Proof.
  cbv zeta. intros E Hu Hwf Hfresh Hreq.
  unfold TaskContext.deleteTask. cbv zeta. rewrite Hreq.
  unfold SyncService.deleteOfflineTask. cbv zeta.
  cbn [SyncService.storage SyncService.set_storage SyncService.set_net
       SyncService.svc_userId].
  rewrite Hu.
  set (s1 := StorageService.deleteTask taskId (Some u)
               (SyncService.storage (TaskContext.syncService p))).
  assert (StorageService.useLocalStorage s1 = false) as E1.
  { pose proof (deleteTask_queue_state taskId (Some u)
                  (SyncService.storage (TaskContext.syncService p))) as Hqs.
    fold s1 in Hqs. unfold queue_state in Hqs. injection Hqs as ? _ _. congruence. }
  assert (StorageService.sync_store s1
          = StorageService.sync_store (SyncService.storage (TaskContext.syncService p)))
    as Hq.
  { pose proof (deleteTask_queue_state taskId (Some u)
                  (SyncService.storage (TaskContext.syncService p))) as Hqs.
    fold s1 in Hqs. unfold queue_state in Hqs. by injection Hqs as _ ? _. }
  rewrite addToSyncQueue_fresh; [|exact E1|by rewrite Hq].
  cbn [fst snd TaskContext.do_dispatch TaskContext.syncService TaskContext.dispatched
       SyncService.storage SyncService.set_storage].
  split_and!; try done.
  - rewrite getTasks_set_sync_store. unfold s1.
    rewrite find_after_delete_own by done. by rewrite String.eqb_refl.
  - apply (queued_put _ _ _ s1 E1).
Qed.

(** X26 -- A response without a JSON body poisons the list: [createTask]
    then dispatches [ADD_TASK] with [null], the reducer stores the
    [null] entry, and from then on every [UPDATE_TASK] and every
    [DELETE_TASK] throws a [TypeError]. *)
Theorem null_task_poisons_state taskData d p n st :
  TaskService.createTask (Some taskData) (SyncService.net (TaskContext.syncService p))
  = (Ok None, n) ->
  TaskContext.dispatched (snd (TaskContext.createTask taskData d p))
  = (TaskContext.dispatched p ++ [TaskContext.ADD_TASK None])%list
  /\ exists st',
       TaskContext.taskReducer st (TaskContext.ADD_TASK None) = Ok st'
       /\ forall payload taskId,
            TaskContext.taskReducer st' (TaskContext.UPDATE_TASK payload)
            = Throw TaskContext.null_id
            /\ TaskContext.taskReducer st' (TaskContext.DELETE_TASK taskId)
               = Throw TaskContext.null_id.
Proof.
  intros Hreq. unfold TaskContext.createTask. cbv zeta. rewrite Hreq. simpl.
  split; [done|]. eexists. split; [reflexivity|]. intros payload taskId. simpl.
  by destruct payload.
Qed.

End provider.

Lemma network_error_unreachable :
  TaskService.createTask (Some {[ "title" := VStr "Buy milk" ]})
                         (SyncService.net unreachable_world)
  = (Throw (JsError "Error" "Network error. Please check your connection."),
     snd (TaskService.createTask (Some {[ "title" := VStr "Buy milk" ]})
                                 (SyncService.net unreachable_world))).
Proof. reflexivity. Defined.

Lemma createTask_stored_offline_witness :
  let p := TaskContext.Provider unreachable_world [] in
  let x := offline_task "u1" {[ "title" := VStr "Buy milk" ]} demo_draw in
  let r := TaskContext.createTask {[ "title" := VStr "Buy milk" ]} demo_draw p in
  fst r = Throw (JsError "Error" "Network error. Please check your connection.")
  /\ TaskContext.dispatched (snd r) = [TaskContext.ADD_TASK (Some x)]
  /\ In x (StorageService.getTasks "u1"
             (SyncService.storage (TaskContext.syncService (snd r))))
  /\ List.map id (queued (SyncService.storage (TaskContext.syncService (snd r))))
     = ["CREATE_offline_1000_0.5_0.7"].
Proof.
  cbv zeta.
  destruct (createTask_stored_offline
              {[ "title" := VStr "Buy milk" ]} demo_draw
              (TaskContext.Provider unreachable_world []) "u1" _ _
              eq_refl eq_refl eq_refl network_error_unreachable)
    as (Hr & Hd & Hin & _).
  split; [exact Hr|]. split; [exact Hd|]. split; [exact Hin|reflexivity].
Defined.

Lemma network_error_degraded :
  TaskService.createTask (Some {[ "title" := VStr "Buy milk" ]})
                         (SyncService.net degraded_world)
  = (Throw (JsError "Error" "Network error. Please check your connection."),
     snd (TaskService.createTask (Some {[ "title" := VStr "Buy milk" ]})
                                 (SyncService.net degraded_world))).
Proof. reflexivity. Defined.

Lemma createTask_degraded_witness :
  let p := TaskContext.Provider degraded_world [] in
  let x := offline_task "u1" {[ "title" := VStr "Buy milk" ]} demo_draw in
  let r := TaskContext.createTask {[ "title" := VStr "Buy milk" ]} demo_draw p in
  fst r = Throw (JsError "TypeError" "queue.push is not a function")
  /\ TaskContext.dispatched (snd r) = []
  /\ In x (StorageService.getTasks "u1"
             (SyncService.storage (TaskContext.syncService (snd r))))
  /\ queued (SyncService.storage (TaskContext.syncService (snd r))) = [].
Proof.
  cbv zeta.
  destruct (createTask_degraded
              {[ "title" := VStr "Buy milk" ]} demo_draw
              (TaskContext.Provider degraded_world []) "u1" _ _
              eq_refl eq_refl network_error_degraded)
    as (Hr & Hd & Hin & _).
  split; [exact Hr|]. split; [exact Hd|]. split; [exact Hin|reflexivity].
Defined.

Lemma update_error_unreachable :
  TaskService.updateTask "t2" (Some {[ "completed" := VBool true ]})
                         (SyncService.net unreachable_world)
  = (Throw (JsError "Error" "Network error. Please check your connection."),
     snd (TaskService.updateTask "t2" (Some {[ "completed" := VBool true ]})
                                 (SyncService.net unreachable_world))).
Proof. reflexivity. Defined.

Lemma updateTask_not_local_witness :
  fst (TaskService.updateTask "t2" (Some {[ "completed" := VBool true ]})
                              (SyncService.net unreachable_world))
  = Throw (JsError "Error" "Network error. Please check your connection.")
  /\ fst (TaskContext.updateTask "t2" {[ "completed" := VBool true ]} demo_draw
            (TaskContext.Provider unreachable_world []))
     = Throw (JsError "Error" "Task not found").
Proof.
  split; [reflexivity|].
  rewrite (updateTask_not_local "t2" {[ "completed" := VBool true ]} demo_draw
             (TaskContext.Provider unreachable_world []) _ _
             update_error_unreachable eq_refl).
  reflexivity.
Defined.



Lemma delete_not_found_gone :
  TaskService.deleteTask "gone" (SyncService.net gone_world)
  = (Throw (JsError "Error" "Task not found"),
     snd (TaskService.deleteTask "gone" (SyncService.net gone_world))).
Proof. reflexivity. Defined.

Lemma deleteTask_stored_offline_witness :
  let p := TaskContext.Provider gone_world [] in
  let r := TaskContext.deleteTask "gone" demo_draw p in
  fst r = Throw (JsError "Error" "Task not found")
  /\ TaskContext.dispatched (snd r) = [TaskContext.DELETE_TASK "gone"]
  /\ List.map id (queued (SyncService.storage (TaskContext.syncService (snd r))))
     = ["DELETE_gone_0.3"; "DELETE_gone_0.7"].
Proof.
  cbv zeta.
  destruct (deleteTask_stored_offline
              "gone" demo_draw (TaskContext.Provider gone_world []) "u1" _ _
              eq_refl eq_refl gone_world_tasks_wf eq_refl delete_not_found_gone)
    as (Hr & Hd & _ & _).
  split; [exact Hr|]. split; [exact Hd|reflexivity].
Defined.

Lemma no_content_answer :
  TaskService.createTask (Some {[ "title" := VStr "Buy milk" ]})
                         (SyncService.net no_content_world)
  = (Ok None, tt).
Proof. reflexivity. Defined.

Lemma null_task_poisons_state_witness :
  let p := TaskContext.Provider no_content_world [] in
  let r := TaskContext.createTask {[ "title" := VStr "Buy milk" ]} demo_draw p in
  fst r = Ok None
  /\ TaskContext.dispatched (snd r) = [TaskContext.ADD_TASK None]
  /\ TaskContext.reduce [TaskContext.ADD_TASK None; TaskContext.DELETE_TASK "t1"]
                        demo_state
     = Throw TaskContext.null_id.
Proof.
  cbv zeta. split; [reflexivity|].
  destruct (null_task_poisons_state
              {[ "title" := VStr "Buy milk" ]} demo_draw
              (TaskContext.Provider no_content_world []) tt demo_state no_content_answer)
    as (Hd & st' & Hadd & Hthrow).
  split; [exact Hd|].
  change (TaskContext.reduce [TaskContext.ADD_TASK None; TaskContext.DELETE_TASK "t1"]
                             demo_state)
    with (match TaskContext.taskReducer demo_state (TaskContext.ADD_TASK None) with
          | Ok st => TaskContext.taskReducer st (TaskContext.DELETE_TASK "t1")
          | Throw e => Throw e
          end).
  rewrite Hadd. exact (proj2 (Hthrow None "t1")).
Defined.


(** ** The queue over a pass *)

Section queue_over_pass.
Context {Net : Type} `{Gateway Net}.
Implicit Types (w : SyncService.t Net) (s : StorageService.t).

Lemma syncOperation_queue_wf w operation :
  queue_wf (SyncService.storage w) ->
  queue_wf (SyncService.storage (SyncService.syncOperation w operation)).
Proof.
  intros Hwf. unfold SyncService.syncOperation.
  pose proof (processOperation_queue_state operation w) as Hq.
  destruct (SyncService.processOperation operation w) as [[|] w1]; simpl in *;
    [|by eapply queue_wf_queue_state].
  apply (queue_wf_queue_state _ _ Hq) in Hwf.
  unfold StorageService.removeFromSyncQueue, StorageService.getSyncQueue, queue_wf in *.
  destruct (StorageService.useLocalStorage (SyncService.storage w1)) eqn:E; simpl.
  - rewrite E. congruence.
  - intros _. by apply remove_wf, Hwf.
Qed.

Lemma syncOperation_mode w operation :
  StorageService.useLocalStorage (SyncService.storage (SyncService.syncOperation w operation))
  = StorageService.useLocalStorage (SyncService.storage w).
Proof.
  unfold SyncService.syncOperation.
  pose proof (processOperation_queue_state operation w) as Hq.
  unfold queue_state in Hq. injection Hq as Hu _ _.
  destruct (SyncService.processOperation operation w) as [[|] w1]; simpl in *; [|done].
  unfold StorageService.removeFromSyncQueue, StorageService.getSyncQueue.
  destruct (StorageService.useLocalStorage (SyncService.storage w1)) eqn:E; simpl;
    congruence.
Qed.

Lemma drain_queue_wf l w :
  queue_wf (SyncService.storage w) ->
  queue_wf (SyncService.storage (fold_left SyncService.syncOperation l w)).
Proof.
  revert w. induction l as [|o l IH]; intros w Hwf; simpl; [done|].
  by apply IH, syncOperation_queue_wf.
Qed.

Lemma drain_mode l w :
  StorageService.useLocalStorage
    (SyncService.storage (fold_left SyncService.syncOperation l w))
  = StorageService.useLocalStorage (SyncService.storage w).
Proof.
  revert w. induction l as [|o l IH]; intros w; simpl; [done|].
  by rewrite IH, syncOperation_mode.
Qed.

(** X27 -- An operation that is processed without an error leaves the
    queue: when the pass ends, the queue holds no operation under its
    identifier, whatever happened to the operations around it. *)
Theorem processed_operation_removed w before operation after :
  may_sync w = true ->
  queue_wf (SyncService.storage w) ->
  StorageService.useLocalStorage (SyncService.storage w) = false ->
  queued (SyncService.storage w) = (before ++ operation :: after)%list ->
  is_ok (fst (SyncService.processOperation operation
                (fold_left SyncService.syncOperation before
                           (SyncService.set_syncInProgress true w)))) = true ->
  ~ In operation (queued (SyncService.storage (SyncService.syncPendingChanges w)))
  /\ forall x, In x (queued (SyncService.storage (SyncService.syncPendingChanges w))) ->
               id x <> id operation.
Proof.
  intros Hsync Hwf E Hq Hok.
  assert (forall x, In x (queued (SyncService.storage (SyncService.syncPendingChanges w))) ->
                    id x <> id operation) as Hgone; [|split; [|done]].
  2:{ intros Hin. by apply (Hgone operation Hin). }
  intros x. rewrite (syncPendingChanges_pass w Hsync), Hq, fold_left_app.
  simpl fold_left.
  set (w1 := fold_left SyncService.syncOperation before
                       (SyncService.set_syncInProgress true w)) in *.
  cbn [SyncService.storage SyncService.set_syncInProgress].
  rewrite (queued_queue_state _ _ (syncFromServer_queue_state _)).
  intros Hin%drain_queue. revert Hin.
  assert (queue_wf (SyncService.storage w1)) as Hwf1 by by apply drain_queue_wf.
  assert (StorageService.useLocalStorage (SyncService.storage w1) = false) as E1
      by (unfold w1; by rewrite drain_mode).
  unfold SyncService.syncOperation.
  pose proof (processOperation_queue_state operation w1) as Hqs.
  destruct (SyncService.processOperation operation w1) as [[|] wp]; simpl in *; [|done].
  unfold queue_state in Hqs. injection Hqs as Hu Hstore _.
  unfold StorageService.removeFromSyncQueue. rewrite Hu, E1. simpl.
  unfold queued, StorageService.getSyncQueue. simpl. rewrite Hu, E1, Hstore. simpl.
  unfold ObjectStore.getAll, ObjectStore.remove.
  intros (kv & <- & [Hkv Hne]%filter_In)%List.in_map_iff.
  destruct (Hwf1 E1) as [_ Hkeys]. rewrite List.Forall_forall in Hkeys.
  rewrite <- (Hkeys kv Hkv). apply negb_true_iff, String.eqb_neq in Hne. congruence.
Qed.

Lemma addToSyncQueue_queue_wf operation now rnd s :
  queue_wf s -> queue_wf (snd (StorageService.addToSyncQueue operation now rnd s)).
Proof.
  intros Hwf. unfold StorageService.addToSyncQueue, StorageService.getSyncQueue. cbv zeta.
  destruct (StorageService.useLocalStorage s) eqn:E; [done|].
  unfold ObjectStore.add. destruct (ObjectStore.get _ _); [done|].
  unfold queue_wf.
  cbn [snd StorageService.sync_store StorageService.set_sync_store
       StorageService.useLocalStorage].
  intros _. apply (put_wf id (StorageService.make_syncItem operation now rnd)).
  by apply Hwf.
Qed.

Lemma offline_apply_queue_wf w md :
  queue_wf (SyncService.storage w) ->
  queue_wf (SyncService.storage (SyncService.offline_apply w md)).
Proof.
  intros Hwf.
  destruct md as [[taskData|taskId updates|taskId] d];
    unfold SyncService.offline_apply, SyncService.createOfflineTask,
           SyncService.updateOfflineTask, SyncService.deleteOfflineTask; cbv zeta.
  - match goal with
    | |- context [StorageService.addToSyncQueue ?o ?t ?r ?s] =>
        pose proof (addToSyncQueue_queue_wf o t r s) as Hadd;
        destruct (StorageService.addToSyncQueue o t r s) as [[|] s']
    end; simpl in *; apply Hadd;
      by apply (queue_wf_queue_state _ _ (saveTask_queue_state _ _)).
  - destruct (SyncService.find_task _ _); [|done].
    match goal with
    | |- context [StorageService.addToSyncQueue ?o ?t ?r ?s] =>
        pose proof (addToSyncQueue_queue_wf o t r s) as Hadd;
        destruct (StorageService.addToSyncQueue o t r s) as [[|] s']
    end; simpl in *; apply Hadd;
      by apply (queue_wf_queue_state _ _ (saveTask_queue_state _ _)).
  - match goal with
    | |- context [StorageService.addToSyncQueue ?o ?t ?r ?s] =>
        pose proof (addToSyncQueue_queue_wf o t r s) as Hadd;
        destruct (StorageService.addToSyncQueue o t r s) as [[|] s']
    end; simpl in *; apply Hadd;
      by apply (queue_wf_queue_state _ _ (deleteTask_queue_state _ _ _)).
Qed.

(** X28 -- A pass drains the queue as it read it at its start.  An
    operation that the offline layer enqueues while the pass is
    suspended in its loop is not part of it: when the pass has ended,
    with its flag cleared, the operation is still queued, for the next
    pass. *)
Theorem enqueued_during_pass_waits w remaining mu d :
  queue_wf (SyncService.storage w) ->
  In (enqueued (mu, d)) (queued (SyncService.storage (SyncService.offline_apply w (mu, d)))) ->
  Forall (fun o => id (enqueued (mu, d)) <> id o) remaining ->
  let m := SyncService.run
             (SyncService.EvMutate mu d
              :: replicate (length remaining + 2) (SyncService.EvResume 0))
             (SyncService.Machine w [SyncService.Draining remaining]) in
  SyncService.passes m = []
  /\ SyncService.syncInProgress (SyncService.world m) = false
  /\ In (enqueued (mu, d)) (queued (SyncService.storage (SyncService.world m))).
Proof.
  intros Hwf Hin Hids. cbv zeta.
  set (w1 := SyncService.offline_apply w (mu, d)) in *.
  assert (SyncService.run
            (SyncService.EvMutate mu d
             :: replicate (length remaining + 2) (SyncService.EvResume 0))
            (SyncService.Machine w [SyncService.Draining remaining])
          = SyncService.Machine
              (SyncService.set_syncInProgress false
                 (SyncService.syncFromServer
                    (fold_left SyncService.syncOperation remaining w1))) []) as ->.
  { change (SyncService.run
              (SyncService.EvMutate mu d
               :: replicate (length remaining + 2) (SyncService.EvResume 0))
              (SyncService.Machine w [SyncService.Draining remaining]))
      with (SyncService.run
              (replicate (length remaining + 2) (SyncService.EvResume 0))
              (SyncService.Machine w1 [SyncService.Draining remaining])).
    rewrite replicate_add. unfold SyncService.run. rewrite fold_left_app.
    fold (SyncService.run (replicate (length remaining) (SyncService.EvResume 0))
                          (SyncService.Machine w1 [SyncService.Draining remaining])).
    rewrite (run_draining remaining w1). reflexivity. }
  split; [done|]. split; [done|].
  cbn [SyncService.world SyncService.storage SyncService.set_syncInProgress].
  rewrite (queued_queue_state _ _ (syncFromServer_queue_state _)).
  apply drain_keeps; [by apply offline_apply_queue_wf|done|done].
Qed.

End queue_over_pass.

Lemma processed_operation_removed_witness :
  may_sync outage_world = true
  /\ queued (SyncService.storage outage_world) = [delete_t1; delete_t2]
  /\ is_ok (fst (SyncService.processOperation delete_t2
                   (fold_left SyncService.syncOperation [delete_t1]
                              (SyncService.set_syncInProgress true outage_world)))) = true
  /\ ~ In delete_t2
         (queued (SyncService.storage (SyncService.syncPendingChanges outage_world))).
Proof.
  split; [reflexivity|]. split; [reflexivity|]. split; [reflexivity|].
  exact (proj1 (processed_operation_removed outage_world [delete_t1] delete_t2 []
                  eq_refl outage_world_queue_wf eq_refl eq_refl eq_refl)).
Defined.

Lemma enqueued_during_pass_waits_witness :
  let w := SyncService.set_syncInProgress true gone_world in
  let m := SyncService.run
             [SyncService.EvMutate (SyncService.Delete "t1") demo_draw;
              SyncService.EvResume 0; SyncService.EvResume 0; SyncService.EvResume 0]
             (SyncService.Machine w [SyncService.Draining [delete_gone]]) in
  queue_wf (SyncService.storage w)
  /\ SyncService.passes m = []
  /\ SyncService.syncInProgress (SyncService.world m) = false
  /\ In (enqueued (SyncService.Delete "t1", demo_draw))
        (queued (SyncService.storage (SyncService.world m))).
Proof.
  cbv zeta. split; [exact gone_world_queue_wf|].
  assert (In (enqueued (SyncService.Delete "t1", demo_draw))
             (queued (SyncService.storage
                        (SyncService.offline_apply
                           (SyncService.set_syncInProgress true gone_world)
                           (SyncService.Delete "t1", demo_draw))))) as Hin.
  { right. left. reflexivity. }
  assert (Forall (fun o => id (enqueued (SyncService.Delete "t1", demo_draw)) <> id o)
                 [delete_gone]) as Hids.
  { constructor; [discriminate|constructor]. }
  exact (enqueued_during_pass_waits
           (SyncService.set_syncInProgress true gone_world) [delete_gone]
           (SyncService.Delete "t1") demo_draw gone_world_queue_wf Hin Hids).
Defined.

(** ** Owners and identifiers in the two media *)

Section owners.
Implicit Types (s : StorageService.t) (x : task).

(** X29 -- What [saveTask] does to the tasks of another user depends on
    the medium.  In the localStorage path the list of the other user is
    not touched.  In IndexedDB the identifier is the key of the store,
    whoever owns the task: the other user keeps every task but the one,
    if any, that carried the identifier of the saved task. *)
Theorem saveTask_other_user x s u' i :
  tasks_wf s ->
  userId x <> Some u' ->
  interpolate (userId x) <> u' ->
  SyncService.find_task i (StorageService.getTasks u' (StorageService.saveTask x s))
  = if StorageService.useLocalStorage s
    then SyncService.find_task i (StorageService.getTasks u' s)
    else if String.eqb (_id x) i then None
         else SyncService.find_task i (StorageService.getTasks u' s).
Proof.
  intros Hwf Hown Hkey. destruct (StorageService.useLocalStorage s) eqn:E.
  - rewrite (saveTask_localStorage x s E). unfold StorageService.getTasks. simpl.
    by rewrite E, lookup_insert_ne.
  - rewrite (saveTask_indexedDB x s E). unfold StorageService.getTasks. simpl. rewrite E.
    specialize (Hwf E).
    pose proof (put_wf _id x _ Hwf) as Hwf'.
    rewrite !find_task_filter by by apply (wf_getAll_NoDup _id).
    rewrite (find_task_getAll _ i (proj2 Hwf')), (find_task_getAll _ i (proj2 Hwf)).
    rewrite get_put, String.eqb_sym.
    destruct (String.eqb (_id x) i); [|done].
    by rewrite bool_decide_eq_false_2.
Qed.

(** X30 -- [deleteTask] takes a user, and uses it in the localStorage
    path only.  There, the task leaves the list of that user and of no
    other.  In IndexedDB the record is deleted by its key, whoever owns
    it: afterwards no user has a task under the identifier. *)
Theorem deleteTask_owner taskId uo s u' i :
  tasks_wf s ->
  SyncService.find_task i
    (StorageService.getTasks u' (StorageService.deleteTask taskId uo s))
  = if StorageService.useLocalStorage s && negb (String.eqb u' (interpolate uo))
    then SyncService.find_task i (StorageService.getTasks u' s)
    else if String.eqb taskId i then None
         else SyncService.find_task i (StorageService.getTasks u' s).
Proof.
  intros Hwf. destruct (StorageService.useLocalStorage s) eqn:E; simpl.
  - unfold StorageService.deleteTask. rewrite E. cbv zeta.
    unfold StorageService.getTasks at 1. simpl. rewrite E.
    destruct (String.eqb_spec u' (interpolate uo)) as [->|Hne]; simpl.
    + rewrite lookup_insert_eq. apply find_task_remove_id.
    + rewrite lookup_insert_ne by done. unfold StorageService.getTasks. by rewrite E.
  - by apply find_after_deleteTask.
Qed.

End owners.

Lemma saveTask_other_user_witness :
  let renamed := {| _id := "t9"; userId := Some "u1"; createdAt := 20; updatedAt := 20;
                    isOffline := false; fields := {[ "title" := VStr "Buy milk" ]} |} in
  tasks_wf shared_indexedDB
  /\ SyncService.find_task "t9" (StorageService.getTasks "u2" shared_indexedDB)
     = Some demo_task_u2
  /\ SyncService.find_task "t9"
       (StorageService.getTasks "u2" (StorageService.saveTask renamed shared_indexedDB))
     = None.
Proof.
  cbv zeta. split; [exact shared_indexedDB_tasks_wf|]. split; [reflexivity|].
  assert (Some "u1" <> Some "u2") as Hown by discriminate.
  assert ("u1" <> "u2") as Hkey by discriminate.
  exact (saveTask_other_user
           {| _id := "t9"; userId := Some "u1"; createdAt := 20; updatedAt := 20;
              isOffline := false; fields := {[ "title" := VStr "Buy milk" ]} |}
           shared_indexedDB "u2" "t9" shared_indexedDB_tasks_wf Hown Hkey).
Defined.

Lemma deleteTask_owner_witness :
  tasks_wf shared_indexedDB
  /\ SyncService.find_task "t9" (StorageService.getTasks "u2" shared_indexedDB)
     = Some demo_task_u2
  /\ SyncService.find_task "t9"
       (StorageService.getTasks "u2"
          (StorageService.deleteTask "t9" (Some "u1") shared_indexedDB))
     = None.
Proof.
  split; [exact shared_indexedDB_tasks_wf|]. split; [reflexivity|].
  exact (deleteTask_owner "t9" (Some "u1") shared_indexedDB "u2" "t9"
           shared_indexedDB_tasks_wf).
Defined.
